(** * ENSO conditional-mutual-information maps: a model of [main_compute_CMImap.py]

    The script decomposes one monthly time series at every scale of a grid,
    fills four pairs of [S x S] matrices with information measures, repeats
    the computation on surrogate realisations with a pool of worker
    processes, and pickles the (stacked) matrices.

    The script, top-down:
    - [Py]        exceptions and the loops of the script as an error monad;
    - [Numpy]     the few numpy operations the script calls;
    - [Results]   the class [ResultsContainer];
    - [Engine]    [compute_causality] and [compute_information_measures],
                  over the estimators and the wavelet transform of
                  [pyclits], which are parameters;
    - [Binary64]  [compute_causality] once more, in the double precision
                  of [np.float64];
    - [Pool]      the job and result queues of [main] and
                  [_process_surrogates], as interleaved moves;
    - [Main]      the two stages of [main] that compute and save;
    - [Load]      [prepare_dataset], over the calls into [xarray] and
                  [pyclits], which are parameters.
    What is proved about it:
    - [Spec]      the notions of the specification;
    - [Closed], [Ensemble], [Schedule]
                  closed forms of the loops, ensembles of bundles, and
                  the invariant of the pool;
    - [Loading]   libraries to load a series with;
    - the theorems, component by component.

    Python 2 semantics are used throughout (the script imports [cPickle]
    and calls [iteritems]): [/] on integers is floor division.  A
    [float64] is idealised as an exact rational or [nan]; what depends on
    rounding is settled on [Binary64], where it is a double. *)

From Stdlib Require Import ZArith QArith List Lia Floats Uint63.
From stdpp Require Import base option list gmap strings fin_maps.

#[local] Set Warnings "-register-all".
#[local] Open Scope nat_scope.

(* ================================================================== *)
(** * Python exceptions and control flow *)

Module Py.

Inductive exn :=
| AssertionError | TypeError | ValueError | IndexError | KeyError
| AttributeError.

(** The outcome of running a piece of Python: a value or a raised
    exception. *)
Inductive outcome (A : Type) :=
| Return (a : A)
| Raise (e : exn).
Arguments Return {A} a.
Arguments Raise {A} e.

#[export] Instance outcome_ret : MRet outcome := λ A a, Return a.

#[export] Instance outcome_bind : MBind outcome := λ A B k m,
  match m with
  | Return a => k a
  | Raise e => Raise e
  end.

(** [assert cond] *)
Definition py_assert (cond : bool) : outcome unit :=
  if cond then Return () else Raise AssertionError.

(** [for x in l: s = body(s, x)], leaving at the first exception. *)
Fixpoint for_each {St A} (body : St → A → outcome St) (s : St)
    (l : list A) : outcome St :=
  match l with
  | [] => Return s
  | x :: l' => s' ← body s x; for_each body s' l'
  end.

(** [range(lo, hi)] *)
Definition range (lo hi : Z) : list Z :=
  (λ k : nat, (lo + Z.of_nat k)%Z) <$> seq 0 (Z.to_nat (hi - lo)).

(** [enumerate(l)] *)
Definition enumerate {A} (l : list A) : list (nat * A) :=
  zip (seq 0 (length l)) l.

End Py.
Import Py.

(* ================================================================== *)
(** * The numpy operations of the script *)

Module Numpy.

(** A [float64], idealised: an exact rational, or [nan].  Rounding and
    infinities are outside the model. *)
Inductive float64 :=
| Fin (q : Q)
| NaN.

#[export] Instance float64_inhabited : Inhabited float64 := populate NaN.

Definition fzero : float64 := Fin 0.

Definition fadd (x y : float64) : float64 :=
  match x, y with
  | Fin a, Fin b => Fin (a + b)
  | _, _ => NaN
  end.

Definition fmul (x y : float64) : float64 :=
  match x, y with
  | Fin a, Fin b => Fin (a * b)
  | _, _ => NaN
  end.

(** Division by an element count; [0.0 / 0] is [nan]. *)
Definition fdiv_count (x : float64) (n : nat) : float64 :=
  match x, n with
  | Fin a, S _ => Fin (a / inject_Z (Z.of_nat n))
  | _, _ => NaN
  end.

(** An [ndarray]: its shape and its elements in row-major order. *)
Record ndarray := NdArray { shape : list nat; elems : list float64 }.

#[export] Instance ndarray_inhabited : Inhabited ndarray :=
  populate (NdArray [0] []).

Definition prod (dims : list nat) : nat := foldr Nat.mul 1 dims.

(** The representation invariant of a numpy array. *)
Definition wf_array (a : ndarray) : Prop :=
  length (elems a) = prod (shape a).

(** [np.zeros(shape)] *)
Definition np_zeros (dims : list nat) : ndarray :=
  NdArray dims (replicate (prod dims) fzero).

(** [a[i, j] = v].  On a matrix this writes one cell; on an array of
    higher rank numpy broadcasts [v] over the block [a[i, j, ...]]. *)
Definition setitem2 (a : ndarray) (i j : nat) (v : float64)
  : outcome ndarray :=
  match shape a with
  | m :: n :: rest =>
      if decide (i < m ∧ j < n) then
        Return (NdArray (shape a)
                  (list_inserts ((i * n + j) * prod rest)
                     (replicate (prod rest) v) (elems a)))
      else Raise IndexError
  | _ => Raise IndexError
  end.

(** [a[i, j]] of a matrix. *)
Definition getitem2 (a : ndarray) (i j : nat) : outcome float64 :=
  match shape a with
  | [m; n] =>
      if decide (i < m ∧ j < n) then
        match elems a !! (i * n + j) with
        | Some v => Return v
        | None => Raise IndexError
        end
      else Raise IndexError
  | _ => Raise IndexError
  end.

(** [np.power(a, 2)] *)
Definition np_power2 (a : ndarray) : ndarray :=
  NdArray (shape a) ((λ x, fmul x x) <$> elems a).

Definition np_sum (l : list float64) : float64 := foldl fadd fzero l.

(** [np.mean(np.array(l))]: the sum over the number of elements; on an
    empty array numpy warns and returns [nan]. *)
Definition np_mean (l : list float64) : float64 :=
  fdiv_count (np_sum l) (length l).

(** [l] cut into [count] consecutive blocks of [size] elements. *)
Fixpoint blocks {A} (count size : nat) (l : list A) : list (list A) :=
  match count with
  | 0 => []
  | S c => take size l :: blocks c size (drop size l)
  end.

(** [np.atleast_3d(a)] *)
Definition atleast_3d (a : ndarray) : ndarray :=
  match shape a with
  | [] => NdArray [1; 1; 1] (elems a)
  | [n] => NdArray [1; n; 1] (elems a)
  | [m; n] => NdArray [m; n; 1] (elems a)
  | _ => a
  end.

(** [np.concatenate([a, b], axis=2)] *)
Definition concatenate_axis2 (a b : ndarray) : outcome ndarray :=
  match shape a, shape b with
  | m :: n :: ka :: ra, m' :: n' :: kb :: rb =>
      if decide (m = m' ∧ n = n' ∧ ra = rb) then
        Return (NdArray (m :: n :: (ka + kb) :: ra)
                  (concat (zip_with app
                             (blocks (m * n) (ka * prod ra) (elems a))
                             (blocks (m * n) (kb * prod rb) (elems b)))))
      else Raise ValueError
  | _, _ => Raise ValueError
  end.

(** [np.dstack(arrays)] *)
Definition np_dstack (arrays : list ndarray) : outcome ndarray :=
  match atleast_3d <$> arrays with
  | [] => Raise ValueError
  | a :: rest => for_each concatenate_axis2 a rest
  end.

(** [a[:, :, k]] of a rank-3 array. *)
Definition slice_axis2 (a : ndarray) (k : nat) : outcome ndarray :=
  match shape a with
  | [m; n; p] =>
      if decide (k < p) then
        Return (NdArray [m; n]
                  ((λ blk : list float64, blk !!! k)
                     <$> blocks (m * n) p (elems a)))
      else Raise IndexError
  | _ => Raise IndexError
  end.

End Numpy.
Import Numpy.

(* ================================================================== *)
(** * Python values handed to [ResultsContainer] *)

Module Results.

(** The Python values that can reach the container.  Dictionaries are
    keyed by strings, as every dictionary of the script is; a
    dictionary with a key of another type, which
    [validate_single_result] does not look at and on which
    [result_str + "_" + key] of [save] raises [TypeError], is outside
    the model. *)
Inductive pyval :=
| PyNone
| PyInt (z : Z)
| PyFloat (x : float64)
| PyStr (s : string)
| PyList (l : list pyval)
| PyTuple (l : list pyval)
| PyDict (d : gmap string pyval)
| PyNdarray (a : ndarray).

(** [isinstance(v, (list, tuple))] *)
Definition is_list_or_tuple (v : pyval) : bool :=
  match v with PyList _ | PyTuple _ => true | _ => false end.

(** [isinstance(v, dict)] *)
Definition is_dict (v : pyval) : bool :=
  match v with PyDict _ => true | _ => false end.

(** [isinstance(v, np.ndarray)] *)
Definition is_ndarray (v : pyval) : bool :=
  match v with PyNdarray _ => true | _ => false end.

(** [iter(v)]: the elements a [for] loop over [v] visits. *)
Definition py_iter (v : pyval) : outcome (list pyval) :=
  match v with
  | PyList l | PyTuple l => Return l
  | PyDict d => Return (PyStr <$> (map_to_list d).*1)
  | PyStr s => Return ((λ c, PyStr (String c EmptyString))
                         <$> String.list_ascii_of_string s)
  | PyNdarray a =>
      match shape a with
      | [] => Raise TypeError
      | [n] => Return (PyFloat <$> elems a)
      | n :: rest =>
          Return ((λ blk, PyNdarray (NdArray rest blk))
                    <$> blocks n (prod rest) (elems a))
      end
  | PyNone | PyInt _ | PyFloat _ => Raise TypeError
  end.

(** [len(v)] *)
Definition py_len (v : pyval) : outcome nat :=
  match v with
  | PyList l | PyTuple l => Return (length l)
  | PyDict d => Return (size d)
  | PyStr s => Return (String.length s)
  | PyNdarray a =>
      match shape a with
      | [] => Raise TypeError
      | n :: _ => Return n
      end
  | PyNone | PyInt _ | PyFloat _ => Raise TypeError
  end.

(** [v.iteritems()] *)
Definition iteritems (v : pyval) : outcome (list (string * pyval)) :=
  match v with
  | PyDict d => Return (map_to_list d)
  | _ => Raise AttributeError
  end.

Definition RESULT_ORDER : list string :=
  ["ph_ph_mi"; "ph_amp_mi"; "ph_ph_caus"; "ph_amp_caus"].

(** The body of the loop over the entries of one result. *)
Definition validate_entry (_ : unit) (single_result : pyval)
  : outcome unit :=
  _ ← py_assert (is_dict single_result);
  n ← py_len single_result;
  _ ← py_assert (bool_decide (n = 2));
  items ← iteritems single_result;
  for_each (λ _ '(key, value), py_assert (is_ndarray value)) () items.

(** [ResultsContainer.validate_single_result] *)
Definition validate_single_result (result : pyval) : outcome unit :=
  _ ← py_assert (is_list_or_tuple result);
  n ← py_len result;
  _ ← py_assert (bool_decide (n = 4));
  entries ← py_iter result;
  for_each validate_entry () entries.

Record ResultsContainer := Container {
  surrogates : bool;
  results : pyval
}.

(** [ResultsContainer.__init__] *)
Definition init (results : pyval) (surrogates : bool)
  : outcome ResultsContainer :=
  _ ← (if negb surrogates then validate_single_result results
       else
         _ ← py_len results;
         members ← py_iter results;
         for_each (λ _ surrogate_result,
                     validate_single_result surrogate_result) () members);
  mret (Container surrogates results).

(** What [cPickle.dump] receives. *)
Abbreviation saving := (gmap string pyval).

(** [np.dstack([old, new])] on the values of the dictionary.  The values
    of a constructed container are arrays ([validate_single_result]);
    [np.dstack] is modelled on arrays only and any other value is
    answered [TypeError]. *)
Definition dstack_values (old new : pyval) : outcome pyval :=
  match old, new with
  | PyNdarray a, PyNdarray b => c ← np_dstack [a; b]; mret (PyNdarray c)
  | _, _ => Raise TypeError
  end.

(** The loop of [save] over one result, without stacking. *)
Definition flatten_result (saving_dict : saving)
    (pair : string * pyval) : outcome saving :=
  let '(result_str, result) := pair in
  items ← iteritems result;
  for_each (λ (saving_dict : saving) '(key, value),
              mret (<[result_str +:+ "_" +:+ key := value]> saving_dict))
    saving_dict items.

(** The loop of [save] over one surrogate result, stacking onto what
    the dictionary already holds. *)
Definition stack_result (saving_dict : saving)
    (pair : string * pyval) : outcome saving :=
  let '(result_str, result) := pair in
  items ← iteritems result;
  for_each (λ (saving_dict : saving) '(key, value),
              let full_key := result_str +:+ "_" +:+ key in
              match saving_dict !! full_key with
              | Some old =>
                  stacked ← dstack_values old value;
                  mret (<[full_key := stacked]> saving_dict)
              | None => mret (<[full_key := value]> saving_dict)
              end)
    saving_dict items.

(** The dictionary [save] builds before it opens the file. *)
Definition saving_dict_of (self : ResultsContainer) : outcome saving :=
  if negb (surrogates self) then
    entries ← py_iter (results self);
    for_each flatten_result ∅ (zip RESULT_ORDER entries)
  else
    members ← py_iter (results self);
    for_each (λ saving_dict single_result,
                entries ← py_iter single_result;
                for_each stack_result saving_dict
                  (zip RESULT_ORDER entries))
      ∅ members.

(** The files written so far: file name to pickled dictionary. *)
Abbreviation disk := (gmap string saving).

(** [ResultsContainer.save]: an exception leaves the disk as it was. *)
Definition save (self : ResultsContainer) (filename : string)
    (fs : disk) : outcome unit * disk :=
  match saving_dict_of self with
  | Return saving_dict => (Return (), <[filename := saving_dict]> fs)
  | Raise e => (Raise e, fs)
  end.

(** The two statements [main] runs per stage:
    [c = ResultsContainer(results, surrogates); c.save(filename)]. *)
Definition construct_and_save (results : pyval) (surrogates : bool)
    (filename : string) (fs : disk) : outcome unit * disk :=
  match init results surrogates with
  | Return container => save container filename fs
  | Raise e => (Raise e, fs)
  end.

End Results.
Import Results.

(* ================================================================== *)
(** * The information grid *)

Module Engine.

Definition PERIODS_SPAN : Z * Z := (5%Z, 96%Z).
Definition NUM_BINS_EQQ : Z := 4.
Definition K_KNN : Z := 64.

(** The grid of [main]:
    [np.arange(PERIODS_SPAN[0], PERIODS_SPAN[-1] + 1, 1)]. *)
Definition main_scales : list Z :=
  range PERIODS_SPAN.1 (PERIODS_SPAN.2 + 1).

(** The collaborators the script imports from [pyclits]: the wavelet
    transform behind [DataField.wavelet] and the estimators of
    [pyclits.mutual_inf].  They are parameters of the model. *)
Class Backend := {
  (** phase and amplitude of [(data, time)] at [period], for a period
      unit and a number of cut years *)
  decompose : ndarray → ndarray → Z → string → Z → ndarray * ndarray;
  (** [mutual_information(x, y, algorithm, bins)] *)
  mutual_information : ndarray → ndarray → string → Z → float64;
  (** [knn_mutual_information(x, y, k, dualtree)] *)
  knn_mutual_information : ndarray → ndarray → Z → bool → float64;
  (** [get_time_series_condition([ts1, ts2], tau, dim_condition, eta,
      phase_diff)] *)
  get_time_series_condition :
    ndarray → ndarray → Z → Z → Z → bool → ndarray * ndarray * ndarray;
  (** [cond_mutual_information(x, y, z, algorithm, bins)] *)
  cond_mutual_information :
    ndarray → ndarray → ndarray → string → Z → float64;
  (** [knn_cond_mutual_information(x, y, z, k, dualtree)] *)
  knn_cond_mutual_information :
    ndarray → ndarray → ndarray → Z → bool → float64
}.

(** A [DataField]: the series with its time axis, and the attributes
    the last call of [wavelet] left behind ([None] before any call). *)
Record DataField := Field {
  data : ndarray;
  time : ndarray;
  phase : option ndarray;
  amplitude : option ndarray
}.

(** The objects [compute_information_measures] is handed: it holds
    references to both, so what it does to them is seen by the caller. *)
Record store := Store {
  field : DataField;
  scales : list Z
}.

(** One pair of matrices, keyed by estimator. *)
Abbreviation measure_set := (gmap string ndarray).

Record grids := Grids {
  phase_phase_coherence : measure_set;
  phase_amp_mi : measure_set;
  phase_phase_causality : measure_set;
  phase_amp_causality : measure_set
}.

(** [attr.copy()] *)
Definition copy (attr : option ndarray) : outcome ndarray :=
  match attr with
  | Some a => Return a
  | None => Raise AttributeError
  end.

(** [d[key][i, j] = v] *)
Definition setitem_at (d : measure_set) (key : string) (i j : nat)
    (v : float64) : outcome measure_set :=
  match d !! key with
  | Some a => a' ← setitem2 a i j v; mret (<[key := a']> d)
  | None => Raise KeyError
  end.

(** [d[key][i, j]] *)
Definition getitem_at (d : measure_set) (key : string) (i j : nat)
  : outcome float64 :=
  match d !! key with
  | Some a => getitem2 a i j
  | None => Raise KeyError
  end.

Section WithBackend.
Context `{B : Backend}.

(** Modelled from the spec: [DataField.wavelet] of [pyclits.geofield],
    which is not under [src/].  The spec has the transform as a
    collaborator with the interface [decompose(series, scale,
    scale_unit, edge_trim) -> (phase, amplitude)] and says that
    "decomposition is a pure function of (field, scale)".  So
    [field.wavelet(period=period, period_unit=unit, cut=cut)] reads
    the samples and the time axis of the field, keeps them, and
    leaves the decomposition in the attributes [phase] and
    [amplitude], which the script reads back after each call. *)
Definition wavelet (mem : store) (period : Z) (unit : string) (cut : Z)
  : store :=
  let f := field mem in
  let '(ph, amp) := decompose (data f) (time f) period unit cut in
  Store (Field (data f) (time f) (Some ph) (Some amp)) (scales mem).

(** One turn of the loop of [compute_causality]. *)
Definition causality_step (timeseries1 timeseries2 : ndarray)
    (algorithm : string) (dim_condition eta : Z) (phase_diff : bool)
    (acc : list float64 * list float64) (tau : Z)
  : list float64 * list float64 :=
  let '(results_simple, results_knn) := acc in
  let '(x, y, z) :=
    get_time_series_condition timeseries1 timeseries2 tau
      dim_condition eta phase_diff in
  (results_simple ++ [cond_mutual_information x y z algorithm NUM_BINS_EQQ],
   results_knn ++ [knn_cond_mutual_information x y z K_KNN true]).

(** [compute_causality] *)
Definition compute_causality (timeseries1 timeseries2 : ndarray)
    (tau_max : Z) (algorithm : string) (dim_condition eta : Z)
    (phase_diff : bool) : float64 * float64 :=
  let '(results_simple, results_knn) :=
    foldl (causality_step timeseries1 timeseries2 algorithm
             dim_condition eta phase_diff)
      ([], []) (range 1 tau_max) in
  (np_mean results_simple, np_mean results_knn).

(** A call of [compute_causality], as the caller sees it: the body
    has no [raise] and no [assert], and [np.mean] of an empty array
    answers [nan] with a [RuntimeWarning], which is no exception.
    The estimators are taken to return, as everywhere in the model;
    on an empty range of lags none of them is called. *)
Definition call_compute_causality (timeseries1 timeseries2 : ndarray)
    (tau_max : Z) (algorithm : string) (dim_condition eta : Z)
    (phase_diff : bool) : outcome (float64 * float64) :=
  Return (compute_causality timeseries1 timeseries2 tau_max algorithm
            dim_condition eta phase_diff).

(** The body of the loop over [j]. *)
Definition inner_body (i : nat) (scale_i : Z) (phase_i : ndarray)
    (st : store * grids) (jscale : nat * Z) : outcome (store * grids) :=
  let '(mem, g) := st in
  let '(j, scale_j) := jscale in
  let mem := wavelet mem scale_j "m" 1 in
  phase_j ← copy (phase (field mem));
  amp_j ← copy (amplitude (field mem));
  (* phase-phase coherence *)
  ppc ← setitem_at (phase_phase_coherence g) "eqq" i j
          (mutual_information phase_i phase_j "EQQ2" NUM_BINS_EQQ);
  ppc ← setitem_at ppc "knn" i j
          (knn_mutual_information phase_i phase_j K_KNN true);
  (* phase-amplitude mutual information *)
  pam ← setitem_at (phase_amp_mi g) "eqq" i j
          (mutual_information phase_i amp_j "EQQ2" NUM_BINS_EQQ);
  pam ← setitem_at pam "knn" i j
          (knn_mutual_information phase_i amp_j K_KNN true);
  (* phase-phase causality *)
  let '(eqq, knn) :=
    compute_causality phase_i phase_j 7 "EQQ2" 1 0 true in
  ppk ← setitem_at (phase_phase_causality g) "eqq" i j eqq;
  ppk ← setitem_at ppk "knn" i j knn;
  (* phase-amplitude causality; [np.int(scale_i / 4)] on an integer
     scale is the floor quotient *)
  let '(eqq, knn) :=
    compute_causality phase_i (np_power2 amp_j) 7 "GCM" 3
      (scale_i / 4)%Z false in
  pak ← setitem_at (phase_amp_causality g) "eqq" i j eqq;
  pak ← setitem_at pak "knn" i j knn;
  mret (mem, Grids ppc pam ppk pak).

(** The body of the loop over [i]. *)
Definition outer_body (st : store * grids) (iscale : nat * Z)
  : outcome (store * grids) :=
  let '(mem, g) := st in
  let '(i, scale_i) := iscale in
  let mem := wavelet mem scale_i "m" 1 in
  phase_i ← copy (phase (field mem));
  for_each (inner_body i scale_i phase_i) (mem, g)
    (enumerate (scales mem)).

(** [compute_information_measures(field, scales)]: the tuple it
    returns, and the two objects as it leaves them. *)
Definition compute_information_measures (mem : store)
  : outcome (grids * store) :=
  let n := length (scales mem) in
  let shape := [n; n] in
  let fresh := {[ "eqq" := np_zeros shape; "knn" := np_zeros shape ]} in
  '(mem', g) ← for_each outer_body (mem, Grids fresh fresh fresh fresh)
                 (enumerate (scales mem));
  mret (g, mem').

End WithBackend.

(** The returned tuple as the Python value the container receives. *)
Definition py_of_measure_set (d : measure_set) : pyval :=
  PyDict (PyNdarray <$> d).

Definition py_of_grids (g : grids) : pyval :=
  PyTuple [py_of_measure_set (phase_phase_coherence g);
           py_of_measure_set (phase_amp_mi g);
           py_of_measure_set (phase_phase_causality g);
           py_of_measure_set (phase_amp_causality g)].

End Engine.
Import Engine.

(* ================================================================== *)
(** * The averager in double precision *)

Module Binary64.

(** An [np.float64] as it is: an IEEE 754 double. *)
Abbreviation binary64 := PrimFloat.float.

(** [np.sum] of a short array: the elements are added one after the
    other, from zero. *)
Definition np_sum (l : list binary64) : binary64 :=
  foldl PrimFloat.add PrimFloat.zero l.

(** [np.mean(np.array(l))]: the sum over the number of elements. *)
Definition np_mean (l : list binary64) : binary64 :=
  PrimFloat.div (np_sum l)
    (PrimFloat.of_uint63 (Uint63.of_Z (Z.of_nat (length l)))).

Section WithEstimators.
(** The estimators of [pyclits.mutual_inf], on series of any kind. *)
Context {Series : Type}.
Variable get_time_series_condition :
  Series → Series → Z → Z → Z → bool → Series * Series * Series.
Variable cond_mutual_information :
  Series → Series → Series → string → Z → binary64.
Variable knn_cond_mutual_information :
  Series → Series → Series → Z → bool → binary64.

(** One turn of the loop of [compute_causality]. *)
Definition causality_step (timeseries1 timeseries2 : Series)
    (algorithm : string) (dim_condition eta : Z) (phase_diff : bool)
    (acc : list binary64 * list binary64) (tau : Z)
  : list binary64 * list binary64 :=
  let '(results_simple, results_knn) := acc in
  let '(x, y, z) :=
    get_time_series_condition timeseries1 timeseries2 tau
      dim_condition eta phase_diff in
  (results_simple ++ [cond_mutual_information x y z algorithm NUM_BINS_EQQ],
   results_knn ++ [knn_cond_mutual_information x y z K_KNN true]).

(** [compute_causality] *)
Definition compute_causality (timeseries1 timeseries2 : Series)
    (tau_max : Z) (algorithm : string) (dim_condition eta : Z)
    (phase_diff : bool) : binary64 * binary64 :=
  let '(results_simple, results_knn) :=
    foldl (causality_step timeseries1 timeseries2 algorithm
             dim_condition eta phase_diff)
      ([], []) (range 1 tau_max) in
  (np_mean results_simple, np_mean results_knn).

End WithEstimators.

End Binary64.

(* ================================================================== *)
(** * The worker pool *)

Module Pool.

(** What travels on the job queue: [1] or the poison pill [None]. *)
Inductive token := Job | Pill.

#[export] Instance token_eq_dec : EqDecision token.
Proof. solve_decision. Defined.

(** Where a worker process stands in [_process_surrogates]. *)
Inductive wstatus :=
| Idle      (** at [jobq.get()] *)
| Busy      (** computing a surrogate, [resq.put] ahead *)
| Done      (** left the loop at the poison pill *)
| Crashed.  (** dead: an exception left the loop before [resq.put] *)

#[export] Instance wstatus_eq_dec : EqDecision wstatus.
Proof. solve_decision. Defined.

(** Where [main] stands after it has started the workers. *)
Inductive pc :=
| Collect            (** in the [while] loop on the result queue *)
| Join (k : nat)     (** in the [for] loop, at [workers[k].join()] *)
| Finished.

Section Protocol.
(** The result bundles; what a worker computes is not the queues'
    business. *)
Context {R : Type}.

(** The job queue has one producer, [main], which fills it before it
    starts the workers: the tokens are taken in the order they were
    put.  The result queue has a producer per worker: [resq.put]
    leaves the bundle with the feeder thread of the worker's
    process, [outboxes], which hands the bundles of that process to
    the pipe one after the other, in its own time; [result_queue] is
    what has arrived, in the order of arrival. *)
Record state := State {
  job_queue : list token;
  outboxes : list (list R);
  result_queue : list R;
  workers : list wstatus;
  surrogates_done : nat;
  all_surrogates_results : list R;
  main_pc : pc
}.

(** The two loops of [main] that fill the job queue. *)
Definition preload (NUM_SURROGATES WORKERS : nat) : list token :=
  let q := foldl (λ q _, q ++ [Job]) [] (seq 0 NUM_SURROGATES) in
  foldl (λ q _, q ++ [Pill]) q (seq 0 WORKERS).

(** The state once every worker has been started. *)
Definition started (NUM_SURROGATES WORKERS : nat) : state :=
  State (preload NUM_SURROGATES WORKERS) (replicate WORKERS []) []
    (replicate WORKERS Idle) 0 [] Collect.

(** The next statement of worker [w], if it can run; [r] is the
    bundle its computation yields. *)
Definition worker_step (w : nat) (r : R) (s : state) : option state :=
  match workers s !! w with
  | Some Idle =>
      match job_queue s with
      | [] => None   (* blocked in [get] *)
      | Job :: q =>
          Some (State q (outboxes s) (result_queue s)
                  (<[w := Busy]> (workers s))
                  (surrogates_done s) (all_surrogates_results s)
                  (main_pc s))
      | Pill :: q =>
          Some (State q (outboxes s) (result_queue s)
                  (<[w := Done]> (workers s))
                  (surrogates_done s) (all_surrogates_results s)
                  (main_pc s))
      end
  | Some Busy =>
      match outboxes s !! w with
      | Some box =>
          Some (State (job_queue s) (<[w := box ++ [r]]> (outboxes s))
                  (result_queue s) (<[w := Idle]> (workers s))
                  (surrogates_done s) (all_surrogates_results s)
                  (main_pc s))
      | None => None
      end
  | Some Done | Some Crashed | None => None
  end.

(** An exception in the four statements between [jobq.get()] and
    [resq.put]: the loop has no handler, the process of worker [w]
    dies and the job it took is lost. *)
Definition worker_fails (w : nat) (s : state) : option state :=
  match workers s !! w with
  | Some Busy =>
      Some (State (job_queue s) (outboxes s) (result_queue s)
              (<[w := Crashed]> (workers s))
              (surrogates_done s) (all_surrogates_results s)
              (main_pc s))
  | _ => None
  end.

(** The feeder thread of worker [w] hands its oldest bundle to the
    pipe. *)
Definition feeder_step (w : nat) (s : state) : option state :=
  match outboxes s !! w with
  | Some (r :: box) =>
      Some (State (job_queue s) (<[w := box]> (outboxes s))
              (result_queue s ++ [r]) (workers s)
              (surrogates_done s) (all_surrogates_results s)
              (main_pc s))
  | _ => None
  end.

(** The next statement of [main], if it can run.  A process has
    exited, and [join] returns, once it has left its loop, one way
    or the other, and its feeder thread has handed over all it
    held. *)
Definition main_step (NUM_SURROGATES : nat) (s : state)
  : option state :=
  match main_pc s with
  | Collect =>
      if decide (surrogates_done s < NUM_SURROGATES) then
        match result_queue s with
        | [] => None   (* blocked in [get] *)
        | r :: q =>
            Some (State (job_queue s) (outboxes s) q (workers s)
                    (S (surrogates_done s))
                    (all_surrogates_results s ++ [r]) Collect)
        end
      else
        Some (State (job_queue s) (outboxes s) (result_queue s)
                (workers s) (surrogates_done s)
                (all_surrogates_results s) (Join 0))
  | Join k =>
      match workers s !! k with
      | Some Done | Some Crashed =>
          match outboxes s !! k with
          | Some [] =>
              Some (State (job_queue s) (outboxes s) (result_queue s)
                      (workers s) (surrogates_done s)
                      (all_surrogates_results s) (Join (S k)))
          | _ => None   (* blocked in [join] *)
          end
      | Some _ => None   (* blocked in [join] *)
      | None =>
          Some (State (job_queue s) (outboxes s) (result_queue s)
                  (workers s) (surrogates_done s)
                  (all_surrogates_results s) Finished)
      end
  | Finished => None
  end.

(** Any process or feeder thread that can move may move next, and a
    worker at work may die. *)
Inductive step (NUM_SURROGATES : nat) : state → state → Prop :=
| step_worker w r s s' :
    worker_step w r s = Some s' → step NUM_SURROGATES s s'
| step_fails w s s' :
    worker_fails w s = Some s' → step NUM_SURROGATES s s'
| step_feeder w s s' :
    feeder_step w s = Some s' → step NUM_SURROGATES s s'
| step_main s s' :
    main_step NUM_SURROGATES s = Some s' → step NUM_SURROGATES s s'.

(** [main] is past the joins and every worker has left its loop at
    its pill. *)
Definition completed (s : state) : Prop :=
  main_pc s = Finished ∧ Forall (λ w, w = Done) (workers s).

End Protocol.
Arguments state : clear implicits.

End Pool.
Import Pool.

(* ================================================================== *)
(** * The two stages of [main] *)

Module Main.

Definition NUM_SURROGATES : nat := 100.
Definition WORKERS : nat := 20.
Definition SAVING_FILENAME : string := "bins/tas_Amon_MPI-ESM-HR".

Section WithBackend.
Context `{B : Backend}.

(** The stage "compute for data" of [main]:
  [data_results = compute_information_measures(timeseries, scales)],
  [data_results = ResultsContainer(results=data_results,
  surrogates=False)],
  [data_results.save(filename=SAVING_FILENAME + '_data.bin')]. *)
Definition data_stage (timeseries : DataField) (scales : list Z)
  (fs : disk) : outcome unit * disk :=
match compute_information_measures (Store timeseries scales) with
| Return (data_results, _) =>
    construct_and_save (py_of_grids data_results) false
      (SAVING_FILENAME +:+ "_data.bin") fs
| Raise e => (Raise e, fs)
end.

(** What a worker puts on the result queue for one job, from the
  realisation [field] it has drawn:
  [surrogate_result = compute_information_measures(field, scales)]. *)
Definition surrogate_result (field : DataField) (scales : list Z)
: outcome grids :=
'(g, _) ← compute_information_measures (Store field scales); mret g.

End WithBackend.

(** The end of [main], once the results are collected:
  [surrogate_result = ResultsContainer(results=all_surrogates_results,
  surrogates=True)],
  [surrogate_result.save(filename=SAVING_FILENAME + '_surrogates.bin')]. *)
Definition surrogate_stage (all_surrogates_results : list grids)
  (fs : disk) : outcome unit * disk :=
construct_and_save (PyList (py_of_grids <$> all_surrogates_results)) true
  (SAVING_FILENAME +:+ "_surrogates.bin") fs.

(** The two stages one after the other; an exception in the first ends
  [main]. *)
Definition main_stages `{B : Backend} (timeseries : DataField)
  (scales : list Z) (all_surrogates_results : list grids) (fs : disk)
: outcome unit * disk :=
match data_stage timeseries scales fs with
| (Return _, fs') => surrogate_stage all_surrogates_results fs'
| (Raise e, fs') => (Raise e, fs')
end.

End Main.
Import Main.

(* ================================================================== *)
(** * Loading the series *)

Module Load.

Definition DATASET_PATH : string :=
  "new_data_may19/tas_Amon_MPI-ESM-HR_historical_all_in_one_1880_1999_1.nc".
Definition DATASET_VARIABLE : string := "tas".
Definition FIRST_DATE : string := "1900-01-01".

(** A [slice(start, stop)] of a coordinate. *)
Definition bounds : Type := Z * Z.

(** [NINO_INDEX_BOUNDS]: region to its [(lat, lon)] slices. *)
Definition NINO_INDEX_BOUNDS : gmap string (bounds * bounds) :=
  {[ "NINO3.4" := ((-5, 5), (190, 240));
     "NINO3" := ((-5, 5), (210, 270));
     "NINO4" := ((-5, 5), (160, 210));
     "NINO1.2" := ((-10, 0), (270, 280)) ]}%Z.

(** What [prepare_dataset] can raise: an exception of the script's own
    statements, [UnboundLocalError] on reading a local variable that was
    never bound, or whatever a call into [xarray] or [pyclits] raises. *)
Inductive error :=
| Script (e : exn)
| UnboundLocalError (name : string)
| Library (message : string).

Inductive loaded (A : Type) :=
| Ok (a : A)
| Err (e : error).
Arguments Ok {A} a.
Arguments Err {A} e.

#[export] Instance loaded_ret : MRet loaded := λ A a, Ok a.

#[export] Instance loaded_bind : MBind loaded := λ A C k m,
  match m with
  | Ok a => k a
  | Err e => Err e
  end.

(** [assert cond] *)
Definition check (cond : bool) : loaded unit :=
  if cond then Ok () else Err (Script AssertionError).

(** [d[key]] *)
Definition getitem_dict {V} (d : gmap string V) (key : string) : loaded V :=
  match d !! key with
  | Some v => Ok v
  | None => Err (Script KeyError)
  end.

(** [l[i]] *)
Definition getitem_list {A} (l : list A) (i : nat) : loaded A :=
  match l !! i with
  | Some a => Ok a
  | None => Err (Script IndexError)
  end.

(** Reading a local variable of the function: [None] while no
    assignment to it has run. *)
Definition read_local {A} (name : string) (binding : option A) : loaded A :=
  match binding with
  | Some a => Ok a
  | None => Err (UnboundLocalError name)
  end.

(** The calls into [xarray] and [pyclits.geofield]/[pyclits.surrogates];
    they are parameters of the model and each of them may raise.  The
    methods of [DataField] that work in place return the field they
    leave. *)
Class Libraries (Dataset DataArray Series Surrogate Moment : Type) := {
  (** [xr.open_dataset(path)] *)
  open_dataset : string → loaded Dataset;
  (** [dataset[name]] *)
  dataset_getitem : Dataset → string → loaded DataArray;
  (** [variable.ndim] *)
  ndim : DataArray → nat;
  (** [variable.sel(lat=slice(..), lon=slice(..))] *)
  sel_lat_lon : DataArray → bounds → bounds → loaded DataArray;
  (** [variable.sel(time=slice(date, None))] *)
  sel_time_from : DataArray → string → loaded DataArray;
  (** [variable.mean(dim=["lat", "lon"])] *)
  mean_lat_lon : DataArray → loaded DataArray;
  (** [variable.values] *)
  values : DataArray → ndarray;
  (** [DataField(data=values)] *)
  new_DataField : ndarray → loaded Series;
  (** [timeseries.create_time_array(date_from, sampling)] *)
  create_time_array : Series → string → string → loaded Series;
  (** [timeseries.get_seasonality(detrend)]: the field it leaves and
      the tuple it returns *)
  get_seasonality : Series → bool → loaded (Series * list Moment);
  (** [s = SurrogateField(); s.copy_field(timeseries)] *)
  copy_field : Series → loaded Surrogate;
  (** [timeseries.return_seasonality(mean, var, None)] *)
  return_seasonality : Series → Moment → Moment → loaded Series
}.

Section WithLibraries.
Context {Dataset DataArray Series Surrogate Moment : Type}.
Context {L : Libraries Dataset DataArray Series Surrogate Moment}.

(** [prepare_dataset(dataset_path, nino_region, surrogates)].  The
    locals [surrogate_field] and [seasonality] are bound in the
    branch [if surrogates:] only. *)
Definition prepare_dataset (dataset_path : string)
    (nino_region : option string) (surrogates : bool)
  : loaded (Series * Surrogate * list Moment) :=
  dataset ← open_dataset DATASET_PATH;
  variable ← dataset_getitem dataset DATASET_VARIABLE;
  _ ← check (bool_decide (ndim variable = 3));
  variable ← match nino_region return loaded DataArray with
             | Some region =>
                 box ← getitem_dict NINO_INDEX_BOUNDS region;
                 sel_lat_lon variable box.1 box.2
             | None => Ok variable
             end;
  _ ← sel_time_from variable FIRST_DATE;
  variable ← mean_lat_lon variable;
  _ ← check (bool_decide (ndim variable = 1));
  timeseries ← new_DataField (values variable);
  timeseries ← create_time_array timeseries FIRST_DATE "m";
  locals ←
    (if surrogates then
       '(timeseries, seasonality) ← get_seasonality timeseries false;
       surrogate_field ← copy_field timeseries;
       mean ← getitem_list seasonality 0;
       var ← getitem_list seasonality 1;
       timeseries ← return_seasonality timeseries mean var;
       Ok (timeseries, Some surrogate_field, Some seasonality)
     else Ok (timeseries, None, None));
  let '(timeseries, surrogate_field, seasonality) := locals in
  surrogate_field ← read_local "surrogate_field" surrogate_field;
  seasonality ← read_local "seasonality" seasonality;
  Ok (timeseries, surrogate_field, seasonality).

End WithLibraries.

End Load.
Import Load.

(* ================================================================== *)
(** * What the specification talks about *)

Module Spec.

(** The numbers a sequence of values holds, when none of the values is
    undefined. *)
Fixpoint numbers (values : list float64) : option (list Q) :=
  match values with
  | [] => Some []
  | Fin q :: values' => cons q <$> numbers values'
  | NaN :: _ => None
  end.

(** The arithmetic mean of a sequence of values, in exact arithmetic:
    the sum of its numbers over their count, in the rationals of the
    library.  There is none for no value at all, nor when a value is
    undefined. *)
Definition arithmetic_mean (values : list float64) : float64 :=
  match numbers values with
  | Some (q :: qs) =>
      Fin (fold_right Qplus 0%Q (q :: qs)
           / inject_Z (Z.of_nat (length (q :: qs))))%Q
  | Some [] | None => NaN
  end.

(** The conditional information of one lag in double precision, for
    either estimator. *)
Definition lag_value64 {Series : Type}
    (get_time_series_condition :
       Series → Series → Z → Z → Z → bool → Series * Series * Series)
    (estimator : Series → Series → Series → PrimFloat.float)
    (ts1 ts2 : Series) (dim_condition eta : Z) (phase_diff : bool)
    (tau : Z) : PrimFloat.float :=
  let '(x, y, z) :=
    get_time_series_condition ts1 ts2 tau dim_condition eta phase_diff in
  estimator x y z.

(** A tenth, as close as a double comes to it. *)
Definition tenth : PrimFloat.float := 0x1.999999999999ap-4%float.

(** The lags [1 .. max_lag - 1]. *)
Definition lags (max_lag : Z) : list Z :=
  Z.of_nat <$> seq 1 (Z.to_nat (max_lag - 1)).

Section WithBackend.
Context `{B : Backend}.

(** The conditional information of one lag, bin estimator. *)
Definition lag_value_eqq (ts1 ts2 : ndarray) (algorithm : string)
    (dim_condition eta : Z) (phase_diff : bool) (tau : Z) : float64 :=
  let '(x, y, z) :=
    get_time_series_condition ts1 ts2 tau dim_condition eta phase_diff in
  cond_mutual_information x y z algorithm NUM_BINS_EQQ.

(** The conditional information of one lag, nearest-neighbour
    estimator. *)
Definition lag_value_knn (ts1 ts2 : ndarray)
    (dim_condition eta : Z) (phase_diff : bool) (tau : Z) : float64 :=
  let '(x, y, z) :=
    get_time_series_condition ts1 ts2 tau dim_condition eta phase_diff in
  knn_cond_mutual_information x y z K_KNN true.

(** The decomposition of a field at a scale, in months, one year cut. *)
Definition phase_at (f : DataField) (scale : Z) : ndarray :=
  (decompose (data f) (time f) scale "m" 1).1.

Definition amplitude_at (f : DataField) (scale : Z) : ndarray :=
  (decompose (data f) (time f) scale "m" 1).2.

(** What the specification puts into the cell of the scales [si] and
    [sj] of each matrix. *)
Definition coherence_eqq (f : DataField) (si sj : Z) : float64 :=
  mutual_information (phase_at f si) (phase_at f sj) "EQQ2" NUM_BINS_EQQ.

Definition coherence_knn (f : DataField) (si sj : Z) : float64 :=
  knn_mutual_information (phase_at f si) (phase_at f sj) K_KNN true.

Definition phase_amp_eqq (f : DataField) (si sj : Z) : float64 :=
  mutual_information (phase_at f si) (amplitude_at f sj) "EQQ2"
    NUM_BINS_EQQ.

Definition phase_amp_knn (f : DataField) (si sj : Z) : float64 :=
  knn_mutual_information (phase_at f si) (amplitude_at f sj) K_KNN true.

Definition phase_causality (f : DataField) (si sj : Z)
  : float64 * float64 :=
  compute_causality (phase_at f si) (phase_at f sj) 7 "EQQ2" 1 0 true.

(** The phase-amplitude causality with a given smoothing. *)
Definition amp_causality (f : DataField) (eta si sj : Z)
  : float64 * float64 :=
  compute_causality (phase_at f si) (np_power2 (amplitude_at f sj)) 7
    "GCM" 3 eta false.

End WithBackend.

(** [round(scale / 4)]: the nearest integer, halves away from zero. *)
Definition round_quarter (scale : Z) : Z :=
  (Z.sgn scale * ((2 * Z.abs scale + 4) / 8))%Z.

(** A backend to run the model on.  Its estimators answer with numbers
    read off their arguments: the bin estimator of the conditional
    information with the smoothing [eta] it was given, the
    nearest-neighbour one with the lag. *)
Definition probe : Backend := {|
  decompose _ _ period _ _ :=
    (NdArray [1] [Fin (inject_Z period)],
     NdArray [1] [Fin (inject_Z (period + 1))]);
  mutual_information x y _ _ := fadd (np_sum (elems x)) (np_sum (elems y));
  knn_mutual_information x y _ _ := fmul (np_sum (elems x)) (np_sum (elems y));
  get_time_series_condition ts1 ts2 tau _ eta _ :=
    (ts1, ts2, NdArray [2] [Fin (inject_Z tau); Fin (inject_Z eta)]);
  cond_mutual_information _ _ z _ _ := default NaN (elems z !! 1);
  knn_cond_mutual_information _ _ z _ _ := default NaN (elems z !! 0)
|}.

(** The backend [probe] with a bin estimator of the conditional
    information that has no answer at lag 3. *)
Definition probe_nan : Backend := {|
  decompose := decompose (Backend := probe);
  mutual_information := mutual_information (Backend := probe);
  knn_mutual_information := knn_mutual_information (Backend := probe);
  get_time_series_condition :=
    get_time_series_condition (Backend := probe);
  cond_mutual_information _ _ z _ _ :=
    match elems z !! 0 with
    | Some (Fin tau) => if Qeq_bool tau 3 then NaN else Fin tau
    | _ => NaN
    end;
  knn_cond_mutual_information :=
    knn_cond_mutual_information (Backend := probe)
|}.

(** The contract of one measurement bundle: a sequence of exactly four
    entries, each a mapping with exactly two keys, each value an array.
    Nothing is asked of the shapes. *)
Definition entry_ok (entry : pyval) : bool :=
  match entry with
  | PyDict d =>
      bool_decide (size d = 2 ∧ map_Forall (λ _ value, is_ndarray value) d)
  | _ => false
  end.

Definition bundle_ok (bundle : pyval) : bool :=
  match bundle with
  | PyList entries | PyTuple entries =>
      bool_decide (length entries = 4) && forallb entry_ok entries
  | _ => false
  end.

(** What the constructor is handed meets the contract: the bundle
    itself, or every member of the ensemble. *)
Definition within_contract (results : pyval) (surrogates : bool) : Prop :=
  if surrogates then
    ∃ members, py_iter results = Return members
               ∧ forallb bundle_ok members = true
  else bundle_ok results = true.

(** It breaks the contract: the bundle itself, or some member of the
    ensemble. *)
Definition outside_contract (results : pyval) (surrogates : bool) : Prop :=
  if surrogates then
    ∃ members, py_iter results = Return members
               ∧ forallb bundle_ok members = false
  else bundle_ok results = false.

End Spec.
Import Spec.


(* ================================================================== *)
(** * Closed forms of the loops *)

Module Closed.

(** The [n x n] matrix whose first [k] cells, in row-major order, hold
    [cell i j] and whose other cells are still zero. *)
Definition partial_matrix (n k : nat) (cell : nat → nat → float64)
  : ndarray :=
  NdArray [n; n]
    (((λ idx, cell (idx / n) (idx `mod` n)) <$> seq 0 k)
       ++ replicate (n * n - k) fzero).

Definition estimator_pair (a b : ndarray) : measure_set :=
  {[ "eqq" := a; "knn" := b ]}.

(** What the arrays of a list hold at the flat position [c]. *)
Definition cells (arrays : list ndarray) (c : nat) : list float64 :=
  (λ a, elems a !!! c) <$> arrays.

(** The [S x S] matrices of a list laid along a third axis. *)
Definition stack3 (S : nat) (arrays : list ndarray) : ndarray :=
  NdArray [S; S; length arrays] (concat (cells arrays <$> seq 0 (S * S))).

(** What [save] holds under a key after it has met the matrices of a
    list: the first one as it is, from the second on their stack. *)
Definition stacked_value (S : nat) (arrays : list ndarray) : ndarray :=
  match arrays with
  | [a] => a
  | _ => stack3 S arrays
  end.

(** An [S x S] matrix. *)
Definition square (S : nat) (a : ndarray) : Prop :=
  shape a = [S; S] ∧ wf_array a.

Section WithBackend.
Context `{B : Backend}.
Variables (f : DataField) (sc : list Z).

Definition scale (i : nat) : Z := sc !!! i.

(** The four dictionaries once [k] cells have been written. *)
Definition grids_after (k : nat) : grids :=
  let n := length sc in
  Grids
    (estimator_pair
       (partial_matrix n k (λ i j, coherence_eqq f (scale i) (scale j)))
       (partial_matrix n k (λ i j, coherence_knn f (scale i) (scale j))))
    (estimator_pair
       (partial_matrix n k (λ i j, phase_amp_eqq f (scale i) (scale j)))
       (partial_matrix n k (λ i j, phase_amp_knn f (scale i) (scale j))))
    (estimator_pair
       (partial_matrix n k
          (λ i j, (phase_causality f (scale i) (scale j)).1))
       (partial_matrix n k
          (λ i j, (phase_causality f (scale i) (scale j)).2)))
    (estimator_pair
       (partial_matrix n k
          (λ i j, (amp_causality f (scale i / 4) (scale i) (scale j)).1))
       (partial_matrix n k
          (λ i j, (amp_causality f (scale i / 4) (scale i) (scale j)).2))).

(** The two objects after a call of [wavelet] at scale [s]. *)
Definition decomposed (s : Z) : store :=
  Store (Field (data f) (time f)
           (Some (phase_at f s)) (Some (amplitude_at f s))) sc.

(** The two objects after [rows] turns of the outer loop. *)
Definition store_after (rows : nat) : store :=
  match rows, length sc with
  | S _, S m => decomposed (scale m)
  | _, _ => Store f sc
  end.

End WithBackend.

End Closed.
Import Closed.

(* ================================================================== *)
(** * Ensembles of bundles as the engine returns them *)

Module Ensemble.

(** The key [save] files a matrix under. *)
Definition full_key (result_str estimator : string) : string :=
  result_str +:+ "_" +:+ estimator.

(** The eight keys of the persisted layout. *)
Definition persisted_keys : list string :=
  result_str ← RESULT_ORDER;
  estimator ← ["eqq"; "knn"];
  [full_key result_str estimator].

(** The [m]-th dictionary of a bundle, in the order of [RESULT_ORDER]. *)
Definition measure_set_of (g : grids) (m : nat) : measure_set :=
  match m with
  | 0 => phase_phase_coherence g
  | 1 => phase_amp_mi g
  | 2 => phase_phase_causality g
  | _ => phase_amp_causality g
  end.

Definition array_of (g : grids) (m : nat) (estimator : string) : ndarray :=
  measure_set_of g m !!! estimator.

(** The matrices the bundles of an ensemble hold at one place. *)
Definition column (m : nat) (estimator : string) (bundles : list grids)
  : list ndarray :=
  (λ g, array_of g m estimator) <$> bundles.

Definition square_pair (S : nat) (d : measure_set) : Prop :=
  ∃ a b, d = estimator_pair a b ∧ square S a ∧ square S b.

(** A bundle of eight [S x S] matrices under the keys of the engine. *)
Definition square_bundle (S : nat) (g : grids) : Prop :=
  square_pair S (phase_phase_coherence g)
  ∧ square_pair S (phase_amp_mi g)
  ∧ square_pair S (phase_phase_causality g)
  ∧ square_pair S (phase_amp_causality g).

(** The dictionary [save] has built once it has met [bundles]. *)
Definition saving_of (S : nat) (bundles : list grids) : saving :=
  list_to_map
    ((λ '(m, result_str, estimator),
        (full_key result_str estimator,
         PyNdarray (stacked_value S (column m estimator bundles))))
       <$> [(0, "ph_ph_mi", "eqq"); (0, "ph_ph_mi", "knn");
            (1, "ph_amp_mi", "eqq"); (1, "ph_amp_mi", "knn");
            (2, "ph_ph_caus", "eqq"); (2, "ph_ph_caus", "knn");
            (3, "ph_amp_caus", "eqq"); (3, "ph_amp_caus", "knn")]).

(** A bundle of eight [1 x 1] matrices that all hold [x]. *)
Definition constant_bundle (x : Q) : grids :=
  let pair := estimator_pair (NdArray [1; 1] [Fin x])
                (NdArray [1; 1] [Fin x]) in
  Grids pair pair pair pair.

End Ensemble.
Import Ensemble.

(* ================================================================== *)
(** * Schedules of the worker pool *)

Module Schedule.

(** How many elements of [l] are [x]. *)
Fixpoint tally {A} `{EqDecision A} (x : A) (l : list A) : nat :=
  match l with
  | [] => 0
  | y :: l' => (if decide (y = x) then 1 else 0) + tally x l'
  end.

Section Protocol.
Context {R : Type}.

(** Who moves next: worker [w], whose computation yields [r] should
    it be at [resq.put]; worker [w] dying at work; the feeder thread
    of worker [w]; or [main]. *)
Inductive action :=
| Worker (w : nat) (r : R)
| Fails (w : nat)
| Feeder (w : nat)
| Main.

Definition act (NUM_SURROGATES : nat) (a : action) (s : state R)
  : option (state R) :=
  match a with
  | Worker w r => worker_step w r s
  | Fails w => worker_fails w s
  | Feeder w => feeder_step w s
  | Main => main_step NUM_SURROGATES s
  end.

(** The pool under a schedule; [None] when the process whose turn it
    is cannot move. *)
Fixpoint run (NUM_SURROGATES : nat) (schedule : list action)
    (s : state R) : option (state R) :=
  match schedule with
  | [] => Some s
  | a :: schedule' =>
      s' ← act NUM_SURROGATES a s; run NUM_SURROGATES schedule' s'
  end.

Definition pc_measure (pool_size : nat) (p : pc) : nat :=
  match p with
  | Collect => pool_size + 2
  | Join k => S (pool_size - k)
  | Finished => 0
  end.

(** The bundles that are with the feeder threads. *)
Definition in_transit (s : state R) : list R := concat (outboxes s).

(** The bundles [main] holds, those that have arrived and those that
    are with the feeder threads. *)
Definition delivered_or_due (s : state R) : list R :=
  all_surrogates_results s ++ result_queue s ++ in_transit s.

(** A bound on the number of moves still to come. *)
Definition measure (s : state R) : nat :=
  4 * length (job_queue s) + 3 * tally Busy (workers s)
  + 2 * length (in_transit s) + length (result_queue s)
  + pc_measure (length (workers s)) (main_pc s).

(** What holds of every state the pool can reach. *)
Record invariant (NUM_SURROGATES WORKERS : nat) (s : state R)
  : Prop := Invariant {
  inv_pool : length (workers s) = WORKERS;
  inv_boxes : length (outboxes s) = WORKERS;
  inv_queue :
    ∃ jobs pills,
      job_queue s = replicate jobs Job ++ replicate pills Pill
      ∧ pills + tally Done (workers s) = WORKERS
      ∧ (0 < jobs → tally Done (workers s) = 0)
      ∧ jobs + tally Busy (workers s) + tally Crashed (workers s)
        + length (in_transit s) + length (result_queue s)
        + surrogates_done s = NUM_SURROGATES;
  inv_collected :
    length (all_surrogates_results s) = surrogates_done s;
  inv_main :
    match main_pc s with
    | Collect => True
    | Join k =>
        surrogates_done s = NUM_SURROGATES
        ∧ ∀ i, i < k → workers s !! i = Some Done
    | Finished =>
        surrogates_done s = NUM_SURROGATES
        ∧ Forall (λ w, w = Done) (workers s)
    end
}.

(** The bundles the workers put on the result queue along a schedule,
    in the order they put them. *)
Fixpoint reported (NUM_SURROGATES : nat) (schedule : list action)
    (s : state R) : list R :=
  match schedule with
  | [] => []
  | a :: schedule' =>
      match act NUM_SURROGATES a s with
      | Some s' =>
          match a with
          | Worker w r =>
              if decide (workers s !! w = Some Busy)
              then r :: reported NUM_SURROGATES schedule' s'
              else reported NUM_SURROGATES schedule' s'
          | _ => reported NUM_SURROGATES schedule' s'
          end
      | None => []
      end
  end.

End Protocol.

End Schedule.
Import Schedule.


(* ================================================================== *)
(** * Libraries to load a series with *)

Module Loading.

(** The call returned. *)
Definition returns {A} (r : loaded A) : Prop := ∃ a, r = Ok a.

(** The libraries with another selection in time. *)
Definition with_sel_time {Dataset DataArray Series Surrogate Moment}
    (L : Libraries Dataset DataArray Series Surrogate Moment)
    (select : DataArray → string → loaded DataArray)
  : Libraries Dataset DataArray Series Surrogate Moment := {|
  open_dataset := open_dataset;
  dataset_getitem := dataset_getitem;
  ndim := ndim;
  sel_lat_lon := sel_lat_lon;
  sel_time_from := select;
  mean_lat_lon := mean_lat_lon;
  values := values;
  new_DataField := new_DataField;
  create_time_array := create_time_array;
  get_seasonality := get_seasonality;
  copy_field := copy_field;
  return_seasonality := return_seasonality
|}.

(** Libraries to run the model on.  A dataset holds one variable; an
    array is known by the names of its dimensions and the mean over
    [lat] and [lon] drops these two; a series is its samples; the
    seasonality is the triple [(0, 1, 0)]. *)
Definition toy : Libraries unit (list string) ndarray ndarray Q := {|
  open_dataset _ := Ok ();
  dataset_getitem _ name :=
    if decide (name = "tas") then Ok ["time"; "lat"; "lon"]
    else Err (Library "KeyError");
  ndim := length;
  sel_lat_lon variable _ _ := Ok variable;
  sel_time_from variable _ := Ok variable;
  mean_lat_lon variable :=
    Ok (filter (λ d, d ≠ "lat" ∧ d ≠ "lon") variable);
  values _ := NdArray [2] [Fin 1; Fin 2];
  new_DataField samples := Ok samples;
  create_time_array timeseries _ _ := Ok timeseries;
  get_seasonality timeseries _ := Ok (timeseries, [0%Q; 1%Q; 0%Q]);
  copy_field timeseries := Ok timeseries;
  return_seasonality timeseries _ _ := Ok timeseries
|}.

End Loading.
Import Loading.
(* ================================================================== *)
(** * Facts about the numpy operations *)

Section NumpyFacts.

Lemma Qplus_assoc_eq (a b c : Q) : (a + (b + c) = (a + b) + c)%Q.
Proof.
  destruct a as [na da], b as [nb db], c as [nc dc].
  unfold Qplus; cbn [Qnum Qden]. f_equal.
  - rewrite !Pos2Z.inj_mul. ring.
  - apply Pos.mul_assoc.
Qed.

Lemma Qplus_0_l_eq (a : Q) : (0 + a = a)%Q.
Proof.
  destruct a as [n d]. unfold Qplus; cbn [Qnum Qden]. f_equal. ring.
Qed.

Lemma Qplus_0_r_eq (a : Q) : (a + 0 = a)%Q.
Proof.
  destruct a as [n d]. unfold Qplus; cbn [Qnum Qden]. f_equal.
  - ring.
  - apply Pos.mul_1_r.
Qed.

Lemma Qdiv_1_eq (a : Q) : (a / inject_Z 1 = a)%Q.
Proof.
  destruct a as [n d]. unfold Qdiv, Qmult, Qinv; cbn. f_equal.
  - ring.
  - apply Pos.mul_1_r.
Qed.

Lemma fadd_assoc (x y z : float64) :
  fadd x (fadd y z) = fadd (fadd x y) z.
Proof.
  destruct x, y, z; cbn; try done. by rewrite Qplus_assoc_eq.
Qed.

Lemma fadd_zero_l (x : float64) : fadd fzero x = x.
Proof. destruct x; cbn; try done. by rewrite Qplus_0_l_eq. Qed.

Lemma fadd_zero_r (x : float64) : fadd x fzero = x.
Proof. destruct x; cbn; try done. by rewrite Qplus_0_r_eq. Qed.

Lemma foldl_fadd (l : list float64) (acc : float64) :
  foldl fadd acc l = fadd acc (foldr fadd fzero l).
Proof.
  revert acc; induction l as [|x l IH]; intros acc; cbn.
  - by rewrite fadd_zero_r.
  - by rewrite IH, fadd_assoc.
Qed.

(** Numpy's left-to-right sum is the sum. *)
Lemma np_sum_foldr (l : list float64) : np_sum l = foldr fadd fzero l.
Proof. unfold np_sum. by rewrite foldl_fadd, fadd_zero_l. Qed.

Lemma sum_numbers (l : list float64) :
  foldr fadd fzero l
  = match numbers l with
    | Some qs => Fin (fold_right Qplus 0%Q qs)
    | None => NaN
    end.
Proof.
  induction l as [|[q|] l IH]; cbn [foldr numbers]; [done| |done].
  rewrite IH. by destruct (numbers l).
Qed.

Lemma length_numbers (l : list float64) (qs : list Q) :
  numbers l = Some qs → length qs = length l.
Proof.
  revert qs; induction l as [|[q|] l IH]; intros qs; cbn [numbers];
    [by intros [= <-]| |done].
  destruct (numbers l) as [qs'|]; [|done].
  intros [= <-]. cbn. by rewrite (IH qs').
Qed.

(** In exact arithmetic [np.mean] is the arithmetic mean. *)
Lemma np_mean_arithmetic (l : list float64) : np_mean l = arithmetic_mean l.
Proof.
  unfold np_mean, arithmetic_mean. rewrite np_sum_foldr, sum_numbers.
  destruct (numbers l) as [qs|] eqn:Hqs; [|done].
  rewrite <- (length_numbers l qs Hqs). by destruct qs.
Qed.

Lemma np_mean_singleton (x : float64) : np_mean [x] = x.
Proof.
  destruct x as [q|]; cbn; [|done].
  by rewrite Qplus_0_l_eq, Qdiv_1_eq.
Qed.

Lemma np_mean_empty : np_mean [] = NaN.
Proof. reflexivity. Qed.

Lemma blocks_concat {A} (bl : list (list A)) (n size : nat) :
  n = length bl → Forall (λ b, length b = size) bl →
  blocks n size (concat bl) = bl.
Proof.
  intros -> Hall. induction Hall as [|b bl Hb _ IH]; [done|].
  cbn [length blocks concat].
  by rewrite take_app_length', drop_app_length', IH.
Qed.

Lemma zip_with_app_fmap {A C} (g h : C → list A) (l : list C) :
  zip_with app (g <$> l) (h <$> l) = (λ c, g c ++ h c) <$> l.
Proof. induction l as [|c l IH]; [done|]. cbn. by rewrite IH. Qed.

Lemma concat_singletons {A C} (g : C → A) (l : list C) :
  concat ((λ c, [g c]) <$> l) = g <$> l.
Proof. induction l as [|c l IH]; [done|]. cbn. by rewrite IH. Qed.

Lemma fmap_lookup_total_seq (l : list float64) :
  (λ c, l !!! c) <$> seq 0 (length l) = l.
Proof.
  apply list_eq. intros i. rewrite list_lookup_fmap.
  destruct (decide (i < length l)) as [Hlt|Hge].
  - rewrite lookup_seq_lt by done. cbn.
    symmetry. by apply list_lookup_lookup_total_lt.
  - rewrite lookup_seq_ge by lia. cbn.
    symmetry. apply lookup_ge_None_2. lia.
Qed.

Lemma square_elems (S : nat) (a : ndarray) :
  square S a → (λ c, elems a !!! c) <$> seq 0 (S * S) = elems a.
Proof.
  intros [Hshape Hwf]. unfold wf_array in Hwf. rewrite Hshape in Hwf.
  cbn in Hwf. rewrite Nat.mul_1_r in Hwf. rewrite <- Hwf.
  apply fmap_lookup_total_seq.
Qed.

Lemma cells_blocks (S : nat) (arrays : list ndarray) :
  blocks (S * S) (length arrays) (concat (cells arrays <$> seq 0 (S * S)))
  = cells arrays <$> seq 0 (S * S).
Proof.
  apply blocks_concat.
  - by rewrite length_fmap, length_seq.
  - apply Forall_fmap, Forall_true. intros c. cbn.
    unfold cells. by rewrite length_fmap.
Qed.

Lemma atleast_3d_square (S : nat) (a : ndarray) :
  square S a → atleast_3d a = stack3 S [a].
Proof.
  intros Ha. pose proof (square_elems S a Ha) as Helems.
  destruct Ha as [Hshape _]. unfold atleast_3d, stack3. rewrite Hshape.
  f_equal. unfold cells. cbn [fmap list_fmap].
  by rewrite (concat_singletons (λ c, elems a !!! c)).
Qed.

Lemma concatenate_stack3 (S : nat) (arrays : list ndarray) (b : ndarray) :
  concatenate_axis2 (stack3 S arrays) (stack3 S [b])
  = Return (stack3 S (arrays ++ [b])).
Proof.
  unfold concatenate_axis2, stack3 at 1 2 3 4; cbn [shape elems length].
  rewrite decide_True by done. cbn [prod foldr]. rewrite !Nat.mul_1_r.
  rewrite (cells_blocks S arrays).
  pose proof (cells_blocks S [b]) as Hb. cbn [length] in Hb. rewrite Hb.
  rewrite zip_with_app_fmap. unfold stack3.
  rewrite length_app. cbn [length]. do 3 f_equal.
  apply list_fmap_ext. intros _ c _. unfold cells. by rewrite fmap_app.
Qed.

(** Stacking one more matrix onto what [save] holds. *)
Lemma np_dstack_stacked (S : nat) (arrays : list ndarray) (b : ndarray) :
  arrays ≠ [] → Forall (square S) arrays → square S b →
  np_dstack [stacked_value S arrays; b]
  = Return (stacked_value S (arrays ++ [b])).
Proof.
  intros Hne Hall Hb. unfold np_dstack. cbn [fmap list_fmap for_each].
  rewrite (atleast_3d_square S b Hb).
  destruct arrays as [|a [|a' arrays]]; [done| |].
  - cbn [stacked_value app].
    rewrite (atleast_3d_square S a) by by inversion Hall.
    by rewrite (concatenate_stack3 S [a] b).
  - cbn [stacked_value app].
    change (atleast_3d (stack3 S (a :: a' :: arrays)))
      with (stack3 S (a :: a' :: arrays)).
    by rewrite (concatenate_stack3 S (a :: a' :: arrays) b).
Qed.

(** The slice [[:, :, k]] of a stack is its [k]-th matrix. *)
Lemma slice_stack3 (S : nat) (arrays : list ndarray) (k : nat)
    (a : ndarray) :
  arrays !! k = Some a → square S a →
  slice_axis2 (stack3 S arrays) k = Return a.
Proof.
  intros Hk Ha. unfold slice_axis2, stack3; cbn [shape elems].
  rewrite decide_True by by eapply lookup_lt_Some.
  rewrite (cells_blocks S arrays), <- list_fmap_compose.
  pose proof (square_elems S a Ha) as Helems.
  destruct Ha as [Hshape _]. destruct a as [sh el]. cbn in *. subst sh.
  do 2 f_equal. rewrite <- Helems.
  apply list_fmap_ext. intros _ c _. cbn. unfold cells.
  apply list_lookup_total_correct. by rewrite list_lookup_fmap, Hk.
Qed.

End NumpyFacts.

(* ================================================================== *)
(** * The Causality Averager *)

Section Causality.
Context `{B : Backend}.

Lemma range_from_1 (hi : Z) : range 1 hi = lags hi.
Proof.
  unfold range, lags. rewrite <- fmap_S_seq, <- list_fmap_compose.
  apply list_fmap_ext. intros _ k _. cbn. lia.
Qed.

Lemma range_empty (lo hi : Z) : (hi ≤ lo)%Z → range lo hi = [].
Proof.
  intros Hle. unfold range. by replace (Z.to_nat (hi - lo)) with 0 by lia.
Qed.

Lemma length_lags (max_lag : Z) :
  length (lags max_lag) = Z.to_nat (max_lag - 1).
Proof. unfold lags. by rewrite length_fmap, length_seq. Qed.

(** The loop appends, lag after lag, the two values of that lag. *)
Lemma causality_loop ts1 ts2 algorithm dim_condition eta phase_diff
    (taus : list Z) (results_simple results_knn : list float64) :
  foldl (causality_step ts1 ts2 algorithm dim_condition eta phase_diff)
    (results_simple, results_knn) taus
  = (results_simple
       ++ (lag_value_eqq ts1 ts2 algorithm dim_condition eta phase_diff
             <$> taus),
     results_knn
       ++ (lag_value_knn ts1 ts2 dim_condition eta phase_diff <$> taus)).
Proof.
  revert results_simple results_knn.
  induction taus as [|tau taus IH]; intros rs rk; cbn [foldl fmap list_fmap].
  - by rewrite !app_nil_r.
  - unfold causality_step at 2, lag_value_eqq at 1, lag_value_knn at 1.
    destruct (get_time_series_condition ts1 ts2 tau dim_condition eta
                phase_diff) as [[x y] z].
    rewrite IH. by rewrite <- !app_assoc.
Qed.

Lemma compute_causality_unfold ts1 ts2 tau_max algorithm dim_condition eta
    phase_diff :
  compute_causality ts1 ts2 tau_max algorithm dim_condition eta phase_diff
  = (np_mean (lag_value_eqq ts1 ts2 algorithm dim_condition eta phase_diff
                <$> lags tau_max),
     np_mean (lag_value_knn ts1 ts2 dim_condition eta phase_diff
                <$> lags tau_max)).
Proof.
  unfold compute_causality. by rewrite causality_loop, range_from_1.
Qed.

(** The loop in double precision: the same lists, of doubles. *)
Lemma causality_loop64 {Series : Type}
    (condition : Series → Series → Z → Z → Z → bool
                 → Series * Series * Series)
    (cmi : Series → Series → Series → string → Z → PrimFloat.float)
    (knn : Series → Series → Series → Z → bool → PrimFloat.float)
    (s1 s2 : Series) algorithm dim_condition eta phase_diff
    (taus : list Z) (results_simple results_knn : list PrimFloat.float) :
  foldl (Binary64.causality_step condition cmi knn s1 s2 algorithm
           dim_condition eta phase_diff)
    (results_simple, results_knn) taus
  = (results_simple
       ++ (lag_value64 condition (λ x y z, cmi x y z algorithm NUM_BINS_EQQ)
             s1 s2 dim_condition eta phase_diff <$> taus),
     results_knn
       ++ (lag_value64 condition (λ x y z, knn x y z K_KNN true)
             s1 s2 dim_condition eta phase_diff <$> taus)).
Proof.
  revert results_simple results_knn.
  induction taus as [|tau taus IH]; intros rs rk; cbn [foldl fmap list_fmap].
  - by rewrite !app_nil_r.
  - unfold Binary64.causality_step at 2, lag_value64 at 1 3.
    destruct (condition s1 s2 tau dim_condition eta phase_diff)
      as [[x y] z].
    rewrite IH. by rewrite <- !app_assoc.
Qed.

(** C2, amended: for [max_lag > 1] the loop runs over the lags
    [1 .. max_lag-1], there are [max_lag - 1] of them, and each of the
    two results is [np.mean] of the values of these lags, in the double
    precision of the code as in exact arithmetic; in exact arithmetic
    this is their arithmetic mean, and for [max_lag = 2] the value of
    lag 1 itself. *)
Theorem compute_causality_mean_of_lags ts1 ts2 tau_max algorithm
    dim_condition eta phase_diff :
  (1 < tau_max)%Z →
  range 1 tau_max = lags tau_max
  ∧ length (lags tau_max) = Z.to_nat (tau_max - 1)
  ∧ compute_causality ts1 ts2 tau_max algorithm dim_condition eta phase_diff
    = (arithmetic_mean
         (lag_value_eqq ts1 ts2 algorithm dim_condition eta phase_diff
            <$> lags tau_max),
       arithmetic_mean
         (lag_value_knn ts1 ts2 dim_condition eta phase_diff
            <$> lags tau_max))
  ∧ (tau_max = 2%Z →
     compute_causality ts1 ts2 tau_max algorithm dim_condition eta
       phase_diff
     = (lag_value_eqq ts1 ts2 algorithm dim_condition eta phase_diff 1,
        lag_value_knn ts1 ts2 dim_condition eta phase_diff 1))
  ∧ ∀ (Series : Type)
      (condition : Series → Series → Z → Z → Z → bool
                   → Series * Series * Series)
      (cmi : Series → Series → Series → string → Z → PrimFloat.float)
      (knn : Series → Series → Series → Z → bool → PrimFloat.float)
      (s1 s2 : Series),
      Binary64.compute_causality condition cmi knn s1 s2 tau_max
        algorithm dim_condition eta phase_diff
      = (Binary64.np_mean
           (lag_value64 condition
              (λ x y z, cmi x y z algorithm NUM_BINS_EQQ)
              s1 s2 dim_condition eta phase_diff <$> lags tau_max),
         Binary64.np_mean
           (lag_value64 condition (λ x y z, knn x y z K_KNN true)
              s1 s2 dim_condition eta phase_diff <$> lags tau_max)).
Proof.
  intros Hlag. split; [apply range_from_1|].
  split; [apply length_lags|].
  rewrite compute_causality_unfold. split; [|split].
  - by rewrite !np_mean_arithmetic.
  - intros ->. change (lags 2) with [1%Z]. cbn [fmap list_fmap].
    by rewrite !np_mean_singleton.
  - intros Series condition cmi knn s1 s2.
    unfold Binary64.compute_causality.
    by rewrite causality_loop64, range_from_1.
Qed.

(** C8, amended: with [max_lag <= 1] the call raises nothing: the lag
    range is empty and both results are the mean of no value, which is
    [nan]: neither is zero, nor any other number. *)
Theorem compute_causality_empty_range ts1 ts2 tau_max algorithm
    dim_condition eta phase_diff :
  (tau_max ≤ 1)%Z →
  range 1 tau_max = []
  ∧ np_mean [] = NaN
  ∧ call_compute_causality ts1 ts2 tau_max algorithm dim_condition eta
      phase_diff
    = Return (NaN, NaN)
  ∧ compute_causality ts1 ts2 tau_max algorithm dim_condition eta phase_diff
    = (NaN, NaN)
  ∧ ∀ q : Q,
      (compute_causality ts1 ts2 tau_max algorithm dim_condition eta
         phase_diff).1 ≠ Fin q
      ∧ (compute_causality ts1 ts2 tau_max algorithm dim_condition eta
           phase_diff).2 ≠ Fin q.
Proof.
  intros Hlag.
  assert (Hres : compute_causality ts1 ts2 tau_max algorithm dim_condition
                   eta phase_diff = (NaN, NaN)).
  { unfold compute_causality. by rewrite range_empty. }
  split; [by apply range_empty|]. split; [done|].
  split; [unfold call_compute_causality; by rewrite Hres|].
  split; [done|]. intros q. by rewrite Hres.
Qed.

End Causality.

(** The averager on the probing backend, lags 1 to 6. *)
Lemma compute_causality_mean_of_lags_witness :
  (1 < 7)%Z
  ∧ compute_causality (B := probe) (np_zeros [3]) (np_zeros [3]) 7 "GCM" 3 1
      false
    = (arithmetic_mean
         (lag_value_eqq (B := probe) (np_zeros [3]) (np_zeros [3]) "GCM" 3 1
            false <$> lags 7),
       arithmetic_mean
         (lag_value_knn (B := probe) (np_zeros [3]) (np_zeros [3]) 3 1 false
            <$> lags 7)).
Proof.
  split; [lia|].
  apply (compute_causality_mean_of_lags (B := probe)
           (np_zeros [3]) (np_zeros [3]) 7 "GCM" 3 1 false).
  lia.
Defined.

(** The averager on the probing backend, no lag at all. *)
Lemma compute_causality_empty_range_witness :
  (1 ≤ 1)%Z
  ∧ compute_causality (B := probe) (np_zeros [3]) (np_zeros [3]) 1 "GCM" 3 1
      false = (NaN, NaN).
Proof.
  split; [lia|].
  apply (compute_causality_empty_range (B := probe)
           (np_zeros [3]) (np_zeros [3]) 1 "GCM" 3 1 false).
  lia.
Defined.

Example compute_causality_probe_7 :
  compute_causality (B := probe) (np_zeros [3]) (np_zeros [3]) 7 "GCM" 3 1
    false = (Fin (6 # 6), Fin (21 # 6)).
Proof. reflexivity. Qed.


(** C8 as stated fails: with [max_lag = 1] the call is no failure, it
    returns. *)
Lemma compute_causality_returns_without_failing :
  ¬ (∀ (B : Backend) ts1 ts2 tau_max algorithm dim_condition eta phase_diff,
       (tau_max ≤ 1)%Z →
       ∃ e, call_compute_causality ts1 ts2 tau_max algorithm dim_condition
              eta phase_diff = Raise e).
Proof.
  intros Hclaim.
  destruct (Hclaim probe (NdArray [0] []) (NdArray [0] []) 1%Z "EQQ2" 1%Z
              0%Z true) as [e He]; [lia|].
  discriminate He.
Qed.

(** C2 as stated fails in the double precision of the code: the
    arithmetic mean of three lag values that all are a tenth is a tenth,
    and [compute_causality] with [max_lag = 4] answers
    0.10000000000000002. *)
Lemma compute_causality_rounds_the_mean :
  ¬ (∀ (value : PrimFloat.float) (tau_max : Z),
       (1 < tau_max)%Z →
       Binary64.compute_causality
         (λ ts1 ts2 _ _ _ _, (ts1, ts2, ts1))
         (λ _ _ _ _ _, value) (λ _ _ _ _ _, value)
         () () tau_max "EQQ2" 1 0 true
       = (value, value)).
Proof.
  intros Hclaim. specialize (Hclaim tenth 4%Z).
  apply (f_equal (λ r, PrimFloat.eqb r.1 tenth)) in Hclaim; [|lia].
  vm_compute in Hclaim. discriminate Hclaim.
Qed.

Example compute_causality_three_tenths :
  Binary64.compute_causality
    (λ ts1 ts2 _ _ _ _, (ts1, ts2, ts1))
    (λ _ _ _ _ _, tenth) (λ _ _ _ _ _, tenth) () () 4 "EQQ2" 1 0 true
  = (0x1.999999999999bp-4%float, 0x1.999999999999bp-4%float).
Proof. reflexivity. Qed.
(* ================================================================== *)
(** * An undefined lag value *)

Section Undefined.

Lemma sum_nan (l : list float64) :
  NaN ∈ l → foldr fadd fzero l = NaN.
Proof.
  induction l as [|x l IH]; cbn [foldr].
  - intros Hin. by apply elem_of_nil in Hin.
  - rewrite elem_of_cons. intros [<-|Hin]; [done|].
    rewrite (IH Hin). by destruct x.
Qed.

Lemma np_mean_nan (l : list float64) : NaN ∈ l → np_mean l = NaN.
Proof.
  intros Hin. unfold np_mean. by rewrite np_sum_foldr, (sum_nan l Hin).
Qed.

Lemma elem_of_lags (tau_max tau : Z) :
  tau ∈ lags tau_max ↔ (1 ≤ tau < tau_max)%Z.
Proof.
  unfold lags. rewrite list_elem_of_fmap. split.
  - intros (k & -> & Hk). apply elem_of_seq in Hk. lia.
  - intros Htau. exists (Z.to_nat tau). split; [lia|].
    apply elem_of_seq. lia.
Qed.

Lemma mean_of_lags_nan (value : Z → float64) (tau_max tau : Z) :
  (1 ≤ tau < tau_max)%Z → value tau = NaN →
  np_mean (value <$> lags tau_max) = NaN.
Proof.
  intros Htau Hnan. apply np_mean_nan. rewrite <- Hnan.
  apply list_elem_of_fmap. exists tau. by rewrite elem_of_lags.
Qed.

End Undefined.

(** X12: [compute_causality] takes the plain mean ([np.mean], not
    [np.nanmean]): when an estimator answers [nan] at one of the lags
    [1 .. tau_max - 1], the result for that estimator is [nan], whatever
    the values of the other lags. *)
Theorem compute_causality_nan_spreads `{B : Backend} ts1 ts2 tau_max
    algorithm dim_condition eta phase_diff (tau : Z) :
  (1 ≤ tau < tau_max)%Z →
  (lag_value_eqq ts1 ts2 algorithm dim_condition eta phase_diff tau = NaN →
   (compute_causality ts1 ts2 tau_max algorithm dim_condition eta
      phase_diff).1 = NaN)
  ∧ (lag_value_knn ts1 ts2 dim_condition eta phase_diff tau = NaN →
     (compute_causality ts1 ts2 tau_max algorithm dim_condition eta
        phase_diff).2 = NaN).
Proof.
  intros Htau. rewrite compute_causality_unfold. cbn [fst snd].
  split; intros Hnan; by eapply mean_of_lags_nan.
Qed.

(** The bin estimator of the backend [probe_nan] has no answer at lag 3. *)
Lemma compute_causality_nan_spreads_witness :
  (compute_causality (B := probe_nan) (NdArray [0] []) (NdArray [0] []) 7
     "EQQ2" 1 0 true).1 = NaN.
Proof.
  apply (compute_causality_nan_spreads (B := probe_nan)
           (NdArray [0] []) (NdArray [0] []) 7 "EQQ2" 1 0 true 3);
    [lia|reflexivity].
Defined.
(* ================================================================== *)
(** * The Information Grid Engine *)

Lemma bind_Return {A C} (a : A) (k : A → outcome C) : (Return a ≫= k) = k a.
Proof. reflexivity. Qed.

(** A loop over [enumerate l] whose turn [k] takes the invariant from [k]
    to [k + 1] ends without exception in a state with the invariant at
    [length l]. *)
Lemma for_each_from {St A} (body : St → nat * A → outcome St)
    (P : nat → St → Prop) (l : list A) (o : nat) (s : St) :
  P o s →
  (∀ k x s, l !! k = Some x → P (o + k) s →
            ∃ s', body s (o + k, x) = Return s' ∧ P (S (o + k)) s') →
  ∃ s', for_each body s (zip (seq o (length l)) l) = Return s'
        ∧ P (o + length l) s'.
Proof.
  revert o s; induction l as [|x l IH]; intros o s Hs Hbody.
  - exists s. cbn. by rewrite Nat.add_0_r.
  - destruct (Hbody 0 x s eq_refl) as (s1 & E1 & P1).
    { by rewrite Nat.add_0_r. }
    rewrite Nat.add_0_r in E1, P1.
    destruct (IH (S o) s1 P1) as (s' & E' & P').
    { intros k y s2 Hk HP.
      replace (S o + k) with (o + S k) in * by lia. by apply Hbody. }
    exists s'. cbn [length seq zip zip_with for_each].
    rewrite E1, bind_Return.
    split; [done|]. by replace (o + S (length l)) with (S o + length l) by lia.
Qed.

Lemma for_each_enumerate {St A} (body : St → nat * A → outcome St)
    (P : nat → St → Prop) (l : list A) (s : St) :
  P 0 s →
  (∀ k x s, l !! k = Some x → P k s →
            ∃ s', body s (k, x) = Return s' ∧ P (S k) s') →
  ∃ s', for_each body s (enumerate l) = Return s' ∧ P (length l) s'.
Proof. intros H0 Hbody. by apply (for_each_from body P l 0 s). Qed.

Section Matrices.

Lemma row_major_div (n i j : nat) : j < n → (i * n + j) / n = i.
Proof. intros Hj. symmetry. apply (Nat.div_unique _ _ _ j); lia. Qed.

Lemma row_major_mod (n i j : nat) : j < n → (i * n + j) `mod` n = j.
Proof. intros Hj. symmetry. apply (Nat.mod_unique _ _ i); lia. Qed.

Lemma partial_matrix_0 (n : nat) cell :
  partial_matrix n 0 cell = np_zeros [n; n].
Proof.
  unfold partial_matrix, np_zeros. cbn [seq fmap list_fmap app prod foldr].
  by rewrite Nat.sub_0_r, Nat.mul_1_r.
Qed.

Lemma partial_matrix_full (n : nat) cell :
  partial_matrix n (n * n) cell
  = NdArray [n; n] ((λ idx, cell (idx / n) (idx `mod` n)) <$> seq 0 (n * n)).
Proof.
  unfold partial_matrix. rewrite Nat.sub_diag. cbn [replicate].
  by rewrite app_nil_r.
Qed.

(** Writing the next cell in row-major order. *)
Lemma partial_matrix_set (n k i j : nat) cell v :
  i < n → j < n → k = i * n + j → v = cell i j →
  setitem2 (partial_matrix n k cell) i j v
  = Return (partial_matrix n (S k) cell).
Proof.
  intros Hi Hj -> ->. unfold setitem2, partial_matrix; cbn [shape elems].
  rewrite decide_True by done. do 2 f_equal.
  cbn [prod foldr replicate list_inserts]. rewrite Nat.mul_1_r.
  assert (i * n + j < n * n) by nia.
  rewrite insert_app_r_alt by (rewrite length_fmap, length_seq; lia).
  rewrite length_fmap, length_seq, Nat.sub_diag.
  replace (n * n - (i * n + j)) with (S (n * n - S (i * n + j))) by lia.
  rewrite seq_S, fmap_app, <- app_assoc. cbn.
  by rewrite row_major_div, row_major_mod.
Qed.

Lemma partial_matrix_get (n i j : nat) cell :
  i < n → j < n →
  getitem2 (partial_matrix n (n * n) cell) i j = Return (cell i j).
Proof.
  intros Hi Hj. rewrite partial_matrix_full.
  unfold getitem2; cbn [shape elems]. rewrite decide_True by done.
  assert (i * n + j < n * n) by nia.
  rewrite list_lookup_fmap, lookup_seq_lt by done. cbn.
  by rewrite row_major_div, row_major_mod.
Qed.

Lemma setitem_at_eqq a b i j v :
  setitem_at (estimator_pair a b) "eqq" i j v
  = a' ← setitem2 a i j v; mret (estimator_pair a' b).
Proof.
  unfold setitem_at. change (estimator_pair a b !! "eqq") with (Some a). cbv beta iota.
  destruct (setitem2 a i j v); reflexivity.
Qed.

Lemma setitem_at_knn a b i j v :
  setitem_at (estimator_pair a b) "knn" i j v
  = b' ← setitem2 b i j v; mret (estimator_pair a b').
Proof.
  unfold setitem_at. change (estimator_pair a b !! "knn") with (Some b). cbv beta iota.
  destruct (setitem2 b i j v); reflexivity.
Qed.

(** The two assignments of one cell, as steps of a [bind] chain. *)
Lemma setitem_step_eqq {C} (n i j : nat) cell b v (k : measure_set → outcome C) :
  i < n → j < n → v = cell i j →
  (setitem_at (estimator_pair (partial_matrix n (i * n + j) cell) b)
     "eqq" i j v ≫= k)
  = k (estimator_pair (partial_matrix n (S (i * n + j)) cell) b).
Proof.
  intros Hi Hj Hv.
  by rewrite setitem_at_eqq, (partial_matrix_set n _ i j cell v Hi Hj).
Qed.

Lemma setitem_step_knn {C} (n i j : nat) cell a v (k : measure_set → outcome C) :
  i < n → j < n → v = cell i j →
  (setitem_at (estimator_pair a (partial_matrix n (i * n + j) cell))
     "knn" i j v ≫= k)
  = k (estimator_pair a (partial_matrix n (S (i * n + j)) cell)).
Proof.
  intros Hi Hj Hv.
  by rewrite setitem_at_knn, (partial_matrix_set n _ i j cell v Hi Hj).
Qed.

Lemma getitem_at_eqq a b i j :
  getitem_at (estimator_pair a b) "eqq" i j = getitem2 a i j.
Proof. reflexivity. Qed.

Lemma getitem_at_knn a b i j :
  getitem_at (estimator_pair a b) "knn" i j = getitem2 b i j.
Proof. reflexivity. Qed.

End Matrices.

Section EngineFacts.
Context `{B : Backend}.
Variables (f : DataField) (sc : list Z).

Abbreviation n := (length sc).

(** [wavelet] reads the series and its time axis and writes the two
    attributes; nothing else. *)
Lemma wavelet_decomposed (mem : store) (s : Z) :
  data (field mem) = data f → time (field mem) = time f →
  scales mem = sc →
  wavelet mem s "m" 1 = decomposed f sc s.
Proof.
  intros Hd Ht Hs. unfold wavelet, decomposed, phase_at, amplitude_at.
  rewrite Hd, Ht, Hs. by destruct (decompose (data f) (time f) s "m" 1).
Qed.

Lemma store_after_frame (rows : nat) :
  data (field (store_after f sc rows)) = data f
  ∧ time (field (store_after f sc rows)) = time f
  ∧ scales (store_after f sc rows) = sc.
Proof. unfold store_after. by destruct rows, (length sc). Qed.

(** One turn of the inner loop writes cell [(i, j)] of all eight
    matrices. *)
Lemma inner_body_spec (i j : nat) (mem : store) :
  i < n → j < n →
  data (field mem) = data f → time (field mem) = time f →
  scales mem = sc →
  inner_body i (scale sc i) (phase_at f (scale sc i))
    (mem, grids_after f sc (i * n + j)) (j, scale sc j)
  = Return (decomposed f sc (scale sc j), grids_after f sc (S (i * n + j))).
Proof.
  intros Hi Hj Hd Ht Hs. unfold inner_body.
  rewrite (wavelet_decomposed mem) by done.
  cbn [decomposed field phase amplitude copy]. rewrite !bind_Return.
  unfold grids_after at 1 2 3 4.
  cbn [phase_phase_coherence phase_amp_mi phase_phase_causality
         phase_amp_causality].
  pose proof (eq_refl : phase_causality f (scale sc i) (scale sc j) = _)
    as E1.
  unfold phase_causality at 2 in E1.
  pose proof (eq_refl : amp_causality f (scale sc i / 4) (scale sc i)
                          (scale sc j) = _) as E2.
  unfold amp_causality at 2 in E2.
  destruct (compute_causality _ _ 7 "EQQ2" 1 0 true) as [eqq knn].
  destruct (compute_causality _ _ 7 "GCM" 3 _ false) as [eqq' knn'].
  repeat first
    [ rewrite (setitem_step_eqq n i j) by (try done; by rewrite ?E1, ?E2)
    | rewrite (setitem_step_knn n i j) by (try done; by rewrite ?E1, ?E2) ].
  reflexivity.
Qed.

(** One turn of the outer loop writes row [i]. *)
Lemma outer_body_spec (i : nat) :
  i < n →
  outer_body (store_after f sc i, grids_after f sc (i * n))
    (i, scale sc i)
  = Return (store_after f sc (S i), grids_after f sc (S i * n)).
Proof.
  intros Hi. unfold outer_body.
  destruct (store_after_frame i) as (Hd & Ht & Hs).
  rewrite (wavelet_decomposed _ _ Hd Ht Hs).
  cbn [decomposed field phase copy scales]. rewrite bind_Return.
  destruct (for_each_enumerate
              (inner_body i (scale sc i) (phase_at f (scale sc i)))
              (λ j st, st = (match j with
                             | 0 => decomposed f sc (scale sc i)
                             | S j' => decomposed f sc (scale sc j')
                             end, grids_after f sc (i * n + j)))
              sc (decomposed f sc (scale sc i), grids_after f sc (i * n)))
    as (st & Hrun & Hst).
  { by rewrite Nat.add_0_r. }
  { intros j x st' Hj ->. eexists; split; [|reflexivity].
    pose proof (lookup_lt_Some _ _ _ Hj) as Hlt.
    rewrite <- (list_lookup_total_correct _ _ _ Hj), Nat.add_succ_r.
    apply inner_body_spec; try done; by destruct j. }
  fold (decomposed f sc (scale sc i)). rewrite Hrun, Hst. f_equal.
  unfold store_after.
  destruct (length sc) as [|m] eqn:En; [lia|]. f_equal. cbn. f_equal. lia.
Qed.

(** The engine never raises; it returns the eight full matrices and
    leaves the field decomposed at the last scale. *)
Lemma engine_closed_form :
  compute_information_measures (Store f sc)
  = Return (grids_after f sc (n * n), store_after f sc n).
Proof.
  unfold compute_information_measures. cbn [scales].
  destruct (for_each_enumerate outer_body
              (λ i st, st = (store_after f sc i, grids_after f sc (i * n)))
              sc (Store f sc, grids_after f sc 0))
    as (st & Hrun & Hst).
  { done. }
  { intros i x st' Hi ->. eexists; split; [|reflexivity].
    pose proof (lookup_lt_Some _ _ _ Hi) as Hlt.
    rewrite <- (list_lookup_total_correct _ _ _ Hi).
    by apply outer_body_spec. }
  unfold grids_after at 1 in Hrun.
  rewrite !partial_matrix_0 in Hrun.
  unfold estimator_pair in Hrun. rewrite Hrun, Hst. reflexivity.
Qed.

End EngineFacts.

Section EngineClaims.
Context `{B : Backend}.

Lemma partial_matrix_wf (n k : nat) cell :
  k ≤ n * n → wf_array (partial_matrix n k cell).
Proof.
  intros Hk. unfold wf_array, partial_matrix; cbn [shape elems prod foldr].
  rewrite length_app, length_fmap, length_seq, length_replicate. lia.
Qed.

(** C1: on a grid of [S] scales the engine returns, without raising, a
    tuple of exactly four dictionaries, each with exactly the entries
    ['eqq'] and ['knn'], and each of the eight values is an array of
    shape [(S, S)]. *)
Theorem engine_returns_four_pairs_of_square_matrices (mem : store) :
  ∃ g mem',
    compute_information_measures mem = Return (g, mem')
    ∧ ∃ entries,
        py_of_grids g = PyTuple entries
        ∧ length entries = 4
        ∧ Forall (λ entry,
                    ∃ a b,
                      entry = PyDict {[ "eqq" := PyNdarray a;
                                        "knn" := PyNdarray b ]}
                      ∧ shape a = [length (scales mem); length (scales mem)]
                      ∧ shape b = [length (scales mem); length (scales mem)]
                      ∧ wf_array a ∧ wf_array b)
            entries.
Proof.
  destruct mem as [f sc]. rewrite engine_closed_form. cbn [scales].
  eexists _, _. split; [reflexivity|].
  eexists. split; [reflexivity|]. split; [reflexivity|].
  repeat apply Forall_cons_2; [..|apply Forall_nil_2];
    (eexists _, _; split; [reflexivity|];
     repeat split; by apply partial_matrix_wf).
Qed.

(** The cell [(i, j)] of the eight matrices the engine returns. *)
Lemma engine_cells (f : DataField) (sc : list Z) (i j : nat) (si sj : Z) :
  sc !! i = Some si → sc !! j = Some sj →
  let g := grids_after f sc (length sc * length sc) in
  getitem_at (phase_phase_coherence g) "eqq" i j
    = Return (coherence_eqq f si sj)
  ∧ getitem_at (phase_phase_coherence g) "knn" i j
    = Return (coherence_knn f si sj)
  ∧ getitem_at (phase_amp_mi g) "eqq" i j = Return (phase_amp_eqq f si sj)
  ∧ getitem_at (phase_amp_mi g) "knn" i j = Return (phase_amp_knn f si sj)
  ∧ getitem_at (phase_phase_causality g) "eqq" i j
    = Return (phase_causality f si sj).1
  ∧ getitem_at (phase_phase_causality g) "knn" i j
    = Return (phase_causality f si sj).2
  ∧ getitem_at (phase_amp_causality g) "eqq" i j
    = Return (amp_causality f (si / 4) si sj).1
  ∧ getitem_at (phase_amp_causality g) "knn" i j
    = Return (amp_causality f (si / 4) si sj).2.
Proof.
  intros Hi Hj g.
  pose proof (lookup_lt_Some _ _ _ Hi) as Hilt.
  pose proof (lookup_lt_Some _ _ _ Hj) as Hjlt.
  pose proof (list_lookup_total_correct _ _ _ Hi) as Ei.
  pose proof (list_lookup_total_correct _ _ _ Hj) as Ej.
  fold (scale sc i) in Ei. fold (scale sc j) in Ej.
  unfold g, grids_after;
    cbn [phase_phase_coherence phase_amp_mi phase_phase_causality
           phase_amp_causality].
  rewrite !getitem_at_eqq, !getitem_at_knn.
  rewrite !partial_matrix_get by done. by rewrite Ei, Ej.
Qed.

(** C4: the engine fills the whole grid: for every ordered pair of
    positions [(i, j)], cell [(i, j)] of each of the eight matrices is the
    measure of the phase at [scales[i]] against the phase, or the
    amplitude, at [scales[j]]; the amplitude at [scales[i]] enters no
    cell. *)
Theorem engine_fills_every_ordered_pair (mem : store) (i j : nat)
    (si sj : Z) :
  scales mem !! i = Some si → scales mem !! j = Some sj →
  ∃ g mem',
    compute_information_measures mem = Return (g, mem')
    ∧ getitem_at (phase_phase_coherence g) "eqq" i j
      = Return (mutual_information (phase_at (field mem) si)
                  (phase_at (field mem) sj) "EQQ2" NUM_BINS_EQQ)
    ∧ getitem_at (phase_phase_coherence g) "knn" i j
      = Return (knn_mutual_information (phase_at (field mem) si)
                  (phase_at (field mem) sj) K_KNN true)
    ∧ getitem_at (phase_amp_mi g) "eqq" i j
      = Return (mutual_information (phase_at (field mem) si)
                  (amplitude_at (field mem) sj) "EQQ2" NUM_BINS_EQQ)
    ∧ getitem_at (phase_amp_mi g) "knn" i j
      = Return (knn_mutual_information (phase_at (field mem) si)
                  (amplitude_at (field mem) sj) K_KNN true)
    ∧ getitem_at (phase_phase_causality g) "eqq" i j
      = Return (compute_causality (phase_at (field mem) si)
                  (phase_at (field mem) sj) 7 "EQQ2" 1 0 true).1
    ∧ getitem_at (phase_phase_causality g) "knn" i j
      = Return (compute_causality (phase_at (field mem) si)
                  (phase_at (field mem) sj) 7 "EQQ2" 1 0 true).2
    ∧ getitem_at (phase_amp_causality g) "eqq" i j
      = Return (compute_causality (phase_at (field mem) si)
                  (np_power2 (amplitude_at (field mem) sj)) 7 "GCM" 3
                  (si / 4) false).1
    ∧ getitem_at (phase_amp_causality g) "knn" i j
      = Return (compute_causality (phase_at (field mem) si)
                  (np_power2 (amplitude_at (field mem) sj)) 7 "GCM" 3
                  (si / 4) false).2.
Proof.
  destruct mem as [f sc]. cbn [scales field]. intros Hi Hj.
  rewrite engine_closed_form. eexists _, _. split; [reflexivity|].
  exact (engine_cells f sc i j si sj Hi Hj).
Qed.

(** C3, amended: cell [(i, j)] of the phase-amplitude causality is the
    averager on the phase at [scales[i]] and the squared amplitude at
    [scales[j]], with maximal lag 7, the estimator ['GCM'], conditioning
    dimension 3, the phase difference off, and the smoothing
    [scales[i] / 4] rounded down. *)
Theorem phase_amp_causality_cell (mem : store) (i j : nat) (si sj : Z) :
  scales mem !! i = Some si → scales mem !! j = Some sj →
  ∃ g mem',
    compute_information_measures mem = Return (g, mem')
    ∧ getitem_at (phase_amp_causality g) "eqq" i j
      = Return (compute_causality (phase_at (field mem) si)
                  (np_power2 (amplitude_at (field mem) sj)) 7 "GCM" 3
                  (si / 4) false).1
    ∧ getitem_at (phase_amp_causality g) "knn" i j
      = Return (compute_causality (phase_at (field mem) si)
                  (np_power2 (amplitude_at (field mem) sj)) 7 "GCM" 3
                  (si / 4) false).2.
Proof.
  destruct mem as [f sc]. cbn [scales field]. intros Hi Hj.
  rewrite engine_closed_form. eexists _, _. split; [reflexivity|].
  by destruct (engine_cells f sc i j si sj Hi Hj)
    as (_ & _ & _ & _ & _ & _ & ? & ?).
Qed.

(** C9: when the engine returns, the scales and the time series of the
    field, its samples and its time axis, are what they were: the
    engine assigns to neither, and the decomposition it calls keeps
    them.  What the call leaves on the field are the attributes
    [phase] and [amplitude] of the last decomposition. *)
Theorem engine_leaves_scales_and_series (mem : store) :
  ∃ g mem',
    compute_information_measures mem = Return (g, mem')
    ∧ scales mem' = scales mem
    ∧ data (field mem') = data (field mem)
    ∧ time (field mem') = time (field mem)
    ∧ mem' = store_after (field mem) (scales mem) (length (scales mem)).
Proof.
  destruct mem as [f sc]. rewrite engine_closed_form. cbn [scales field].
  eexists _, _. split; [reflexivity|].
  destruct (store_after_frame f sc (length sc)) as (Hd & Ht & Hs).
  by rewrite Hd, Ht, Hs.
Qed.

End EngineClaims.

(** A field that has not been decomposed yet, and three scales. *)
Example engine_on_probe :
  ∃ g mem',
    compute_information_measures (B := probe)
      (Store (Field (np_zeros [3]) (np_zeros [3]) None None) [5; 6; 7]%Z)
    = Return (g, mem')
    ∧ phase_amp_causality g !! "eqq"
      = Some (NdArray [3; 3]
                [Fin (6 # 6); Fin (6 # 6); Fin (6 # 6);
                 Fin (6 # 6); Fin (6 # 6); Fin (6 # 6);
                 Fin (6 # 6); Fin (6 # 6); Fin (6 # 6)])
    ∧ phase (field mem') = Some (NdArray [1] [Fin 7]).
Proof. eexists _, _. split; [vm_compute; reflexivity|]. by vm_compute. Qed.

Lemma engine_fills_every_ordered_pair_witness :
  ([5; 6; 7]%Z !! 2 = Some 7%Z ∧ [5; 6; 7]%Z !! 0 = Some 5%Z)
  ∧ ∃ g mem',
      compute_information_measures (B := probe)
        (Store (Field (np_zeros [3]) (np_zeros [3]) None None) [5; 6; 7]%Z)
      = Return (g, mem')
      ∧ getitem_at (phase_phase_coherence g) "eqq" 2 0 = Return (Fin 12).
Proof.
  split; [by split|].
  destruct (engine_fills_every_ordered_pair (B := probe)
              (Store (Field (np_zeros [3]) (np_zeros [3]) None None)
                 [5; 6; 7]%Z) 2 0 7 5 eq_refl eq_refl)
    as (g & mem' & Hrun & Hcell & _).
  exists g, mem'. split; [exact Hrun|]. exact Hcell.
Defined.

Lemma phase_amp_causality_cell_witness :
  ([5; 6; 7]%Z !! 2 = Some 7%Z ∧ [5; 6; 7]%Z !! 0 = Some 5%Z)
  ∧ ∃ g mem',
      compute_information_measures (B := probe)
        (Store (Field (np_zeros [3]) (np_zeros [3]) None None) [5; 6; 7]%Z)
      = Return (g, mem')
      ∧ getitem_at (phase_amp_causality g) "eqq" 2 0 = Return (Fin (6 # 6)).
Proof.
  split; [by split|].
  destruct (phase_amp_causality_cell (B := probe)
              (Store (Field (np_zeros [3]) (np_zeros [3]) None None)
                 [5; 6; 7]%Z) 2 0 7 5 eq_refl eq_refl)
    as (g & mem' & Hrun & Hcell & _).
  exists g, mem'. split; [exact Hrun|]. exact Hcell.
Defined.

(** The scales 6 and 7 are on the grid of [main]. *)
Example main_scales_6_7 :
  main_scales !! 1 = Some 6%Z ∧ main_scales !! 2 = Some 7%Z
  ∧ (6 / 4 = 1)%Z ∧ round_quarter 6 = 2%Z
  ∧ (7 / 4 = 1)%Z ∧ round_quarter 7 = 2%Z.
Proof. by vm_compute. Qed.

(** C3 as stated fails: at scale 7 the smoothing handed to the averager is
    [7 / 4 = 1], not [round(7 / 4) = 2]. *)
Lemma phase_amp_smoothing_is_not_rounded :
  ¬ (∀ (B : Backend) (mem : store) (i j : nat) (si sj : Z),
       scales mem !! i = Some si → scales mem !! j = Some sj →
       ∃ g mem',
         compute_information_measures mem = Return (g, mem')
         ∧ getitem_at (phase_amp_causality g) "eqq" i j
           = Return (compute_causality (phase_at (field mem) si)
                       (np_power2 (amplitude_at (field mem) sj)) 7 "GCM" 3
                       (round_quarter si) false).1).
Proof.
  intros Hclaim.
  destruct (Hclaim probe
              (Store (Field (np_zeros [3]) (np_zeros [3]) None None) [7%Z])
              0 0 7%Z 7%Z eq_refl eq_refl)
    as (g & mem' & Hrun & Hcell).
  vm_compute in Hrun. injection Hrun as <- <-.
  vm_compute in Hcell. discriminate Hcell.
Qed.


(* ================================================================== *)
(** * The Results Container: validation *)

Section Validation.

(** A loop of assertions passes when every element passes. *)
Lemma for_each_assert {A} (body : unit → A → outcome unit)
    (p : A → bool) (l : list A) (u : unit) :
  (∀ u x, body u x = py_assert (p x)) →
  for_each body u l = py_assert (forallb p l).
Proof.
  intros Hbody. destruct u. induction l as [|x l IH]; [done|].
  cbn [for_each forallb]. rewrite Hbody.
  destruct (p x); cbn; [|done]. apply IH.
Qed.

Lemma forallb_values (d : gmap string pyval) :
  forallb (λ kv : string * pyval, is_ndarray kv.2) (map_to_list d)
  = bool_decide (map_Forall (λ _ value, is_ndarray value) d).
Proof.
  apply eq_true_iff_eq.
  rewrite bool_decide_eq_true, map_Forall_to_list, <- Is_true_true.
  rewrite forallb_True. apply Forall_proper; [|done]. by intros [k v].
Qed.

Lemma validate_entry_spec (u : unit) (entry : pyval) :
  validate_entry u entry = py_assert (entry_ok entry).
Proof.
  destruct entry; try reflexivity.
  unfold validate_entry, entry_ok; cbn [is_dict py_assert py_len iteritems].
  rewrite !bind_Return.
  rewrite (for_each_assert _ (λ kv : string * pyval, is_ndarray kv.2)).
  2:{ by intros ? [k v]. }
  rewrite forallb_values.
  destruct (decide (size d = 2)) as [Hsize|Hsize].
  - rewrite (bool_decide_eq_true_2 _ Hsize). cbn [py_assert].
    rewrite bind_Return. f_equal. apply bool_decide_ext. tauto.
  - rewrite (bool_decide_eq_false_2 _ Hsize). cbn [py_assert].
    by rewrite (bool_decide_eq_false_2 (size d = 2 ∧ _)) by tauto.
Qed.

(** The validation is the contract, no more. *)
Lemma validate_single_result_spec (result : pyval) :
  validate_single_result result = py_assert (bundle_ok result).
Proof.
  destruct result; try reflexivity;
    unfold validate_single_result, bundle_ok;
    cbn [is_list_or_tuple py_assert py_len py_iter];
    rewrite !bind_Return;
    rewrite (for_each_assert _ entry_ok) by apply validate_entry_spec;
    by destruct (bool_decide (length l = 4)).
Qed.

Lemma py_len_of_iter (v : pyval) (members : list pyval) :
  py_iter v = Return members → ∃ n, py_len v = Return n.
Proof.
  destruct v; cbn; try by eauto.
  destruct (shape a) as [|? [|? ?]]; by eauto.
Qed.

Lemma init_spec (results : pyval) (surrogates : bool) :
  init results surrogates
  = _ ← (if surrogates then
           _ ← py_len results;
           members ← py_iter results;
           py_assert (forallb bundle_ok members)
         else py_assert (bundle_ok results));
    mret (Container surrogates results).
Proof.
  unfold init. destruct surrogates; cbn [negb].
  - destruct (py_len results); [|done]. rewrite !bind_Return.
    destruct (py_iter results) as [members|]; [|done]. rewrite !bind_Return.
    by rewrite (for_each_assert _ bundle_ok)
      by (intros; apply validate_single_result_spec).
  - by rewrite validate_single_result_spec.
Qed.

(** C6: a bundle that is not a sequence of exactly four mappings with
    exactly two array values each makes the constructor raise, in
    ensemble mode every member is held to the same contract and one
    member breaking it makes the constructor raise; no container comes
    to exist, and the two statements of [main] that construct and save
    leave the disk as it was. *)
Theorem container_rejects_what_breaks_the_contract (results : pyval)
    (surrogates : bool) :
  outside_contract results surrogates →
  init results surrogates = Raise AssertionError
  ∧ ∀ filename fs,
      construct_and_save results surrogates filename fs
      = (Raise AssertionError, fs).
Proof.
  intros Hout.
  assert (Hinit : init results surrogates = Raise AssertionError).
  { rewrite init_spec. destruct surrogates; cbn in Hout.
    - destruct Hout as (members & Hiter & Hbad).
      destruct (py_len_of_iter _ _ Hiter) as [n ->].
      by rewrite Hiter, !bind_Return, Hbad.
    - by rewrite Hout. }
  split; [done|]. intros filename fs.
  unfold construct_and_save. by rewrite Hinit.
Qed.

(** C10: whatever the shapes of the arrays, a bundle of four mappings
    with two array values each is accepted, and so is an ensemble of
    such bundles: the contract the constructor checks says nothing of
    shapes. *)
Theorem container_accepts_arrays_of_any_shape (results : pyval)
    (surrogates : bool) :
  within_contract results surrogates →
  init results surrogates = Return (Container surrogates results).
Proof.
  intros Hin. rewrite init_spec. destruct surrogates; cbn in Hin.
  - destruct Hin as (members & Hiter & Hgood).
    destruct (py_len_of_iter _ _ Hiter) as [n ->].
    by rewrite Hiter, !bind_Return, Hgood.
  - by rewrite Hin.
Qed.

(** What the engine returns is accepted as the observed-data bundle. *)
Lemma engine_bundle_accepted `{B : Backend} (mem : store) g mem' :
  compute_information_measures mem = Return (g, mem') →
  init (py_of_grids g) false = Return (Container false (py_of_grids g)).
Proof.
  destruct mem as [f sc]. rewrite engine_closed_form. intros [= <- _].
  by rewrite init_spec.
Qed.

End Validation.

(** A bundle with three entries only. *)
Lemma container_rejects_what_breaks_the_contract_witness :
  outside_contract
    (PyTuple [PyDict {[ "eqq" := PyNdarray (np_zeros [2; 2]);
                        "knn" := PyNdarray (np_zeros [2; 2]) ]};
              PyDict {[ "eqq" := PyNdarray (np_zeros [2; 2]);
                        "knn" := PyNdarray (np_zeros [2; 2]) ]};
              PyDict {[ "eqq" := PyNdarray (np_zeros [2; 2]);
                        "knn" := PyNdarray (np_zeros [2; 2]) ]}]) false
  ∧ construct_and_save
      (PyTuple [PyDict {[ "eqq" := PyNdarray (np_zeros [2; 2]);
                          "knn" := PyNdarray (np_zeros [2; 2]) ]};
                PyDict {[ "eqq" := PyNdarray (np_zeros [2; 2]);
                          "knn" := PyNdarray (np_zeros [2; 2]) ]};
                PyDict {[ "eqq" := PyNdarray (np_zeros [2; 2]);
                          "knn" := PyNdarray (np_zeros [2; 2]) ]}]) false
      "bins/data.bin" ∅
    = (Raise AssertionError, ∅).
Proof.
  split; [reflexivity|].
  apply (container_rejects_what_breaks_the_contract _ false).
  reflexivity.
Defined.

(** An ensemble whose second member holds a list where an array is due. *)
Example container_rejects_one_bad_member :
  init (PyList
          [PyTuple (replicate 4
                      (PyDict {[ "eqq" := PyNdarray (np_zeros [1; 1]);
                                 "knn" := PyNdarray (np_zeros [1; 1]) ]}));
           PyTuple (replicate 4
                      (PyDict {[ "eqq" := PyNdarray (np_zeros [1; 1]);
                                 "knn" := PyList [] ]}))]) true
  = Raise AssertionError.
Proof. reflexivity. Qed.

(** An ensemble of two bundles whose arrays are not square, empty, of
    rank three, and differ from entry to entry and member to member. *)
Lemma container_accepts_arrays_of_any_shape_witness :
  within_contract
    (PyList
       [PyTuple [PyDict {[ "eqq" := PyNdarray (np_zeros [2; 3]);
                           "knn" := PyNdarray (np_zeros [0]) ]};
                 PyDict {[ "eqq" := PyNdarray (np_zeros [4; 4]);
                           "knn" := PyNdarray (np_zeros [1; 5]) ]};
                 PyDict {[ "a" := PyNdarray (np_zeros []);
                           "b" := PyNdarray (np_zeros [2; 2; 2]) ]};
                 PyDict {[ "eqq" := PyNdarray (np_zeros [3; 3]);
                           "knn" := PyNdarray (np_zeros [3; 2]) ]}];
        PyList (replicate 4
                  (PyDict {[ "eqq" := PyNdarray (np_zeros [7; 1]);
                             "knn" := PyNdarray (NdArray [9; 9] []) ]}))])
    true
  ∧ ∃ container,
      init
        (PyList
           [PyTuple [PyDict {[ "eqq" := PyNdarray (np_zeros [2; 3]);
                               "knn" := PyNdarray (np_zeros [0]) ]};
                     PyDict {[ "eqq" := PyNdarray (np_zeros [4; 4]);
                               "knn" := PyNdarray (np_zeros [1; 5]) ]};
                     PyDict {[ "a" := PyNdarray (np_zeros []);
                               "b" := PyNdarray (np_zeros [2; 2; 2]) ]};
                     PyDict {[ "eqq" := PyNdarray (np_zeros [3; 3]);
                               "knn" := PyNdarray (np_zeros [3; 2]) ]}];
            PyList (replicate 4
                      (PyDict {[ "eqq" := PyNdarray (np_zeros [7; 1]);
                                 "knn" := PyNdarray (NdArray [9; 9] []) ]}))])
        true
      = Return container.
Proof.
  split; [eexists; split; reflexivity|].
  eexists.
  apply (container_accepts_arrays_of_any_shape _ true).
  eexists; split; reflexivity.
Defined.

(* ================================================================== *)
(** * The Results Container: stacking an ensemble *)

Section Stacking.
Variable S : nat.

Lemma append_inj (s x y : string) : s +:+ x = s +:+ y → x = y.
Proof. induction s as [|c s IH]; cbn; [done|]. intros [=]. auto. Qed.

Lemma py_of_grids_iter (g : grids) :
  py_iter (py_of_grids g)
  = Return [py_of_measure_set (phase_phase_coherence g);
            py_of_measure_set (phase_amp_mi g);
            py_of_measure_set (phase_phase_causality g);
            py_of_measure_set (phase_amp_causality g)].
Proof. reflexivity. Qed.

Lemma iteritems_pair (a b : ndarray) :
  iteritems (py_of_measure_set (estimator_pair a b))
  = Return [("knn", PyNdarray b); ("eqq", PyNdarray a)].
Proof. reflexivity. Qed.

Lemma dstack_values_stacked (arrays : list ndarray) (b : ndarray) :
  arrays ≠ [] → Forall (square S) arrays → square S b →
  dstack_values (PyNdarray (stacked_value S arrays)) (PyNdarray b)
  = Return (PyNdarray (stacked_value S (arrays ++ [b]))).
Proof.
  intros Hne Hall Hb. unfold dstack_values.
  by rewrite (np_dstack_stacked S arrays b Hne Hall Hb).
Qed.

(** One dictionary of a later bundle: both matrices are stacked onto
    what is there. *)
Lemma stack_result_pair (result_str : string) (sd : saving)
    (a b : ndarray) (arrs_a arrs_b : list ndarray) :
  sd !! full_key result_str "eqq"
    = Some (PyNdarray (stacked_value S arrs_a)) →
  sd !! full_key result_str "knn"
    = Some (PyNdarray (stacked_value S arrs_b)) →
  arrs_a ≠ [] → arrs_b ≠ [] →
  Forall (square S) arrs_a → Forall (square S) arrs_b →
  square S a → square S b →
  stack_result sd (result_str, py_of_measure_set (estimator_pair a b))
  = Return
      (<[full_key result_str "eqq"
         := PyNdarray (stacked_value S (arrs_a ++ [a]))]>
         (<[full_key result_str "knn"
            := PyNdarray (stacked_value S (arrs_b ++ [b]))]> sd)).
Proof.
  intros Heqq Hknn Hna Hnb Hsa Hsb Ha Hb.
  unfold stack_result. rewrite iteritems_pair, bind_Return.
  cbn [for_each]. fold (full_key result_str "knn").
  fold (full_key result_str "eqq").
  rewrite Hknn, (dstack_values_stacked arrs_b b Hnb Hsb Hb), !bind_Return.
  cbn [mret outcome_ret]. rewrite ?bind_Return.
  rewrite lookup_insert_ne, Heqq.
  2:{ unfold full_key. intros Heq. by apply append_inj in Heq. }
  by rewrite (dstack_values_stacked arrs_a a Hna Hsa Ha), !bind_Return.
Qed.

Lemma square_bundle_arrays (g : grids) (m : nat) :
  square_bundle S g →
  square S (array_of g m "eqq") ∧ square S (array_of g m "knn").
Proof.
  intros (H0 & H1 & H2 & H3). unfold array_of.
  destruct m as [|[|[|m]]]; cbn [measure_set_of];
    match goal with
    | H : square_pair S ?d |- context [?d] =>
        destruct H as (a & b & -> & Ha & Hb)
    end; by split.
Qed.

Lemma column_square (bundles : list grids) (m : nat) :
  Forall (square_bundle S) bundles →
  Forall (square S) (column m "eqq" bundles)
  ∧ Forall (square S) (column m "knn" bundles).
Proof.
  intros Hall. unfold column. split; apply Forall_fmap;
    (eapply Forall_impl; [exact Hall|]); intros g Hg; cbn;
    by destruct (square_bundle_arrays g m Hg).
Qed.

Lemma column_nonempty (bundles : list grids) (m : nat) (estimator : string) :
  bundles ≠ [] → column m estimator bundles ≠ [].
Proof. by destruct bundles. Qed.

Lemma column_snoc (bundles : list grids) (g : grids) (m : nat)
    (estimator : string) :
  column m estimator (bundles ++ [g])
  = column m estimator bundles ++ [array_of g m estimator].
Proof. unfold column. by rewrite fmap_app. Qed.

Lemma saving_of_unfold (bundles : list grids) :
  saving_of S bundles
  = <[full_key "ph_ph_mi" "eqq"
      := PyNdarray (stacked_value S (column 0 "eqq" bundles))]>
      (<[full_key "ph_ph_mi" "knn"
         := PyNdarray (stacked_value S (column 0 "knn" bundles))]>
      (<[full_key "ph_amp_mi" "eqq"
         := PyNdarray (stacked_value S (column 1 "eqq" bundles))]>
      (<[full_key "ph_amp_mi" "knn"
         := PyNdarray (stacked_value S (column 1 "knn" bundles))]>
      (<[full_key "ph_ph_caus" "eqq"
         := PyNdarray (stacked_value S (column 2 "eqq" bundles))]>
      (<[full_key "ph_ph_caus" "knn"
         := PyNdarray (stacked_value S (column 2 "knn" bundles))]>
      (<[full_key "ph_amp_caus" "eqq"
         := PyNdarray (stacked_value S (column 3 "eqq" bundles))]>
      (<[full_key "ph_amp_caus" "knn"
         := PyNdarray (stacked_value S (column 3 "knn" bundles))]>
         ∅))))))).
Proof. reflexivity. Qed.

(** The first bundle is filed as it is. *)
Lemma stack_first_bundle (g : grids) :
  square_bundle S g →
  for_each stack_result ∅
    (zip RESULT_ORDER
       [py_of_measure_set (phase_phase_coherence g);
        py_of_measure_set (phase_amp_mi g);
        py_of_measure_set (phase_phase_causality g);
        py_of_measure_set (phase_amp_causality g)])
  = Return (saving_of S [g]).
Proof.
  intros ((a0 & b0 & E0 & _) & (a1 & b1 & E1 & _) & (a2 & b2 & E2 & _)
          & (a3 & b3 & E3 & _)).
  destruct g as [d0 d1 d2 d3]; cbn in *; subst. reflexivity.
Qed.

(** Every later bundle is stacked onto the dictionary. *)
Lemma stack_next_bundle (bundles : list grids) (g : grids) :
  bundles ≠ [] → Forall (square_bundle S) bundles → square_bundle S g →
  for_each stack_result (saving_of S bundles)
    (zip RESULT_ORDER
       [py_of_measure_set (phase_phase_coherence g);
        py_of_measure_set (phase_amp_mi g);
        py_of_measure_set (phase_phase_causality g);
        py_of_measure_set (phase_amp_causality g)])
  = Return (saving_of S (bundles ++ [g])).
Proof.
  intros Hne Hall Hg.
  pose proof (λ m, column_square bundles m Hall) as Hcol.
  destruct Hg as ((a0 & b0 & E0 & Ha0 & Hb0) & (a1 & b1 & E1 & Ha1 & Hb1)
                  & (a2 & b2 & E2 & Ha2 & Hb2) & (a3 & b3 & E3 & Ha3 & Hb3)).
  destruct g as [d0 d1 d2 d3]; cbn in E0, E1, E2, E3; subst.
  cbn [phase_phase_coherence phase_amp_mi phase_phase_causality
         phase_amp_causality RESULT_ORDER zip zip_with for_each].
  rewrite (stack_result_pair "ph_ph_mi" _ a0 b0
             (column 0 "eqq" bundles) (column 0 "knn" bundles));
    [|reflexivity|reflexivity|by apply column_nonempty..
     |apply Hcol|apply Hcol|done|done].
  rewrite bind_Return.
  rewrite (stack_result_pair "ph_amp_mi" _ a1 b1
             (column 1 "eqq" bundles) (column 1 "knn" bundles));
    [|reflexivity|reflexivity|by apply column_nonempty..
     |apply Hcol|apply Hcol|done|done].
  rewrite bind_Return.
  rewrite (stack_result_pair "ph_ph_caus" _ a2 b2
             (column 2 "eqq" bundles) (column 2 "knn" bundles));
    [|reflexivity|reflexivity|by apply column_nonempty..
     |apply Hcol|apply Hcol|done|done].
  rewrite bind_Return.
  rewrite (stack_result_pair "ph_amp_caus" _ a3 b3
             (column 3 "eqq" bundles) (column 3 "knn" bundles));
    [|reflexivity|reflexivity|by apply column_nonempty..
     |apply Hcol|apply Hcol|done|done].
  rewrite bind_Return. f_equal.
  rewrite (saving_of_unfold (bundles ++ _)), !column_snoc.
  reflexivity.
Qed.

End Stacking.

Section Saving.
Variable S : nat.

(** The loop of [save] over the members that follow the first. *)
Lemma stack_members (rest bundles : list grids) :
  bundles ≠ [] → Forall (square_bundle S) bundles →
  Forall (square_bundle S) rest →
  for_each (λ saving_dict single_result,
              entries ← py_iter single_result;
              for_each stack_result saving_dict (zip RESULT_ORDER entries))
    (saving_of S bundles) (py_of_grids <$> rest)
  = Return (saving_of S (bundles ++ rest)).
Proof.
  intros Hne Hall Hrest. revert bundles Hne Hall.
  induction Hrest as [|g rest Hg _ IH]; intros bundles Hne Hall.
  - by rewrite app_nil_r.
  - cbn [fmap list_fmap for_each].
    rewrite py_of_grids_iter, bind_Return.
    rewrite (stack_next_bundle S bundles g Hne Hall Hg), bind_Return.
    rewrite IH.
    + by rewrite <- app_assoc.
    + by destruct bundles.
    + apply Forall_app. by split; [|apply Forall_singleton].
Qed.

(** The dictionary [save] builds from an ensemble. *)
Lemma saving_dict_of_ensemble (bundles : list grids) :
  bundles ≠ [] → Forall (square_bundle S) bundles →
  saving_dict_of (Container true (PyList (py_of_grids <$> bundles)))
  = Return (saving_of S bundles).
Proof.
  intros Hne Hall. destruct bundles as [|g rest]; [done|].
  apply Forall_cons in Hall as [Hg Hrest].
  unfold saving_dict_of.
  cbn [surrogates results negb py_iter fmap list_fmap].
  rewrite bind_Return. cbn [for_each].
  rewrite py_of_grids_iter, bind_Return.
  rewrite (stack_first_bundle S g Hg), bind_Return.
  apply (stack_members rest [g]); [done| |done]. by apply Forall_singleton.
Qed.

Lemma stacked_value_stack3 (arrays : list ndarray) :
  2 ≤ length arrays → stacked_value S arrays = stack3 S arrays.
Proof. destruct arrays as [|a [|a' arrays]]; cbn; [lia..|done]. Qed.

(** What lies under one key once two or more bundles were stacked. *)
Lemma stacked_column (bundles : list grids) (m : nat) (estimator : string) :
  2 ≤ length bundles → Forall (square_bundle S) bundles →
  estimator = "eqq" ∨ estimator = "knn" →
  shape (stacked_value S (column m estimator bundles))
  = [S; S; length bundles]
  ∧ ∀ k g, bundles !! k = Some g →
           slice_axis2 (stacked_value S (column m estimator bundles)) k
           = Return (array_of g m estimator).
Proof.
  intros Hlen Hall Hest.
  rewrite stacked_value_stack3
    by (unfold column; by rewrite length_fmap).
  split.
  - unfold stack3, column; cbn [shape]. by rewrite length_fmap.
  - intros k g Hk. apply slice_stack3.
    + unfold column. by rewrite list_lookup_fmap, Hk.
    + pose proof (proj1 (Forall_lookup _ _) Hall k g Hk) as Hg.
      destruct (square_bundle_arrays S g m Hg) as [Heqq Hknn].
      by destruct Hest as [-> | ->].
Qed.

End Saving.

(** C7, amended: from an ensemble of [N >= 2] bundles of [S x S] matrices
    [save] writes a dictionary with exactly the eight keys; under each
    key lies an array of shape [(S, S, N)] whose slice [[:, :, k]] is the
    matrix of bundle [k], in the order the bundles were collected. *)
Theorem save_stacks_ensemble (S : nat) (bundles : list grids)
    (filename : string) (fs : disk) :
  2 ≤ length bundles →
  Forall (square_bundle S) bundles →
  ∃ saving_dict : saving,
    save (Container true (PyList (py_of_grids <$> bundles))) filename fs
    = (Return (), <[filename := saving_dict]> fs)
    ∧ dom saving_dict = list_to_set persisted_keys
    ∧ ∀ m result_str estimator,
        RESULT_ORDER !! m = Some result_str →
        estimator = "eqq" ∨ estimator = "knn" →
        ∃ stacked,
          saving_dict !! full_key result_str estimator
          = Some (PyNdarray stacked)
          ∧ shape stacked = [S; S; length bundles]
          ∧ ∀ k g, bundles !! k = Some g →
                   slice_axis2 stacked k = Return (array_of g m estimator).
Proof.
  intros Hlen Hall. exists (saving_of S bundles).
  assert (Hne : bundles ≠ []) by (destruct bundles; [cbn in Hlen; lia|done]).
  split; [|split].
  - unfold save. by rewrite (saving_dict_of_ensemble S bundles Hne Hall).
  - reflexivity.
  - intros m result_str estimator Hm Hest.
    exists (stacked_value S (column m estimator bundles)).
    split; [|by apply stacked_column].
    destruct m as [|[|[|[|m]]]]; cbn in Hm; try done;
      injection Hm as <-; by destruct Hest as [-> | ->].
Qed.

Lemma constant_bundle_square (x : Q) : square_bundle 1 (constant_bundle x).
Proof. repeat split; by eexists _, _. Qed.

(** Two bundles of [1 x 1] matrices. *)
Lemma save_stacks_ensemble_witness :
  (2 ≤ length [constant_bundle 3; constant_bundle 4]
   ∧ Forall (square_bundle 1) [constant_bundle 3; constant_bundle 4])
  ∧ ∃ saving_dict : saving,
      save (Container true
              (PyList (py_of_grids
                         <$> [constant_bundle 3; constant_bundle 4])))
        "bins/surrogates.bin" ∅
      = (Return (), <["bins/surrogates.bin" := saving_dict]> ∅)
      ∧ dom saving_dict = list_to_set persisted_keys.
Proof.
  assert (Hall : Forall (square_bundle 1)
                   [constant_bundle 3; constant_bundle 4]).
  { repeat apply Forall_cons_2; [..|apply Forall_nil_2];
      apply constant_bundle_square. }
  split; [split; [cbn; lia|exact Hall]|].
  destruct (save_stacks_ensemble 1 [constant_bundle 3; constant_bundle 4]
              "bins/surrogates.bin" ∅)
    as (saving_dict & Hsave & Hdom & _); [cbn; lia|exact Hall|].
  exists saving_dict. by split.
Defined.

Example save_two_bundles :
  saving_dict_of
    (Container true
       (PyList (py_of_grids <$> [constant_bundle 3; constant_bundle 4])))
  ≫= (λ d, mret (d !! "ph_ph_mi_eqq"))
  = Return (Some (PyNdarray (NdArray [1; 1; 2] [Fin 3; Fin 4]))).
Proof. reflexivity. Qed.

(** The observed-data bundle is flattened under the eight keys. *)
Example save_observed_bundle :
  saving_dict_of (Container false (py_of_grids (constant_bundle 3)))
  ≫= (λ d, mret (dom d, d !! "ph_amp_caus_knn"))
  = Return (list_to_set persisted_keys,
            Some (PyNdarray (NdArray [1; 1] [Fin 3]))).
Proof. reflexivity. Qed.

Example save_one_bundle :
  saving_dict_of
    (Container true (PyList (py_of_grids <$> [constant_bundle 3])))
  ≫= (λ d, mret (d !! "ph_ph_mi_eqq"))
  = Return (Some (PyNdarray (NdArray [1; 1] [Fin 3]))).
Proof. reflexivity. Qed.

(** C7 as stated fails: an ensemble of one bundle is filed as it is, its
    matrices keep the shape [(S, S)]. *)
Lemma save_does_not_stack_a_single_bundle :
  ¬ (∀ (S : nat) (bundles : list grids) (filename : string) (fs : disk),
       Forall (square_bundle S) bundles →
       ∃ saving_dict : saving,
         save (Container true (PyList (py_of_grids <$> bundles))) filename fs
         = (Return (), <[filename := saving_dict]> fs)
         ∧ ∀ m result_str estimator,
             RESULT_ORDER !! m = Some result_str →
             estimator = "eqq" ∨ estimator = "knn" →
             ∃ stacked,
               saving_dict !! full_key result_str estimator
               = Some (PyNdarray stacked)
               ∧ shape stacked = [S; S; length bundles]).
Proof.
  intros Hclaim.
  assert (Hall : Forall (square_bundle 1) [constant_bundle 3]).
  { apply Forall_singleton, constant_bundle_square. }
  destruct (Hclaim 1 [constant_bundle 3] "bins/surrogates.bin" ∅ Hall)
    as (saving_dict & Hsave & Hkeys).
  destruct (Hkeys 0 "ph_ph_mi" "eqq" eq_refl (or_introl eq_refl))
    as (stacked & Hlookup & Hshape).
  unfold save in Hsave.
  rewrite (saving_dict_of_ensemble 1 [constant_bundle 3]) in Hsave
    by done.
  apply (f_equal (λ run : outcome () * disk,
                    run.2 !! "bins/surrogates.bin")) in Hsave.
  cbn beta in Hsave. cbn [snd] in Hsave.
  rewrite !lookup_insert_eq in Hsave. apply (inj Some) in Hsave.
  rewrite <- Hsave in Hlookup.
  change (Some (PyNdarray (NdArray [1; 1] [Fin 3]))
          = Some (PyNdarray stacked)) in Hlookup.
  apply (inj Some) in Hlookup. injection Hlookup as <-.
  discriminate Hshape.
Qed.

(* ================================================================== *)
(** * The Surrogate Coordinator *)

Section Tally.
Context {A : Type} `{EqDecision A}.

Lemma tally_replicate (x y : A) (n : nat) :
  tally x (replicate n y) = if decide (y = x) then n else 0.
Proof.
  induction n as [|n IH]; cbn [replicate tally]; [by case_decide|].
  rewrite IH. by case_decide.
Qed.

Lemma tally_insert (l : list A) (i : nat) (x y z : A) :
  l !! i = Some x →
  tally z (<[i := y]> l) + (if decide (x = z) then 1 else 0)
  = tally z l + (if decide (y = z) then 1 else 0).
Proof.
  revert i; induction l as [|h l IH]; intros [|i] Hi; try done.
  - injection Hi as ->. change (<[0:=y]> (x :: l)) with (y :: l).
    cbn [tally].
    destruct (decide (x = z)), (decide (y = z)); lia.
  - specialize (IH i Hi).
    change (<[S i:=y]> (h :: l)) with (h :: <[i:=y]> l). cbn [tally].
    destruct (decide (x = z)), (decide (y = z)), (decide (h = z)); lia.
Qed.

Lemma tally_app (l k : list A) (x : A) :
  tally x (l ++ k) = tally x l + tally x k.
Proof. induction l as [|h l IH]; cbn; [done|]. rewrite IH. lia. Qed.

Lemma tally_le_length (l : list A) (x : A) : tally x l ≤ length l.
Proof. induction l as [|h l IH]; cbn; [lia|]. case_decide; lia. Qed.

Lemma tally_lookup (l : list A) (x : A) :
  0 < tally x l → ∃ i, l !! i = Some x.
Proof.
  induction l as [|h l IH]; cbn; [lia|]. case_decide as Hh.
  - intros _. exists 0. by rewrite Hh.
  - intros Hpos. destruct IH as [i Hi]; [lia|]. by exists (S i).
Qed.

Lemma tally_lookup_pos (l : list A) (i : nat) (x : A) :
  l !! i = Some x → 0 < tally x l.
Proof.
  revert i; induction l as [|h l IH]; intros [|i] Hi; try done; cbn.
  - injection Hi as ->. rewrite decide_True by done. lia.
  - specialize (IH i Hi). lia.
Qed.

Lemma tally_Forall (l : list A) (x : A) :
  Forall (λ y, y = x) l → tally x l = length l.
Proof.
  induction 1 as [|h l Hh _ IH]; cbn; [done|].
  rewrite decide_True by done. lia.
Qed.

Lemma tally_none_Forall (l : list A) (x y : A) :
  x ≠ y → Forall (λ z, z = x) l → tally y l = 0.
Proof.
  intros Hne. induction 1 as [|h l Hh _ IH]; cbn; [done|].
  rewrite decide_False by congruence. lia.
Qed.

End Tally.

(** Settles the comparisons of constructors that [tally] leaves. *)
Ltac decide_status :=
  repeat match goal with
    | H : context [decide (?x = ?y)] |- _ =>
        first [ rewrite (decide_True (P := x = y)) in H by done
              | rewrite (decide_False (P := x = y)) in H by done ]
    | |- context [decide (?x = ?y)] =>
        first [ rewrite (decide_True (P := x = y)) by done
              | rewrite (decide_False (P := x = y)) by done ]
    end.

Section Boxes.
Context {A : Type}.
Implicit Types (boxes : list (list A)).

(** A bundle left with a feeder thread is one more in transit. *)
Lemma concat_put boxes (w : nat) (box : list A) (r : A) :
  boxes !! w = Some box →
  concat (<[w := box ++ [r]]> boxes) ≡ₚ concat boxes ++ [r].
Proof.
  revert w; induction boxes as [|h boxes IH]; intros [|w] Hw; try done.
  - injection Hw as ->.
    change (<[0 := box ++ [r]]> (box :: boxes)) with ((box ++ [r]) :: boxes).
    cbn [concat]. rewrite <- !app_assoc. f_equiv.
    apply Permutation_app_comm.
  - change (<[S w := box ++ [r]]> (h :: boxes))
      with (h :: <[w := box ++ [r]]> boxes).
    cbn [concat]. rewrite (IH w Hw). by rewrite app_assoc.
Qed.

(** A bundle handed to the pipe is one less in transit. *)
Lemma concat_take boxes (w : nat) (box : list A) (r : A) :
  boxes !! w = Some (r :: box) →
  concat boxes ≡ₚ r :: concat (<[w := box]> boxes).
Proof.
  revert w; induction boxes as [|h boxes IH]; intros [|w] Hw; try done.
  - by injection Hw as ->.
  - change (<[S w := box]> (h :: boxes)) with (h :: <[w := box]> boxes).
    cbn [concat]. rewrite (IH w Hw). by rewrite Permutation_middle.
Qed.

Lemma concat_nonempty boxes :
  0 < length (concat boxes) → ∃ w r box, boxes !! w = Some (r :: box).
Proof.
  induction boxes as [|[|r box] boxes IH]; cbn; [lia| |].
  - intros Hpos. destruct (IH Hpos) as (w & r & box & Hw).
    by exists (S w), r, box.
  - intros _. by exists 0, r, box.
Qed.

Lemma concat_empty boxes (k : nat) (box : list A) :
  length (concat boxes) = 0 → boxes !! k = Some box → box = [].
Proof.
  revert k; induction boxes as [|h boxes IH]; intros [|k]; cbn;
    rewrite ?length_app; try done.
  - intros Hlen [= <-]. destruct h; [done|cbn in Hlen; lia].
  - intros Hlen Hk. apply (IH k); [lia|done].
Qed.

End Boxes.

Section PoolFacts.
Context {R : Type}.
Implicit Types (s : state R) (N W : nat).

Lemma put_loop (x : token) (n start : nat) (q : list token) :
  foldl (λ q _, q ++ [x]) q (seq start n) = q ++ replicate n x.
Proof.
  revert start q; induction n as [|n IH]; intros start q; cbn.
  - by rewrite app_nil_r.
  - rewrite IH. by rewrite <- app_assoc.
Qed.

(** The job queue as [main] fills it. *)
Lemma preload_spec N W : preload N W = replicate N Job ++ replicate W Pill.
Proof. unfold preload. by rewrite !put_loop. Qed.

Lemma act_step N (a : action) s s' : act N a s = Some s' → step N s s'.
Proof.
  destruct a as [w r|w|w|]; cbn [act]; intros Hact.
  - by apply (step_worker N w r).
  - by apply (step_fails N w).
  - by apply (step_feeder N w).
  - by apply step_main.
Qed.

Lemma run_nsteps N (schedule : list action) s s' :
  run N schedule s = Some s' → nsteps (step N) (length schedule) s s'.
Proof.
  revert s; induction schedule as [|a schedule IH]; intros s; cbn.
  - intros [= ->]. constructor.
  - destruct (act N a s) as [s1|] eqn:Hact; [|done]. cbn. intros Hrun.
    apply (nsteps_l _ _ _ s1); [exact (act_step N a s s1 Hact)|by apply IH].
Qed.

Lemma head_of_queue (jobs pills : nat) (t : token) (q : list token) :
  replicate jobs Job ++ replicate pills Pill = t :: q →
  (t = Job ∧ ∃ jobs', jobs = S jobs'
                      ∧ q = replicate jobs' Job ++ replicate pills Pill)
  ∨ (t = Pill ∧ jobs = 0 ∧ ∃ pills', pills = S pills'
                                     ∧ q = replicate pills' Pill).
Proof.
  destruct jobs as [|jobs]; cbn.
  - destruct pills as [|pills]; cbn; [done|]. intros [= <- <-].
    right. eauto.
  - intros [= <- <-]. left. eauto.
Qed.

Lemma length_concat_empty (n : nat) :
  length (concat (replicate n (@nil R))) = 0.
Proof. induction n as [|n IH]; [done|]. by cbn. Qed.

Lemma invariant_init N W : invariant N W (started (R := R) N W).
Proof.
  split; cbn.
  - by rewrite length_replicate.
  - by rewrite length_replicate.
  - exists N, W. unfold in_transit; cbn.
    rewrite preload_spec, !tally_replicate, length_concat_empty.
    decide_status. repeat split; (done || lia).
  - done.
  - done.
Qed.

(** What [main] knows of the workers it has joined is not touched by a
    worker that has not stopped. *)
Lemma joined_insert (ws : list wstatus) (w : nat) (x y : wstatus)
    (p : pc) (P : Prop) :
  ws !! w = Some x → x ≠ Done →
  match p with
  | Collect => True
  | Join k => P ∧ ∀ i, i < k → ws !! i = Some Done
  | Finished => P ∧ Forall (λ z, z = Done) ws
  end →
  match p with
  | Collect => True
  | Join k => P ∧ ∀ i, i < k → <[w := y]> ws !! i = Some Done
  | Finished => P ∧ Forall (λ z, z = Done) (<[w := y]> ws)
  end.
Proof.
  intros Hw Hx. destruct p as [|k|]; [done| |].
  - intros [HP Hbelow]. split; [done|]. intros i Hi.
    rewrite list_lookup_insert_ne; [by apply Hbelow|].
    intros <-. rewrite (Hbelow w Hi) in Hw. congruence.
  - intros [_ Hall].
    pose proof (proj1 (Forall_lookup _ _) Hall w x Hw). done.
Qed.

(** A statement of a worker keeps the invariant. *)
Lemma invariant_worker_step N W w r s s' :
  invariant N W s → worker_step w r s = Some s' → invariant N W s'.
Proof.
  intros [Hpool Hboxes (jobs & pills & Hq & Hpills & Hjobs & Hsum)
            Hcoll Hmain].
  unfold worker_step.
  destruct (workers s !! w) as [[| | |]|] eqn:Hw; [| |done..].
  - (* at [jobq.get()] *)
    pose proof (tally_insert (workers s) w Idle Busy Busy Hw) as HbB.
    pose proof (tally_insert (workers s) w Idle Busy Done Hw) as HbD.
    pose proof (tally_insert (workers s) w Idle Busy Crashed Hw) as HbC.
    pose proof (tally_insert (workers s) w Idle Done Busy Hw) as HdB.
    pose proof (tally_insert (workers s) w Idle Done Done Hw) as HdD.
    pose proof (tally_insert (workers s) w Idle Done Crashed Hw) as HdC.
    decide_status.
    destruct (job_queue s) as [|t q] eqn:Hqueue; [done|].
    destruct (head_of_queue _ _ _ _ (eq_sym Hq))
      as [(-> & jobs' & -> & ->) | (-> & -> & pills' & -> & ->)];
      intros [= <-]; split; cbn; rewrite ?length_insert; try done.
    + exists jobs', pills. unfold in_transit in *; cbn.
      repeat split; (done || lia).
    + by apply (joined_insert _ _ Idle).
    + exists 0, pills'. unfold in_transit in *; cbn.
      repeat split; (done || lia).
    + by apply (joined_insert _ _ Idle).
  - (* at [resq.put] *)
    pose proof (tally_insert (workers s) w Busy Idle Busy Hw) as HiB.
    pose proof (tally_insert (workers s) w Busy Idle Done Hw) as HiD.
    pose proof (tally_insert (workers s) w Busy Idle Crashed Hw) as HiC.
    decide_status.
    destruct (outboxes s !! w) as [box|] eqn:Hbox; [|done].
    pose proof (Permutation_length (concat_put _ _ _ r Hbox)) as Hput.
    rewrite length_app in Hput; cbn in Hput.
    intros [= <-]; split; cbn; rewrite ?length_insert; try done.
    + exists jobs, pills. unfold in_transit in *; cbn.
      repeat split; (done || lia).
    + by apply (joined_insert _ _ Busy).
Qed.

(** The death of a worker keeps the invariant. *)
Lemma invariant_worker_fails N W w s s' :
  invariant N W s → worker_fails w s = Some s' → invariant N W s'.
Proof.
  intros [Hpool Hboxes (jobs & pills & Hq & Hpills & Hjobs & Hsum)
            Hcoll Hmain].
  unfold worker_fails.
  destruct (workers s !! w) as [[| | |]|] eqn:Hw; try done.
  pose proof (tally_insert (workers s) w Busy Crashed Busy Hw) as HcB.
  pose proof (tally_insert (workers s) w Busy Crashed Done Hw) as HcD.
  pose proof (tally_insert (workers s) w Busy Crashed Crashed Hw) as HcC.
  decide_status.
  intros [= <-]; split; cbn; rewrite ?length_insert; try done.
  - exists jobs, pills. unfold in_transit in *; cbn.
    repeat split; (done || lia).
  - by apply (joined_insert _ _ Busy).
Qed.

(** A move of a feeder thread keeps the invariant. *)
Lemma invariant_feeder_step N W w s s' :
  invariant N W s → feeder_step w s = Some s' → invariant N W s'.
Proof.
  intros [Hpool Hboxes (jobs & pills & Hq & Hpills & Hjobs & Hsum)
            Hcoll Hmain].
  unfold feeder_step.
  destruct (outboxes s !! w) as [[|r box]|] eqn:Hbox; try done.
  pose proof (Permutation_length (concat_take _ _ _ _ Hbox)) as Htake.
  cbn in Htake.
  intros [= <-]; split; cbn; rewrite ?length_insert, ?length_app;
    try done.
  exists jobs, pills. unfold in_transit in *; cbn.
  repeat split; (done || lia).
Qed.

(** A statement of [main] keeps the invariant. *)
Lemma invariant_main_step N W s s' :
  invariant N W s → main_step N s = Some s' → invariant N W s'.
Proof.
  intros [Hpool Hboxes (jobs & pills & Hq & Hpills & Hjobs & Hsum)
            Hcoll Hmain].
  unfold main_step.
  destruct (main_pc s) as [|k|] eqn:Hpc; [| |done].
  - case_decide as Hless.
    + destruct (result_queue s) as [|r q] eqn:Hrq; [done|].
      intros [= <-]; split; cbn; rewrite ?length_app; cbn; try done;
        [|lia].
      exists jobs, pills. unfold in_transit in *; cbn in *.
      repeat split; (done || lia).
    + intros [= <-]; split; cbn; try done.
      * by exists jobs, pills.
      * split; [lia|]. intros i Hi. lia.
  - destruct Hmain as [Hdone Hbelow].
    destruct (workers s !! k) as [[| | |]|] eqn:Hk; try done.
    + destruct (outboxes s !! k) as [[|]|]; try done.
      intros [= <-]; split; cbn; try done.
      * by exists jobs, pills.
      * split; [done|]. intros i Hi.
        destruct (decide (i = k)) as [->|]; [done|]. apply Hbelow. lia.
    + pose proof (tally_lookup_pos _ _ _ Hk). lia.
    + intros [= <-]; split; cbn; try done.
      * by exists jobs, pills.
      * split; [done|]. apply Forall_lookup. intros i x Hi.
        pose proof (lookup_lt_Some _ _ _ Hi) as Hlt.
        apply lookup_ge_None_1 in Hk.
        rewrite Hbelow in Hi by lia. congruence.
Qed.

Lemma invariant_step N W s s' :
  invariant N W s → step N s s' → invariant N W s'.
Proof.
  intros Hinv Hstep.
  destruct Hstep as [w r s s' Hstep | w s s' Hstep | w s s' Hstep
                    | s s' Hstep].
  - by eapply invariant_worker_step.
  - by eapply invariant_worker_fails.
  - by eapply invariant_feeder_step.
  - by eapply invariant_main_step.
Qed.

Lemma invariant_nsteps N W n s s' :
  invariant N W s → nsteps (step N) n s s' → invariant N W s'.
Proof. intros Hinv Hrun. induction Hrun; eauto using invariant_step. Qed.

(** Every move uses up some of the measure. *)
Lemma measure_step N s s' : step N s s' → measure s' < measure s.
Proof.
  intros [w r ? ? Hstep | w ? ? Hstep | w ? ? Hstep | ? ? Hstep].
  - unfold worker_step in Hstep.
    destruct (workers _ !! w) as [[| | |]|] eqn:Hw; [| |done..].
    + pose proof (tally_insert (workers s0) w Idle Busy Busy Hw) as HbB.
      pose proof (tally_insert (workers s0) w Idle Done Busy Hw) as HdB.
      decide_status.
      destruct (job_queue s0) as [|[|] q] eqn:Hq; [done|..];
        injection Hstep as <-; unfold measure, in_transit; cbn;
        rewrite Hq, length_insert; cbn; lia.
    + pose proof (tally_insert (workers s0) w Busy Idle Busy Hw) as HiB.
      decide_status.
      destruct (outboxes s0 !! w) as [box|] eqn:Hbox; [|done].
      pose proof (Permutation_length (concat_put _ _ _ r Hbox)) as Hput.
      rewrite length_app in Hput; cbn in Hput.
      injection Hstep as <-; unfold measure, in_transit; cbn.
      rewrite length_insert. lia.
  - unfold worker_fails in Hstep.
    destruct (workers _ !! w) as [[| | |]|] eqn:Hw; try done.
    pose proof (tally_insert (workers s0) w Busy Crashed Busy Hw) as HcB.
    decide_status.
    injection Hstep as <-; unfold measure, in_transit; cbn.
    rewrite length_insert. lia.
  - unfold feeder_step in Hstep.
    destruct (outboxes s0 !! w) as [[|r box]|] eqn:Hbox; try done.
    pose proof (Permutation_length (concat_take _ _ _ _ Hbox)) as Htake.
    cbn in Htake.
    injection Hstep as <-; unfold measure, in_transit; cbn.
    rewrite length_app; cbn. lia.
  - unfold main_step in Hstep. unfold measure, in_transit.
    destruct (main_pc s0) as [|k|] eqn:Hpc; [| |done].
    + case_decide.
      * destruct (result_queue s0) as [|r q] eqn:Hrq; [done|].
        injection Hstep as <-; cbn. lia.
      * injection Hstep as <-; cbn. lia.
    + destruct (workers s0 !! k) as [[| | |]|] eqn:Hk; try done.
      * destruct (outboxes s0 !! k) as [[|]|]; try done.
        injection Hstep as <-; cbn.
        pose proof (lookup_lt_Some _ _ _ Hk). lia.
      * destruct (outboxes s0 !! k) as [[|]|]; try done.
        injection Hstep as <-; cbn.
        pose proof (lookup_lt_Some _ _ _ Hk). lia.
      * injection Hstep as <-; cbn. lia.
Qed.

Lemma measure_nsteps N n s s' :
  nsteps (step N) n s s' → n + measure s' ≤ measure s.
Proof.
  induction 1 as [|n s1 s2 s3 Hstep _ IH]; [done|].
  pose proof (measure_step N _ _ Hstep). lia.
Qed.

Lemma measure_init N W : measure (started (R := R) N W) = 4 * N + 5 * W + 2.
Proof.
  unfold measure, started, in_transit; cbn.
  rewrite preload_spec, length_app, !length_replicate, tally_replicate,
    length_concat_empty.
  decide_status. lia.
Qed.

(** With a worker in the pool, or nothing to do, and as long as no
    worker has died, a reachable state is completed or some process
    can move. *)
Lemma progress N W s (r : R) :
  0 < W ∨ N = 0 → invariant N W s →
  tally Crashed (workers s) = 0 →
  completed s ∨ ∃ s', step N s s'.
Proof.
  intros Hpool
    [Hlen Hboxes (jobs & pills & Hq & Hpills & Hjobs & Hsum) Hcoll Hmain]
    Halive.
  assert (Hmove : ∀ w, workers s !! w = Some Idle ∨ workers s !! w = Some Busy →
                       ∃ s', step N s s').
  { intros w [Hw|Hw].
    - assert (0 < pills) as Hsome.
      { pose proof (tally_insert (workers s) w Idle Done Done Hw) as HD.
        decide_status.
        pose proof (tally_le_length (<[w:=Done]> (workers s)) Done) as Hle.
        rewrite length_insert in Hle. lia. }
      destruct (job_queue s) as [|t q] eqn:Hqueue.
      { destruct jobs, pills; cbn in Hq; try done. lia. }
      destruct t; eexists; apply (step_worker N w r); unfold worker_step;
        by rewrite Hw, Hqueue.
    - destruct (lookup_lt_is_Some_2 (outboxes s) w) as [box Hbox].
      { rewrite Hboxes, <- Hlen. by eapply lookup_lt_Some. }
      eexists. apply (step_worker N w r). unfold worker_step.
      by rewrite Hw, Hbox. }
  destruct (main_pc s) as [|k|] eqn:Hpc.
  - (* collecting *)
    destruct (decide (surrogates_done s < N)) as [Hless|Hge].
    + destruct (result_queue s) as [|x q] eqn:Hrq.
      * cbn in Hsum.
        destruct (decide (0 < length (in_transit s))) as [Hbox|Hnone].
        { destruct (concat_nonempty _ Hbox) as (w & x & box & Hw).
          right. eexists. apply (step_feeder N w). unfold feeder_step.
          by rewrite Hw. }
        destruct (decide (0 < tally Busy (workers s))) as [Hbusy|Hidle].
        { destruct (tally_lookup _ _ Hbusy) as [w Hw]. eauto. }
        assert (0 < jobs) as Hj by lia.
        assert (0 < W) as HW by lia.
        destruct (workers s !! 0) as [[| | |]|] eqn:H0.
        { eauto. }
        { eauto. }
        { pose proof (tally_lookup_pos _ _ _ H0). lia. }
        { pose proof (tally_lookup_pos _ _ _ H0). lia. }
        { apply lookup_ge_None_1 in H0. lia. }
      * right. eexists. apply step_main. unfold main_step.
        by rewrite Hpc, decide_True, Hrq by done.
    + right. eexists. apply step_main. unfold main_step.
      by rewrite Hpc, decide_False by done.
  - (* joining *)
    destruct Hmain as [Hdone _].
    destruct (workers s !! k) as [[| | |]|] eqn:Hk; [by eauto..| | |].
    + destruct (lookup_lt_is_Some_2 (outboxes s) k) as [box Hbox].
      { rewrite Hboxes, <- Hlen. by eapply lookup_lt_Some. }
      assert (box = []) as ->.
      { apply (concat_empty (outboxes s) k); [|done].
        unfold in_transit in Hsum. lia. }
      right; eexists; apply step_main; unfold main_step.
      by rewrite Hpc, Hk, Hbox.
    + pose proof (tally_lookup_pos _ _ _ Hk). lia.
    + right; eexists; apply step_main; unfold main_step.
      by rewrite Hpc, Hk.
  - left. by destruct Hmain.
Qed.

(** Once every worker has left its loop at its pill, every job has been
    taken and has given its result. *)
Lemma all_done_spec N W s :
  0 < W ∨ N = 0 → invariant N W s →
  Forall (λ w, w = Done) (workers s) →
  job_queue s = []
  ∧ tally Crashed (workers s) = 0
  ∧ length (all_surrogates_results s) + length (result_queue s)
    + length (in_transit s) = N.
Proof.
  intros Hpool
    [Hlen Hboxes (jobs & pills & Hq & Hpills & Hjobs & Hsum) Hcoll Hmain]
    Hall.
  pose proof (tally_Forall _ _ Hall) as HD.
  assert (HB : tally Busy (workers s) = 0)
    by by apply (tally_none_Forall _ Done).
  assert (HC : tally Crashed (workers s) = 0)
    by by apply (tally_none_Forall _ Done).
  assert (pills = 0) by lia.
  assert (jobs = 0) by (destruct Hpool; lia).
  subst jobs pills. cbn in Hq. repeat split; (done || lia).
Qed.

(** What a completed run leaves behind. *)
Lemma completed_spec N W s :
  0 < W ∨ N = 0 → invariant N W s → completed s →
  length (all_surrogates_results s) = N
  ∧ surrogates_done s = N
  ∧ job_queue s = []
  ∧ result_queue s = []
  ∧ in_transit s = [].
Proof.
  intros Hpool Hinv [Hpc Hall].
  destruct (all_done_spec N W s Hpool Hinv Hall) as (Hq & _ & Hsum).
  destruct Hinv as [_ _ _ Hcoll Hmain].
  rewrite Hpc in Hmain. destruct Hmain as [Hdone _].
  destruct (result_queue s) as [|x q] eqn:Hrq; [|cbn in Hsum; lia].
  destruct (in_transit s) as [|y t] eqn:Htr; [|cbn in Hsum; lia].
  repeat split; (done || lia).
Qed.

End PoolFacts.

(** C5, amended: with at least one worker, or nothing to collect, the job
    queue starts as [N] jobs followed by [W] pills; a worker that takes a
    pill stops, for good, and the workers that have stopped are as many
    as the pills taken; every run is finite; as long as no worker has
    died the pool is not stuck short of completion; when all workers have
    run to their pill no job is left and [N] results are with [main] or
    on their way to it, and on completion [main] holds exactly [N]
    results; with [N = 0] no worker can die. *)
Theorem pool_collects_every_result {R : Type} (r : R) (N W n : nat)
    (s : state R) :
  0 < W ∨ N = 0 →
  nsteps (step N) n (started N W) s →
  job_queue (started (R := R) N W)
  = replicate N Job ++ replicate W Pill
  ∧ (∀ w q, workers s !! w = Some Idle →
            job_queue s = Pill :: q →
            ∃ s', worker_step w r s = Some s'
                  ∧ workers s' !! w = Some Done
                  ∧ job_queue s' = q)
  ∧ (∀ w, workers s !! w = Some Done →
          worker_step w r s = None ∧ worker_fails w s = None)
  ∧ n + measure s ≤ 4 * N + 5 * W + 2
  ∧ tally Done (workers s) + tally Pill (job_queue s) = W
  ∧ (tally Crashed (workers s) = 0 → completed s ∨ ∃ s', step N s s')
  ∧ (Forall (λ w, w = Done) (workers s) →
     job_queue s = []
     ∧ tally Crashed (workers s) = 0
     ∧ length (all_surrogates_results s) + length (result_queue s)
       + length (in_transit s) = N)
  ∧ (N = 0 → tally Crashed (workers s) = 0)
  ∧ (completed s →
     length (all_surrogates_results s) = N
     ∧ surrogates_done s = N
     ∧ job_queue s = []
     ∧ result_queue s = []
     ∧ in_transit s = []).
Proof.
  intros Hpool Hrun.
  pose proof (invariant_nsteps N W n _ _ (invariant_init N W) Hrun) as Hinv.
  split; [apply preload_spec|].
  split.
  { intros w q Hw Hq. eexists. unfold worker_step. rewrite Hw, Hq.
    split; [reflexivity|]. cbn. split; [|done].
    apply list_lookup_insert_eq. by eapply lookup_lt_Some. }
  split.
  { intros w Hw. unfold worker_step, worker_fails. by rewrite Hw. }
  split.
  { pose proof (measure_nsteps N n _ _ Hrun) as Hm.
    by rewrite measure_init in Hm. }
  split.
  { destruct Hinv as [_ _ (jobs & pills & Hq & Hpills & _) _ _].
    rewrite Hq, tally_app, !tally_replicate. decide_status. lia. }
  split; [by apply (progress N W s r)|].
  split; [by apply (all_done_spec N W)|].
  split.
  { intros ->. destruct Hinv as [_ _ (jobs & pills & _ & _ & _ & Hsum) _ _].
    lia. }
  by apply (completed_spec N W).
Qed.

(** One job, one worker: the worker computes, reports and takes its pill,
    its feeder thread hands the result over, then [main] fetches the
    result and joins. *)
Lemma pool_collects_every_result_witness :
  ((0 < 1 ∨ 1 = 0)
   ∧ nsteps (step 1) 8 (started 1 1)
       (State [] [[]] [] [Done] 1 [()] Finished))
  ∧ length (all_surrogates_results
              (State [] [[]] [] [Done] 1 [()] Finished)) = 1.
Proof.
  assert (Hrun : nsteps (step 1) 8 (started 1 1)
                   (State [] [[]] [] [Done] 1 [()] Finished)).
  { apply (run_nsteps 1 [Worker 0 (); Worker 0 (); Worker 0 (); Feeder 0;
                         Main; Main; Main; Main]).
    reflexivity. }
  split; [split; [lia|exact Hrun]|].
  destruct (pool_collects_every_result () 1 1 8 _ (or_introl Nat.lt_0_1) Hrun)
    as (_ & _ & _ & _ & _ & _ & _ & _ & Hdone).
  apply Hdone. split; [reflexivity|]. by apply Forall_singleton.
Defined.

(** Nothing to collect, two workers: each takes its pill and [main]
    joins both. *)
Example pool_with_no_job :
  run (R := unit) 0 [Worker 1 (); Main; Worker 0 (); Main; Main; Main]
    (started 0 2)
  = Some (State [] [[]; []] [] [Done; Done] 0 [] Finished).
Proof. reflexivity. Qed.

(** C5 as stated fails: with one job and no worker, all the workers
    there are have run to completion, nothing can move, and [main] waits
    for a result that never comes. *)
Lemma pool_without_worker_is_stuck :
  ¬ (∀ (N W n : nat) (s : state unit),
       nsteps (step N) n (started N W) s →
       Forall (λ w, w = Done) (workers s) →
       (completed s ∨ ∃ s', step N s s')
       ∧ (completed s → length (all_surrogates_results s) = N)).
Proof.
  intros Hclaim.
  destruct (Hclaim 1 0 0 (started 1 0) (nsteps_O _ _) (Forall_nil_2 _))
    as [[[Hpc _] | [s' Hstep]] _].
  - discriminate Hpc.
  - inversion Hstep as [w r s1 s2 Hw | w s1 s2 Hw | w s1 s2 Hw | s1 s2 Hm];
      subst.
    + unfold worker_step in Hw. cbn in Hw. by destruct w.
    + unfold worker_fails in Hw. cbn in Hw. by destruct w.
    + unfold feeder_step in Hw. cbn in Hw. by destruct w.
    + discriminate Hm.
Qed.
(* ================================================================== *)
(** * More on the worker pool *)

Section PoolMore.
Context {R : Type}.
Implicit Types (s : state R) (N W : nat).

Lemma tally_zero (l : list wstatus) (x : wstatus) :
  tally x l = 0 → x ∉ l.
Proof.
  induction l as [|h l IH]; cbn [tally]; [intros _; apply not_elem_of_nil|].
  destruct (decide (h = x)) as [->|Hne]; [lia|].
  intros Hl. apply not_elem_of_cons. split; [congruence|apply IH; lia].
Qed.

(** One move adds what a worker puts, and nothing else, to the bundles
    that [main] holds or that are on their way to it. *)
Lemma act_results N (a : action) s s' :
  act N a s = Some s' →
  delivered_or_due s'
  ≡ₚ delivered_or_due s
      ++ match a with
         | Worker w r =>
             if decide (workers s !! w = Some Busy) then [r] else []
         | _ => []
         end.
Proof.
  unfold delivered_or_due, in_transit.
  destruct a as [w r|w|w|]; cbn [act].
  - unfold worker_step.
    destruct (workers s !! w) as [[| | |]|] eqn:Hw; [| |done..].
    + rewrite decide_False by done.
      destruct (job_queue s) as [|[|] q]; [done|..];
        intros [= <-]; cbn; by rewrite app_nil_r.
    + rewrite decide_True by done.
      destruct (outboxes s !! w) as [box|] eqn:Hbox; [|done].
      intros [= <-]; cbn. rewrite (concat_put _ _ _ r Hbox).
      by rewrite !app_assoc.
  - unfold worker_fails.
    destruct (workers s !! w) as [[| | |]|]; try done.
    intros [= <-]; cbn. by rewrite app_nil_r.
  - unfold feeder_step.
    destruct (outboxes s !! w) as [[|r box]|] eqn:Hbox; try done.
    intros [= <-]; cbn. rewrite (concat_take _ _ _ _ Hbox), app_nil_r.
    by rewrite <- !app_assoc.
  - unfold main_step. destruct (main_pc s) as [|k|]; [| |done].
    + case_decide.
      * destruct (result_queue s) as [|r q] eqn:Hrq; [done|].
        intros [= <-]; cbn. by rewrite app_nil_r, <- app_assoc.
      * intros [= <-]; cbn. by rewrite app_nil_r.
    + destruct (workers s !! k) as [[| | |]|]; try done;
        try (destruct (outboxes s !! k) as [[|]|]; try done);
        intros [= <-]; cbn; by rewrite app_nil_r.
Qed.

Lemma run_results N (schedule : list action) s s' :
  run N schedule s = Some s' →
  delivered_or_due s' ≡ₚ delivered_or_due s ++ reported N schedule s.
Proof.
  revert s; induction schedule as [|a schedule IH]; intros s; cbn.
  - intros [= ->]. by rewrite app_nil_r.
  - destruct (act N a s) as [s1|] eqn:Hact; [|done]. cbn. intros Hrun.
    rewrite (IH s1 Hrun), (act_results N a s s1 Hact), <- app_assoc.
    f_equiv. destruct a as [w r| | |]; [|done..]. by case_decide.
Qed.

Lemma invariant_run N W (schedule : list action) s :
  run N schedule (started N W) = Some s → invariant N W s.
Proof.
  intros Hrun. apply run_nsteps in Hrun.
  eapply invariant_nsteps; [apply invariant_init|exact Hrun].
Qed.

Lemma started_nothing_due N W : delivered_or_due (started (R := R) N W) = [].
Proof.
  unfold delivered_or_due, in_transit, started; cbn.
  induction W as [|W IH]; [done|]. by cbn.
Qed.

(** With every bundle collected, nothing is on its way any more. *)
Lemma collected_all N W s :
  invariant N W s → surrogates_done s = N →
  delivered_or_due s = all_surrogates_results s
  ∧ tally Crashed (workers s) = 0.
Proof.
  intros [_ _ (jobs & pills & _ & _ & _ & Hsum) _ _] Hdone.
  unfold delivered_or_due.
  destruct (result_queue s); [|cbn in Hsum; lia].
  destruct (in_transit s); [|cbn in Hsum; lia].
  split; [by rewrite !app_nil_r|lia].
Qed.

End PoolMore.

(** X1: under any schedule, the results [main] has collected, those that
    have arrived on the result queue and those still with the feeder
    threads of the workers are, up to their order, exactly the bundles
    the workers have put: none is lost, none comes twice; once [main] has
    collected [N] of them it holds them all.  Nothing is said of the
    order, in which bundles of different workers can overtake one
    another. *)
Theorem results_arrive_each_once {R : Type} (N W : nat)
    (schedule : list (action (R := R))) (s : state R) :
  run N schedule (started N W) = Some s →
  all_surrogates_results s ++ result_queue s ++ in_transit s
  ≡ₚ reported N schedule (started N W)
  ∧ (surrogates_done s = N →
     all_surrogates_results s ≡ₚ reported N schedule (started N W)).
Proof.
  intros Hrun. pose proof (run_results N schedule _ _ Hrun) as Hres.
  rewrite started_nothing_due in Hres. cbn [app] in Hres.
  split; [exact Hres|]. intros Hdone.
  destruct (collected_all N W s (invariant_run N W schedule s Hrun) Hdone)
    as [Hall _].
  by rewrite <- Hall.
Qed.

(** Two jobs, two workers: worker 0 puts its bundle first, the feeder
    thread of worker 1 is the first to hand its bundle over. *)
Lemma results_arrive_each_once_witness :
  run 2 [Worker 0 "a"; Worker 1 "b"; Worker 0 "a"; Worker 1 "b";
         Feeder 1; Feeder 0; Worker 0 "a"; Worker 1 "b";
         Main; Main; Main; Main; Main; Main]
    (started 2 2)
  = Some (State [] [[]; []] [] [Done; Done] 2 ["b"; "a"] Finished)
  ∧ reported 2 [Worker 0 "a"; Worker 1 "b"; Worker 0 "a"; Worker 1 "b";
                Feeder 1; Feeder 0; Worker 0 "a"; Worker 1 "b";
                Main; Main; Main; Main; Main; Main]
      (started 2 2)
    = ["a"; "b"]
  ∧ ["b"; "a"] ≡ₚ ["a"; "b"].
Proof.
  split; [reflexivity|]. split; [reflexivity|].
  exact (proj2 (results_arrive_each_once 2 2
                  [Worker 0 "a"; Worker 1 "b"; Worker 0 "a"; Worker 1 "b";
                   Feeder 1; Feeder 0; Worker 0 "a"; Worker 1 "b";
                   Main; Main; Main; Main; Main; Main]
                  (State [] [[]; []] [] [Done; Done] 2 ["b"; "a"] Finished)
                  eq_refl) eq_refl).
Defined.

(** X2: in every state the pool can reach, no worker has stopped while a
    job is still queued, the workers computing at once are at most
    [min N W], and [main] holds as many results as it has counted, never
    more than [N]. *)
Theorem pool_never_wastes_a_job {R : Type} (N W n : nat) (s : state R) :
  nsteps (step N) n (started N W) s →
  (Job ∈ job_queue s → Done ∉ workers s)
  ∧ tally Busy (workers s) ≤ N
  ∧ tally Busy (workers s) ≤ W
  ∧ length (all_surrogates_results s) = surrogates_done s
  ∧ surrogates_done s ≤ N.
Proof.
  intros Hrun.
  destruct (invariant_nsteps N W n _ _ (invariant_init N W) Hrun)
    as [Hlen _ (jobs & pills & Hq & Hpills & Hjobs & Hsum) Hcoll _].
  split; [|repeat split; try lia].
  - intros Hjob. apply tally_zero, Hjobs.
    rewrite Hq in Hjob. apply elem_of_app in Hjob as [Hin|Hin].
    + destruct jobs; [by apply elem_of_nil in Hin|lia].
    + by apply elem_of_replicate in Hin as [? _].
  - rewrite <- Hlen. apply tally_le_length.
Qed.

(** Three jobs, two workers, after both have taken a job. *)
Lemma pool_never_wastes_a_job_witness :
  nsteps (step 3) 2 (started (R := unit) 3 2)
    (State [Job; Pill; Pill] [[]; []] [] [Busy; Busy] 0 [] Collect)
  ∧ Done ∉ [Busy; Busy].
Proof.
  assert (Hrun : nsteps (step 3) 2 (started (R := unit) 3 2)
                   (State [Job; Pill; Pill] [[]; []] [] [Busy; Busy] 0 []
                      Collect)).
  { apply (run_nsteps 3 [Worker 0 (); Worker 1 ()]). reflexivity. }
  split; [exact Hrun|].
  apply (pool_never_wastes_a_job 3 2 2 _ Hrun).
  apply elem_of_cons. by left.
Defined.

(** X18: the loop of a worker has no handler: once a worker has died at
    work, the job it took is lost for good; in every state the pool can
    reach from there [main] is still in its loop on the result queue,
    short of [N] results, and it never gets to a [join]. *)
Theorem dead_worker_blocks_main {R : Type} (N W n m : nat)
    (s s' : state R) :
  nsteps (step N) n (started N W) s →
  Crashed ∈ workers s →
  nsteps (step N) m s s' →
  Crashed ∈ workers s'
  ∧ main_pc s' = Collect
  ∧ surrogates_done s' < N
  ∧ ¬ completed s'.
Proof.
  intros Hrun Hdead Hmore.
  assert (Hdead' : Crashed ∈ workers s').
  { clear Hrun. induction Hmore as [|m s1 s2 s3 Hstep _ IH]; [done|].
    apply IH. clear IH.
    apply list_elem_of_lookup in Hdead as [c Hc].
    apply list_elem_of_lookup.
    destruct Hstep as [w r s1 s2 Hstep | w s1 s2 Hstep | w s1 s2 Hstep
                      | s1 s2 Hstep].
    - unfold worker_step in Hstep.
      destruct (workers s1 !! w) as [[| | |]|] eqn:Hw; [| |done..].
      + destruct (job_queue s1) as [|[|] q]; [done|..];
          injection Hstep as <-; exists c; cbn;
          rewrite list_lookup_insert_ne; congruence.
      + destruct (outboxes s1 !! w); [|done].
        injection Hstep as <-; exists c; cbn.
        rewrite list_lookup_insert_ne; congruence.
    - unfold worker_fails in Hstep.
      destruct (workers s1 !! w) as [[| | |]|] eqn:Hw; try done.
      injection Hstep as <-; exists c; cbn.
      rewrite list_lookup_insert_ne; congruence.
    - unfold feeder_step in Hstep.
      destruct (outboxes s1 !! w) as [[|]|]; try done.
      injection Hstep as <-. by exists c.
    - unfold main_step in Hstep.
      destruct (main_pc s1) as [|k|]; [| |done].
      + case_decide.
        * destruct (result_queue s1); [done|].
          injection Hstep as <-. by exists c.
        * injection Hstep as <-. by exists c.
      + destruct (workers s1 !! k) as [[| | |]|]; try done;
          try (destruct (outboxes s1 !! k) as [[|]|]; try done);
          injection Hstep as <-; by exists c. }
  split; [exact Hdead'|].
  assert (Hinv : invariant N W s').
  { eapply invariant_nsteps; [|exact Hmore].
    eapply invariant_nsteps; [apply invariant_init|exact Hrun]. }
  apply list_elem_of_lookup in Hdead' as [c Hc].
  pose proof (tally_lookup_pos _ _ _ Hc) as Hpos.
  destruct Hinv as [_ _ (jobs & pills & _ & _ & _ & Hsum) _ Hmain].
  assert (Hless : surrogates_done s' < N) by lia.
  destruct (main_pc s') as [|k|] eqn:Hpc.
  - repeat split; [done|]. intros [Hfin _]. congruence.
  - destruct Hmain as [Hdone _]. lia.
  - destruct Hmain as [Hdone _]. lia.
Qed.

(** One job, one worker that dies at it: [main] waits for the result
    and the pill stays on the job queue. *)
Lemma dead_worker_blocks_main_witness :
  nsteps (step 1) 2 (started (R := unit) 1 1)
    (State [Pill] [[]] [] [Crashed] 0 [] Collect)
  ∧ main_pc (State (R := unit) [Pill] [[]] [] [Crashed] 0 [] Collect)
    = Collect.
Proof.
  assert (Hrun : nsteps (step 1) 2 (started (R := unit) 1 1)
                   (State [Pill] [[]] [] [Crashed] 0 [] Collect)).
  { apply (run_nsteps 1 [Worker 0 (); Fails 0]). reflexivity. }
  split; [exact Hrun|].
  apply (dead_worker_blocks_main 1 1 2 0 _ _ Hrun).
  - apply elem_of_cons. by left.
  - constructor.
Defined.
(* ================================================================== *)
(** * More on the Results Container *)

Lemma bind_Return_r {A} (m : outcome A) : (m ≫= λ a, Return a) = m.
Proof. by destruct m. Qed.

Section Keys.

Lemma key_inj (result_str : string) :
  Inj (=) (=) (λ key : string, result_str +:+ "_" +:+ key).
Proof. intros x y Heq. by do 2 apply append_inj in Heq. Qed.

Lemma key_fresh (result_str k : string) (keys : list string) :
  k ∉ keys →
  result_str +:+ "_" +:+ k
  ∉ (λ key : string, result_str +:+ "_" +:+ key) <$> keys.
Proof.
  intros Hk Hin. apply list_elem_of_fmap in Hin as (k' & Heq & Hin).
  apply key_inj in Heq. by subst.
Qed.

(** The loop of [flatten_result] files every item under its key. *)
Lemma flatten_loop (result_str : string) (items : list (string * pyval))
    (sd : saving) :
  NoDup items.*1 →
  for_each (λ (saving_dict : saving) '(key, value),
              mret (<[result_str +:+ "_" +:+ key := value]> saving_dict))
    sd items
  = Return (list_to_map
              (prod_map (λ key : string, result_str +:+ "_" +:+ key) id
                 <$> items) ∪ sd).
Proof.
  revert sd; induction items as [|[k v] items IH]; intros sd Hnd.
  - cbn. by rewrite (left_id ∅ (∪)).
  - rewrite fmap_cons in Hnd. apply NoDup_cons in Hnd as [Hk Hnd].
    cbn [for_each]. cbn [mret outcome_ret]. rewrite bind_Return, IH by done.
    rewrite fmap_cons.
    change (prod_map (λ key : string, result_str +:+ "_" +:+ key) id (k, v))
      with (result_str +:+ "_" +:+ k, v).
    rewrite list_to_map_cons.
    f_equal. rewrite <- insert_union_l. symmetry. apply insert_union_r.
    apply not_elem_of_list_to_map_1.
    rewrite <- list_fmap_compose.
    replace (fst ∘ prod_map (λ key : string, result_str +:+ "_" +:+ key) id
               <$> items)
      with ((λ key : string, result_str +:+ "_" +:+ key) <$> items.*1).
    + by apply key_fresh.
    + rewrite <- list_fmap_compose. by apply list_fmap_ext.
Qed.

Lemma flatten_result_dict (result_str : string) (d : gmap string pyval)
    (sd : saving) :
  flatten_result sd (result_str, PyDict d)
  = Return (kmap (λ key : string, result_str +:+ "_" +:+ key) d ∪ sd).
Proof.
  unfold flatten_result. cbn [iteritems]. rewrite bind_Return.
  rewrite flatten_loop by apply NoDup_fst_map_to_list. reflexivity.
Qed.

(** What [flatten_result] does not file it leaves alone. *)
Lemma flatten_result_other (result_str : string) (entry : pyval)
    (sd sd' : saving) (key : string) :
  flatten_result sd (result_str, entry) = Return sd' →
  (∀ k, key ≠ result_str +:+ "_" +:+ k) →
  sd' !! key = sd !! key.
Proof.
  destruct entry; try done. rewrite flatten_result_dict. intros [= <-] Hkey.
  apply lookup_union_r.
  apply (lookup_kmap_None _ (Inj0 := key_inj result_str)).
  intros k Hk. by destruct (Hkey k).
Qed.

(** On keys that are still free, stacking is filing. *)
Lemma stack_loop_fresh (result_str : string)
    (items : list (string * pyval)) (sd : saving) :
  NoDup items.*1 →
  (∀ k, k ∈ items.*1 → sd !! (result_str +:+ "_" +:+ k) = None) →
  for_each (λ (saving_dict : saving) '(key, value),
              let full_key := result_str +:+ "_" +:+ key in
              match saving_dict !! full_key with
              | Some old =>
                  stacked ← dstack_values old value;
                  mret (<[full_key := stacked]> saving_dict)
              | None => mret (<[full_key := value]> saving_dict)
              end)
    sd items
  = for_each (λ (saving_dict : saving) '(key, value),
                mret (<[result_str +:+ "_" +:+ key := value]> saving_dict))
      sd items.
Proof.
  revert sd; induction items as [|[k v] items IH]; intros sd Hnd Hfree;
    [done|].
  rewrite fmap_cons in Hnd. apply NoDup_cons in Hnd as [Hk Hnd].
  cbn [for_each]. cbv zeta.
  rewrite (Hfree k) by (rewrite fmap_cons; apply elem_of_cons; by left).
  cbn [mret outcome_ret]. rewrite !bind_Return. apply IH; [done|].
  intros k' Hk'. rewrite lookup_insert_ne.
  - apply Hfree. rewrite fmap_cons. apply elem_of_cons. by right.
  - intros Heq. apply key_inj in Heq. by subst.
Qed.

Lemma stack_result_fresh (result_str : string) (entry : pyval)
    (sd : saving) :
  (∀ k, sd !! (result_str +:+ "_" +:+ k) = None) →
  stack_result sd (result_str, entry)
  = flatten_result sd (result_str, entry).
Proof.
  intros Hfree. destruct entry; try reflexivity.
  unfold stack_result, flatten_result. cbn [iteritems].
  rewrite !bind_Return. apply stack_loop_fresh.
  - apply NoDup_fst_map_to_list.
  - intros k _. apply Hfree.
Qed.

(** While the measures met so far leave the keys of the coming ones
    free, stacking a whole bundle is filing it. *)
Lemma stack_flatten_agree (pairs : list (string * pyval)) (sd : saving) :
  ForallOrdPairs (λ p q : string * pyval,
                    ∀ k k', q.1 +:+ "_" +:+ k' ≠ p.1 +:+ "_" +:+ k) pairs →
  (∀ p k, p ∈ pairs → sd !! (p.1 +:+ "_" +:+ k) = None) →
  for_each stack_result sd pairs = for_each flatten_result sd pairs.
Proof.
  intros Hapart. revert sd.
  induction Hapart as [|[rs entry] pairs Hhead _ IH]; intros sd Hfree;
    [done|].
  cbn [for_each].
  rewrite stack_result_fresh
    by (intros k; apply (Hfree (rs, entry)), elem_of_cons; by left).
  destruct (flatten_result sd (rs, entry)) as [sd'|] eqn:Hflat; [|done].
  rewrite !bind_Return. apply IH. intros q k Hq.
  rewrite (flatten_result_other rs entry sd sd' _ Hflat).
  - apply Hfree, elem_of_cons. by right.
  - intros k'. rewrite Forall_forall in Hhead.
    by apply (Hhead q).
Qed.

Lemma result_order_apart (entries : list pyval) :
  ForallOrdPairs (λ p q : string * pyval,
                    ∀ k k', q.1 +:+ "_" +:+ k' ≠ p.1 +:+ "_" +:+ k)
    (zip RESULT_ORDER entries).
Proof.
  destruct entries as [|e0 [|e1 [|e2 [|e3 rest]]]]; cbn;
    repeat first [ apply FOP_nil | apply FOP_cons
                 | apply List.Forall_nil | apply List.Forall_cons ];
    intros k k' Heq; cbn in Heq; discriminate Heq.
Qed.

Lemma single_member_dict (bundle : pyval) :
  saving_dict_of (Container true (PyList [bundle]))
  = saving_dict_of (Container false bundle).
Proof.
  unfold saving_dict_of. cbn [surrogates results negb py_iter].
  rewrite bind_Return. cbn [for_each]. rewrite bind_Return_r.
  destruct (py_iter bundle) as [entries|]; [|done].
  rewrite !bind_Return. apply stack_flatten_agree.
  - apply result_order_apart.
  - intros. apply lookup_empty.
Qed.

End Keys.

(** X3: an ensemble of a single bundle is saved exactly as that bundle is
    saved in observed-data mode, whatever the bundle: its arrays are
    filed as they are and get no third axis. *)
Theorem save_single_member_as_observed (bundle : pyval) (filename : string)
    (fs : disk) :
  save (Container true (PyList [bundle])) filename fs
  = save (Container false bundle) filename fs.
Proof.
  unfold save. by rewrite single_member_dict.
Qed.

Section Observed.

(** A bundle within the contract is a sequence of four dictionaries. *)
Lemma bundle_ok_entries (bundle : pyval) :
  bundle_ok bundle = true →
  ∃ d0 d1 d2 d3,
    py_iter bundle = Return [PyDict d0; PyDict d1; PyDict d2; PyDict d3].
Proof.
  intros Hok.
  assert (∃ l, py_iter bundle = Return l ∧ length l = 4
               ∧ forallb entry_ok l = true) as (l & Hiter & Hlen & Hall).
  { destruct bundle; try done; cbn in Hok;
      apply andb_true_iff in Hok as [Hlen Hall];
      apply bool_decide_eq_true in Hlen; by exists l. }
  destruct l as [|e0 [|e1 [|e2 [|e3 [|e4 l]]]]]; try done.
  cbn in Hall. repeat (apply andb_true_iff in Hall as [? Hall]).
  destruct e0; try done. destruct e1; try done.
  destruct e2; try done. destruct e3; try done. by eexists _, _, _, _.
Qed.

Lemma bundle_ok_not_entry (bundle : pyval) :
  bundle_ok bundle = true → entry_ok bundle = false.
Proof. by destruct bundle. Qed.

Lemma entry_ok_not_bundle (entry : pyval) :
  entry_ok entry = true → bundle_ok entry = false.
Proof. by destruct entry. Qed.

End Observed.

(** X4: for a bundle whose dictionaries are keyed by strings, as the
    values of the model are, a container constructed in observed-data
    mode can be saved: the loops of [save] do not raise, and the
    dictionary it writes holds the value of key [k] of the [m]-th entry
    under [RESULT_ORDER[m] + "_" + k], and nothing else. *)
Theorem save_observed_files_every_value (results : pyval)
    (container : ResultsContainer) (filename : string) (fs : disk) :
  init results false = Return container →
  ∃ entries (saving_dict : saving),
    py_iter results = Return entries
    ∧ save container filename fs
      = (Return (), <[filename := saving_dict]> fs)
    ∧ ∀ key value,
        saving_dict !! key = Some value
        ↔ ∃ m result_str (d : gmap string pyval) k,
            RESULT_ORDER !! m = Some result_str
            ∧ entries !! m = Some (PyDict d)
            ∧ d !! k = Some value
            ∧ key = result_str +:+ "_" +:+ k.
Proof.
  rewrite init_spec. destruct (bundle_ok results) eqn:Hok; [|done].
  intros [= <-].
  destruct (bundle_ok_entries results Hok) as (d0 & d1 & d2 & d3 & Hiter).
  eexists _, _. split; [exact Hiter|]. split.
  { unfold save, saving_dict_of.
    cbn [Results.surrogates Results.results negb].
    rewrite Hiter, bind_Return. cbn [RESULT_ORDER zip zip_with for_each].
    repeat (rewrite flatten_result_dict, bind_Return). reflexivity. }
  intros key value. split.
  - intros Hkey.
    repeat (apply lookup_union_Some_raw in Hkey as [Hkey | [_ Hkey]]);
      [| | | |by rewrite lookup_empty in Hkey];
      apply (lookup_kmap_Some _ (Inj0 := key_inj _)) in Hkey
        as (k & -> & Hk).
    + by exists 3, "ph_amp_caus", d3, k.
    + by exists 2, "ph_ph_caus", d2, k.
    + by exists 1, "ph_amp_mi", d1, k.
    + by exists 0, "ph_ph_mi", d0, k.
  - intros (m & result_str & d & k & Hm & Hentry & Hk & ->).
    destruct m as [|[|[|[|m]]]]; try done;
      injection Hm as <-; injection Hentry as <-;
      repeat (rewrite lookup_union_r
                by (apply (lookup_kmap_None _ (Inj0 := key_inj _));
                    intros i Hi; cbn in Hi; discriminate Hi));
      apply lookup_union_Some_l;
      by rewrite (lookup_kmap _ (Inj0 := key_inj _)).
Qed.

Lemma save_observed_files_every_value_witness :
  init (py_of_grids (constant_bundle 3)) false
  = Return (Container false (py_of_grids (constant_bundle 3)))
  ∧ ∃ entries (saving_dict : saving),
      py_iter (py_of_grids (constant_bundle 3)) = Return entries
      ∧ save (Container false (py_of_grids (constant_bundle 3)))
          "bins/data.bin" ∅
        = (Return (), <["bins/data.bin" := saving_dict]> ∅).
Proof.
  split; [reflexivity|].
  destruct (save_observed_files_every_value
              (py_of_grids (constant_bundle 3))
              (Container false (py_of_grids (constant_bundle 3)))
              "bins/data.bin" ∅ eq_refl)
    as (entries & saving_dict & Hiter & Hsave & _).
  exists entries, saving_dict. split; [exact Hiter|exact Hsave].
Defined.

(** X5: the two modes of the constructor accept disjoint inputs: what is
    accepted as one bundle is rejected as an ensemble, and what is
    accepted as an ensemble is rejected as one bundle. *)
Theorem container_modes_exclude_each_other (results : pyval)
    (surrogates : bool) :
  within_contract results surrogates →
  init results (negb surrogates) = Raise AssertionError.
Proof.
  intros Hin. rewrite init_spec. destruct surrogates; cbn in Hin |- *.
  - destruct Hin as (members & Hiter & Hall).
    assert (bundle_ok results = false) as ->; [|done].
    destruct results; try done; cbn in Hiter; injection Hiter as ->;
      cbn; (destruct members as [|member members]; [done|]);
      cbn in Hall; apply andb_true_iff in Hall as [Hmember _];
      cbn; rewrite (bundle_ok_not_entry _ Hmember);
      by rewrite andb_false_r.
  - destruct (bundle_ok_entries results Hin) as (d0 & d1 & d2 & d3 & Hiter).
    destruct (py_len_of_iter _ _ Hiter) as [n ->].
    by rewrite Hiter, !bind_Return.
Qed.

Lemma container_modes_exclude_each_other_witness :
  within_contract (py_of_grids (constant_bundle 3)) false
  ∧ init (py_of_grids (constant_bundle 3)) true = Raise AssertionError.
Proof.
  split; [reflexivity|].
  apply (container_modes_exclude_each_other _ false). reflexivity.
Defined.

(** X6: an ensemble with nothing in it is accepted, whatever empty
    iterable it is, and [save] writes a dictionary without any key. *)
Theorem save_empty_ensemble (results : pyval) (filename : string)
    (fs : disk) :
  py_iter results = Return [] →
  construct_and_save results true filename fs
  = (Return (), <[filename := ∅]> fs).
Proof.
  intros Hiter. unfold construct_and_save. rewrite init_spec.
  destruct (py_len_of_iter _ _ Hiter) as [n ->].
  rewrite Hiter, !bind_Return. cbn [forallb py_assert].
  rewrite bind_Return. cbn [mret outcome_ret].
  unfold save, saving_dict_of.
  cbn [Results.surrogates Results.results negb].
  by rewrite Hiter.
Qed.

Lemma save_empty_ensemble_witness :
  py_iter (PyList []) = Return []
  ∧ construct_and_save (PyList []) true "bins/surrogates.bin" ∅
    = (Return (), <["bins/surrogates.bin" := ∅]> ∅).
Proof.
  split; [reflexivity|]. by apply save_empty_ensemble.
Defined.

Section Mismatch.

Lemma np_dstack_mismatch (S1 S2 : nat) (a b : ndarray) :
  S1 ≠ S2 → square S1 a → square S2 b →
  np_dstack [a; b] = Raise ValueError.
Proof.
  intros Hne Ha Hb. unfold np_dstack. cbn [fmap list_fmap for_each].
  rewrite (atleast_3d_square S1 a Ha), (atleast_3d_square S2 b Hb).
  unfold concatenate_axis2, stack3; cbn [shape].
  rewrite decide_False by (intros (? & _); done). reflexivity.
Qed.

Lemma square_bundle_ok (S : nat) (g : grids) :
  square_bundle S g → bundle_ok (py_of_grids g) = true.
Proof.
  intros ((a0 & b0 & E0 & _) & (a1 & b1 & E1 & _) & (a2 & b2 & E2 & _)
          & (a3 & b3 & E3 & _)).
  destruct g as [d0 d1 d2 d3]; cbn in *; subst. reflexivity.
Qed.

Lemma dstack_values_mismatch (S1 S2 : nat) (a b : ndarray) :
  S1 ≠ S2 → square S1 a → square S2 b →
  dstack_values (PyNdarray a) (PyNdarray b) = Raise ValueError.
Proof.
  intros Hne Ha Hb. unfold dstack_values.
  by rewrite (np_dstack_mismatch S1 S2 a b Hne Ha Hb).
Qed.

(** The first array [save] stacks is the one under ['knn']. *)
Lemma stack_result_mismatch (S1 S2 : nat) (result_str : string)
    (sd : saving) (a b old : ndarray) :
  S1 ≠ S2 → square S1 old → square S2 b →
  sd !! full_key result_str "knn" = Some (PyNdarray old) →
  stack_result sd (result_str, py_of_measure_set (estimator_pair a b))
  = Raise ValueError.
Proof.
  intros Hne Hold Hb Hsd.
  unfold stack_result. rewrite iteritems_pair, bind_Return.
  cbn [for_each]. fold (full_key result_str "knn"). rewrite Hsd.
  by rewrite (dstack_values_mismatch S1 S2 old b Hne Hold Hb).
Qed.

End Mismatch.

(** X7: validation does not protect [save]: an ensemble whose first two
    bundles hold square matrices of different sizes is accepted by the
    constructor, yet [save] raises [ValueError] in [np.dstack] and
    nothing is written. *)
Theorem save_raises_on_mixed_sizes (S1 S2 : nat) (g1 g2 : grids)
    (filename : string) (fs : disk) :
  S1 ≠ S2 → square_bundle S1 g1 → square_bundle S2 g2 →
  init (PyList (py_of_grids <$> [g1; g2])) true
  = Return (Container true (PyList (py_of_grids <$> [g1; g2])))
  ∧ construct_and_save (PyList (py_of_grids <$> [g1; g2])) true filename fs
    = (Raise ValueError, fs).
Proof.
  intros Hne Hg1 Hg2.
  assert (Hinit : init (PyList (py_of_grids <$> [g1; g2])) true
                  = Return (Container true
                              (PyList (py_of_grids <$> [g1; g2])))).
  { rewrite init_spec. cbn [py_len py_iter fmap list_fmap forallb].
    rewrite !bind_Return.
    change (forallb bundle_ok [py_of_grids g1; py_of_grids g2])
      with (bundle_ok (py_of_grids g1) && (bundle_ok (py_of_grids g2) && true)).
    by rewrite (square_bundle_ok S1 g1 Hg1), (square_bundle_ok S2 g2 Hg2). }
  split; [exact Hinit|].
  unfold construct_and_save. rewrite Hinit.
  unfold save, saving_dict_of.
  cbn [surrogates results negb py_iter fmap list_fmap].
  rewrite bind_Return. cbn [for_each].
  rewrite (py_of_grids_iter g1), bind_Return.
  rewrite (stack_first_bundle S1 g1 Hg1), bind_Return.
  rewrite (py_of_grids_iter g2), bind_Return.
  destruct (square_bundle_arrays S1 g1 0 Hg1) as [_ Hb1].
  destruct Hg2 as ((a & b & E & Ha & Hb) & _).
  rewrite E. cbn [RESULT_ORDER zip zip_with for_each].
  rewrite (stack_result_mismatch S1 S2 "ph_ph_mi" _ a b
             (array_of g1 0 "knn") Hne Hb1 Hb); reflexivity.
Qed.

Lemma save_raises_on_mixed_sizes_witness :
  (1 ≠ 2
   ∧ square_bundle 1 (constant_bundle 3)
   ∧ square_bundle 2
       (Grids (estimator_pair (np_zeros [2; 2]) (np_zeros [2; 2]))
          (estimator_pair (np_zeros [2; 2]) (np_zeros [2; 2]))
          (estimator_pair (np_zeros [2; 2]) (np_zeros [2; 2]))
          (estimator_pair (np_zeros [2; 2]) (np_zeros [2; 2]))))
  ∧ construct_and_save
      (PyList
         (py_of_grids
            <$> [constant_bundle 3;
                 Grids (estimator_pair (np_zeros [2; 2]) (np_zeros [2; 2]))
                   (estimator_pair (np_zeros [2; 2]) (np_zeros [2; 2]))
                   (estimator_pair (np_zeros [2; 2]) (np_zeros [2; 2]))
                   (estimator_pair (np_zeros [2; 2]) (np_zeros [2; 2]))]))
      true "bins/surrogates.bin" ∅
    = (Raise ValueError, ∅).
Proof.
  assert (H2 : square_bundle 2
                 (Grids (estimator_pair (np_zeros [2; 2]) (np_zeros [2; 2]))
                    (estimator_pair (np_zeros [2; 2]) (np_zeros [2; 2]))
                    (estimator_pair (np_zeros [2; 2]) (np_zeros [2; 2]))
                    (estimator_pair (np_zeros [2; 2]) (np_zeros [2; 2])))).
  { repeat split; by eexists _, _. }
  split; [split; [lia|split; [apply constant_bundle_square|exact H2]]|].
  apply (save_raises_on_mixed_sizes 1 2); [lia|apply constant_bundle_square|].
  exact H2.
Defined.

(* ================================================================== *)
(** * The two stages of [main] *)

Section EngineMore.
Context `{B : Backend}.

Lemma grids_after_square (f : DataField) (sc : list Z) :
  square_bundle (length sc) (grids_after f sc (length sc * length sc)).
Proof.
  repeat split;
    (eexists _, _; split; [reflexivity|];
     split; (split; [reflexivity|by apply partial_matrix_wf])).
Qed.

Lemma surrogate_result_closed (f : DataField) (sc : list Z) :
  surrogate_result f sc
  = Return (grids_after f sc (length sc * length sc)).
Proof. unfold surrogate_result. by rewrite engine_closed_form. Qed.

Lemma surrogate_results_square (sc : list Z) (bundles : list grids) :
  Forall (λ g, ∃ f, surrogate_result f sc = Return g) bundles →
  Forall (square_bundle (length sc)) bundles.
Proof.
  intros Hall. eapply Forall_impl; [exact Hall|]. intros g [f Hg].
  rewrite surrogate_result_closed in Hg. injection Hg as <-.
  apply grids_after_square.
Qed.

End EngineMore.

Section Stages.
Context `{B : Backend}.

Lemma observed_dict (S : nat) (g : grids) :
  square_bundle S g →
  saving_dict_of (Container false (py_of_grids g))
  = Return (saving_of S [g]).
Proof.
  intros Hg. rewrite <- single_member_dict.
  apply (saving_dict_of_ensemble S [g]); [done|by apply Forall_singleton].
Qed.

Lemma observed_dict_lookup (S : nat) (g : grids) (m : nat)
    (result_str estimator : string) :
  RESULT_ORDER !! m = Some result_str →
  estimator = "eqq" ∨ estimator = "knn" →
  saving_of S [g] !! full_key result_str estimator
  = Some (PyNdarray (array_of g m estimator)).
Proof.
  intros Hm Hest.
  destruct m as [|[|[|[|m]]]]; cbn in Hm; try done;
    injection Hm as <-; by destruct Hest as [-> | ->].
Qed.

Lemma ensemble_dict_lookup (S : nat) (bundles : list grids) (m : nat)
    (result_str estimator : string) :
  RESULT_ORDER !! m = Some result_str →
  estimator = "eqq" ∨ estimator = "knn" →
  saving_of S bundles !! full_key result_str estimator
  = Some (PyNdarray (stacked_value S (column m estimator bundles))).
Proof.
  intros Hm Hest.
  destruct m as [|[|[|[|m]]]]; cbn in Hm; try done;
    injection Hm as <-; by destruct Hest as [-> | ->].
Qed.

Lemma data_stage_closed (f : DataField) (sc : list Z) (fs : disk) :
  data_stage f sc fs
  = (Return (),
     <[SAVING_FILENAME +:+ "_data.bin"
       := saving_of (length sc)
            [grids_after f sc (length sc * length sc)]]> fs).
Proof.
  unfold data_stage. rewrite engine_closed_form.
  unfold construct_and_save.
  rewrite (engine_bundle_accepted (Store f sc) _ _ (engine_closed_form f sc)).
  unfold save.
  by rewrite (observed_dict (length sc) _ (grids_after_square f sc)).
Qed.

Lemma ensemble_accepted (S : nat) (bundles : list grids) :
  Forall (square_bundle S) bundles →
  init (PyList (py_of_grids <$> bundles)) true
  = Return (Container true (PyList (py_of_grids <$> bundles))).
Proof.
  intros Hall. rewrite init_spec. cbn [py_len py_iter].
  rewrite !bind_Return.
  assert (Hok : forallb bundle_ok (py_of_grids <$> bundles) = true).
  { induction Hall as [|g rest Hg _ IH]; [done|].
    rewrite fmap_cons. cbn [forallb].
    by rewrite (square_bundle_ok S g Hg), IH. }
  by rewrite Hok.
Qed.

Lemma surrogate_stage_closed (S : nat) (bundles : list grids) (fs : disk) :
  Forall (square_bundle S) bundles →
  surrogate_stage bundles fs
  = (Return (),
     <[SAVING_FILENAME +:+ "_surrogates.bin"
       := match bundles with
          | [] => ∅
          | _ => saving_of S bundles
          end]> fs).
Proof.
  intros Hall. unfold surrogate_stage, construct_and_save.
  rewrite (ensemble_accepted S bundles Hall). unfold save.
  destruct bundles as [|g rest]; [done|].
  by rewrite (saving_dict_of_ensemble S (g :: rest)).
Qed.

End Stages.

(** X9: whenever the engine returns its bundle for the series, the rest
    of the data stage of [main] does not fail: the bundle passes the
    container's validation and is written to
    ['bins/tas_Amon_MPI-ESM-HR_data.bin'], every other file is left as it
    was, and the dictionary written holds, under the eight persisted keys
    and no other, exactly the eight matrices the engine returned, each of
    shape [(S, S)]. *)
Theorem data_stage_files_the_engine_matrices `{B : Backend}
    (timeseries : DataField) (scales : list Z) (fs : disk)
    (g : grids) (mem' : store) :
  compute_information_measures (Store timeseries scales) = Return (g, mem') →
  ∃ saving_dict,
    data_stage timeseries scales fs
    = (Return (), <[SAVING_FILENAME +:+ "_data.bin" := saving_dict]> fs)
    ∧ dom saving_dict = list_to_set persisted_keys
    ∧ ∀ m result_str estimator,
        RESULT_ORDER !! m = Some result_str →
        estimator = "eqq" ∨ estimator = "knn" →
        saving_dict !! full_key result_str estimator
        = Some (PyNdarray (array_of g m estimator))
        ∧ shape (array_of g m estimator) = [length scales; length scales].
Proof.
  rewrite engine_closed_form. intros [= <- _].
  set (n := length scales).
  exists (saving_of n [grids_after timeseries scales (n * n)]).
  split; [apply data_stage_closed|].
  split; [reflexivity|].
  intros m result_str estimator Hm Hest. split.
  - by apply observed_dict_lookup.
  - destruct (square_bundle_arrays n _ m (grids_after_square timeseries scales))
      as [[Heqq _] [Hknn _]].
    by destruct Hest as [-> | ->].
Qed.

(** A series of one sample on a grid of two scales. *)
Lemma data_stage_files_the_engine_matrices_witness :
  ∃ saving_dict,
    data_stage (B := probe)
      (Field (NdArray [1] [Fin 0]) (NdArray [1] [Fin 0]) None None)
      [5; 6]%Z ∅
    = (Return (), <[SAVING_FILENAME +:+ "_data.bin" := saving_dict]> ∅).
Proof.
  destruct (data_stage_files_the_engine_matrices (B := probe)
              (Field (NdArray [1] [Fin 0]) (NdArray [1] [Fin 0]) None None)
              [5; 6]%Z ∅ _ _
              (engine_closed_form (B := probe) _ _))
    as (saving_dict & Hsave & _).
  exists saving_dict. exact Hsave.
Defined.

(** X10: the surrogate stage of [main] cannot fail on what the workers
    compute: every ensemble of bundles the engine returned over one grid
    of [S] scales passes the validation and is written to
    ['bins/tas_Amon_MPI-ESM-HR_surrogates.bin'] without an exception
    ([np.dstack] never meets two shapes); with two bundles or more each
    of the eight keys holds an array of shape [(S, S, N)]. *)
Theorem surrogate_stage_never_fails_on_engine_bundles `{B : Backend}
    (scales : list Z) (all_surrogates_results : list grids) (fs : disk) :
  Forall (λ g, ∃ field, surrogate_result field scales = Return g)
    all_surrogates_results →
  ∃ saving_dict,
    surrogate_stage all_surrogates_results fs
    = (Return (),
       <[SAVING_FILENAME +:+ "_surrogates.bin" := saving_dict]> fs)
    ∧ (2 ≤ length all_surrogates_results →
       ∀ m result_str estimator,
         RESULT_ORDER !! m = Some result_str →
         estimator = "eqq" ∨ estimator = "knn" →
         ∃ stacked,
           saving_dict !! full_key result_str estimator
           = Some (PyNdarray stacked)
           ∧ shape stacked
             = [length scales; length scales;
                length all_surrogates_results]).
Proof.
  intros Hall. apply surrogate_results_square in Hall.
  eexists. split; [by apply (surrogate_stage_closed (length scales))|].
  intros Hlen m result_str estimator Hm Hest.
  destruct all_surrogates_results as [|g rest] eqn:Hres;
    [cbn in Hlen; lia|]. rewrite <- Hres in *.
  eexists. split; [by apply ensemble_dict_lookup|].
  by apply stacked_column.
Qed.

(** Three realisations of a series on a grid of two scales. *)
Lemma surrogate_stage_never_fails_on_engine_bundles_witness :
  ∃ saving_dict,
    surrogate_stage
      ((λ x, grids_after (B := probe)
               (Field (NdArray [1] [Fin x]) (NdArray [1] [Fin 0]) None None)
               [5; 6]%Z 4) <$> [1%Q; 2%Q; 3%Q]) ∅
    = (Return (),
       <[SAVING_FILENAME +:+ "_surrogates.bin" := saving_dict]> ∅).
Proof.
  destruct (surrogate_stage_never_fails_on_engine_bundles (B := probe)
              [5; 6]%Z
              ((λ x, grids_after (B := probe)
                       (Field (NdArray [1] [Fin x]) (NdArray [1] [Fin 0])
                          None None)
                       [5; 6]%Z 4) <$> [1%Q; 2%Q; 3%Q]) ∅)
    as (saving_dict & Hsave & _).
  - repeat apply Forall_cons_2; [..|apply Forall_nil_2];
      eexists; apply (surrogate_result_closed (B := probe)).
  - by exists saving_dict.
Defined.

Section Whole.
Context `{B : Backend}.

Lemma completed_collected (N W : nat)
    (schedule : list (action (R := grids))) (s : state grids) :
  run N schedule (started N W) = Some s → completed s →
  all_surrogates_results s ≡ₚ reported N schedule (started N W)
  ∧ length (all_surrogates_results s) = N.
Proof.
  intros Hrun [Hpc _].
  pose proof (invariant_run N W schedule s Hrun) as Hinv.
  assert (Hdone : surrogates_done s = N).
  { destruct Hinv as [_ _ _ _ Hmain]. rewrite Hpc in Hmain.
    by destruct Hmain. }
  destruct (collected_all N W s Hinv Hdone) as [Hall _].
  pose proof (run_results N schedule _ _ Hrun) as Hres.
  rewrite started_nothing_due, Hall in Hres. cbn [app] in Hres.
  split; [exact Hres|].
  destruct Hinv as [_ _ _ Hcoll _]. by rewrite Hcoll.
Qed.

Lemma data_file_kept (fs : disk) (data_dict surrogate_dict : saving) :
  <[SAVING_FILENAME +:+ "_surrogates.bin" := surrogate_dict]>
    (<[SAVING_FILENAME +:+ "_data.bin" := data_dict]> fs)
  !! (SAVING_FILENAME +:+ "_data.bin") = Some data_dict.
Proof. rewrite lookup_insert_ne by done. apply lookup_insert_eq. Qed.

End Whole.

(** X11: [main] from the loaded series on, whenever the engine returns
    its bundle for the series, under any schedule of the pool that runs
    to completion and whose workers put bundles the engine computed over
    the grid of [main]: the two stages that save raise nothing, both
    files are written and the second does not replace the first, [main]
    has collected [N] bundles, which are the bundles the workers put in
    the order they arrived, and with [N >= 2] the slice [[:, :, k]] of
    every array of the surrogate file is the matrix of the [k]-th bundle
    collected. *)
Theorem main_files_data_and_surrogates `{B : Backend}
    (timeseries : DataField) (scales : list Z) (N W : nat)
    (schedule : list (action (R := grids))) (s : state grids) (fs : disk)
    (data_results : grids) (mem' : store) :
  compute_information_measures (Store timeseries scales)
  = Return (data_results, mem') →
  run N schedule (started N W) = Some s →
  completed s →
  Forall (λ g, ∃ field, surrogate_result field scales = Return g)
    (reported N schedule (started N W)) →
  ∃ data_dict surrogate_dict fs',
    main_stages timeseries scales (all_surrogates_results s) fs
    = (Return (), fs')
    ∧ fs' !! (SAVING_FILENAME +:+ "_data.bin") = Some data_dict
    ∧ fs' !! (SAVING_FILENAME +:+ "_surrogates.bin") = Some surrogate_dict
    ∧ (∀ filename,
         filename ≠ SAVING_FILENAME +:+ "_data.bin" →
         filename ≠ SAVING_FILENAME +:+ "_surrogates.bin" →
         fs' !! filename = fs !! filename)
    ∧ length (all_surrogates_results s) = N
    ∧ all_surrogates_results s ≡ₚ reported N schedule (started N W)
    ∧ (2 ≤ N →
       ∀ k g m result_str estimator,
         all_surrogates_results s !! k = Some g →
         RESULT_ORDER !! m = Some result_str →
         estimator = "eqq" ∨ estimator = "knn" →
         ∃ stacked,
           surrogate_dict !! full_key result_str estimator
           = Some (PyNdarray stacked)
           ∧ shape stacked = [length scales; length scales; N]
           ∧ slice_axis2 stacked k = Return (array_of g m estimator)).
Proof.
  intros _ Hrun Hdone Hall.
  destruct (completed_collected N W schedule s Hrun Hdone) as [Hres Hlen].
  rewrite <- Hres in Hall. apply surrogate_results_square in Hall.
  set (n := length scales) in *.
  eexists _, _, _. split; [|split; [|split; [|split; [|split; [|split]]]]].
  - unfold main_stages. rewrite data_stage_closed.
    apply (surrogate_stage_closed n _ _ Hall).
  - apply data_file_kept.
  - apply lookup_insert_eq.
  - intros filename Hdata Hsurr. by rewrite !lookup_insert_ne.
  - exact Hlen.
  - exact Hres.
  - intros HN k g m result_str estimator Hk Hm Hest.
    destruct (all_surrogates_results s) as [|g0 rest] eqn:Hcoll;
      [cbn in Hlen; lia|]. rewrite <- Hcoll in *.
    exists (stacked_value n (column m estimator (all_surrogates_results s))).
    split; [by apply ensemble_dict_lookup|].
    destruct (stacked_column n (all_surrogates_results s) m estimator)
      as [Hshape Hslice]; [lia|done|done|].
    rewrite Hshape, Hlen. split; [done|]. by apply Hslice.
Qed.

(** Two jobs and two workers on a grid of two scales; the bundle of the
    second worker arrives first. *)
Lemma main_files_data_and_surrogates_witness :
  ∃ data_dict surrogate_dict fs',
    main_stages (B := probe)
      (Field (NdArray [1] [Fin 0]) (NdArray [1] [Fin 0]) None None)
      [5; 6]%Z
      [grids_after (B := probe)
         (Field (NdArray [1] [Fin 2]) (NdArray [1] [Fin 0]) None None)
         [5; 6]%Z 4;
       grids_after (B := probe)
         (Field (NdArray [1] [Fin 1]) (NdArray [1] [Fin 0]) None None)
         [5; 6]%Z 4] ∅
    = (Return (), fs')
    ∧ fs' !! (SAVING_FILENAME +:+ "_data.bin") = Some data_dict
    ∧ fs' !! (SAVING_FILENAME +:+ "_surrogates.bin") = Some surrogate_dict.
Proof.
  pose (g1 := grids_after (B := probe)
                (Field (NdArray [1] [Fin 1]) (NdArray [1] [Fin 0]) None None)
                [5; 6]%Z 4).
  pose (g2 := grids_after (B := probe)
                (Field (NdArray [1] [Fin 2]) (NdArray [1] [Fin 0]) None None)
                [5; 6]%Z 4).
  destruct (main_files_data_and_surrogates (B := probe)
              (Field (NdArray [1] [Fin 0]) (NdArray [1] [Fin 0]) None None)
              [5; 6]%Z 2 2
              [Worker 0 g1; Worker 1 g2; Worker 0 g1; Worker 1 g2;
               Feeder 1; Feeder 0; Worker 0 g1; Worker 1 g2;
               Main; Main; Main; Main; Main; Main]
              (State [] [[]; []] [] [Done; Done] 2 [g2; g1] Finished) ∅
              _ _ (engine_closed_form (B := probe) _ _))
    as (data_dict & surrogate_dict & fs' & Hmain & Hdata & Hsurr & _).
  - reflexivity.
  - split; [reflexivity|]. by repeat constructor.
  - change (reported 2 _ _) with [g1; g2].
    repeat apply Forall_cons_2; [..|apply Forall_nil_2].
    + exists (Field (NdArray [1] [Fin 1]) (NdArray [1] [Fin 0]) None None).
      apply (surrogate_result_closed (B := probe)).
    + exists (Field (NdArray [1] [Fin 2]) (NdArray [1] [Fin 0]) None None).
      apply (surrogate_result_closed (B := probe)).
  - exists data_dict, surrogate_dict, fs'.
    split; [exact Hmain|]. split; [exact Hdata|exact Hsurr].
Defined.

Section Symmetry.

Lemma fadd_comm (x y : float64) : fadd x y = fadd y x.
Proof.
  destruct x as [[a b]|], y as [[c d]|]; try done. cbn. unfold Qplus; cbn.
  f_equal. f_equal; [lia|apply Pos.mul_comm].
Qed.

Lemma fmul_comm (x y : float64) : fmul x y = fmul y x.
Proof.
  destruct x as [[a b]|], y as [[c d]|]; try done. cbn. unfold Qmult; cbn.
  f_equal. f_equal; [lia|apply Pos.mul_comm].
Qed.

End Symmetry.

(** X17: the engine fills the cells [(i, j)] and [(j, i)] of the two
    phase-phase coherence matrices by two calls of the estimator with the
    same two phases in either order: with estimators of the mutual
    information that do not depend on the order of their two series, both
    matrices are symmetric. *)
Theorem coherence_matrices_are_symmetric `{B : Backend} (f : DataField)
    (sc : list Z) (i j : nat) :
  (∀ x y algorithm bins,
     mutual_information x y algorithm bins
     = mutual_information y x algorithm bins) →
  (∀ x y k dualtree,
     knn_mutual_information x y k dualtree
     = knn_mutual_information y x k dualtree) →
  i < length sc → j < length sc →
  ∃ g mem',
    compute_information_measures (Store f sc) = Return (g, mem')
    ∧ getitem_at (phase_phase_coherence g) "eqq" i j
      = getitem_at (phase_phase_coherence g) "eqq" j i
    ∧ getitem_at (phase_phase_coherence g) "knn" i j
      = getitem_at (phase_phase_coherence g) "knn" j i.
Proof.
  intros Heqq Hknn Hi Hj.
  destruct (lookup_lt_is_Some_2 sc i Hi) as [si Hsi].
  destruct (lookup_lt_is_Some_2 sc j Hj) as [sj Hsj].
  eexists _, _. split; [apply engine_closed_form|].
  pose proof (engine_cells f sc i j si sj Hsi Hsj) as Hij.
  pose proof (engine_cells f sc j i sj si Hsj Hsi) as Hji.
  cbv zeta in Hij, Hji.
  destruct Hij as (Hij_eqq & Hij_knn & _), Hji as (Hji_eqq & Hji_knn & _).
  rewrite Hij_eqq, Hij_knn, Hji_eqq, Hji_knn.
  unfold coherence_eqq, coherence_knn. by rewrite Heqq, Hknn.
Qed.

(** The probing backend adds, respectively multiplies, the sums of the
    two series. *)
Lemma coherence_matrices_are_symmetric_witness :
  ∃ g mem',
    compute_information_measures (B := probe)
      (Store (Field (np_zeros [3]) (np_zeros [3]) None None) [5; 6; 7]%Z)
    = Return (g, mem')
    ∧ getitem_at (phase_phase_coherence g) "eqq" 0 2
      = getitem_at (phase_phase_coherence g) "eqq" 2 0
    ∧ getitem_at (phase_phase_coherence g) "knn" 0 2
      = getitem_at (phase_phase_coherence g) "knn" 2 0.
Proof.
  apply (coherence_matrices_are_symmetric (B := probe)
           (Field (np_zeros [3]) (np_zeros [3]) None None) [5; 6; 7]%Z 0 2).
  - intros x y algorithm bins. apply fadd_comm.
  - intros x y k dualtree. apply fmul_comm.
  - cbn; lia.
  - cbn; lia.
Defined.
(* ================================================================== *)
(** * Loading the series *)

Section LoadFacts.
Context {Dataset DataArray Series Surrogate Moment : Type}.
Context (L : Libraries Dataset DataArray Series Surrogate Moment).

(** What is left of [prepare_dataset] once the variable has been read
    and its three dimensions checked. *)
Lemma prepare_dataset_checked (dataset_path : string)
    (nino_region : option string) (surrogates : bool)
    (dataset : Dataset) (variable : DataArray) :
  open_dataset DATASET_PATH = Ok dataset →
  dataset_getitem dataset DATASET_VARIABLE = Ok variable →
  prepare_dataset dataset_path nino_region surrogates
  = (_ ← check (bool_decide (ndim variable = 3));
     variable ← match nino_region return loaded DataArray with
                | Some region =>
                    box ← getitem_dict NINO_INDEX_BOUNDS region;
                    sel_lat_lon variable box.1 box.2
                | None => Ok variable
                end;
     _ ← sel_time_from variable FIRST_DATE;
     variable ← mean_lat_lon variable;
     _ ← check (bool_decide (ndim variable = 1));
     timeseries ← new_DataField (values variable);
     timeseries ← create_time_array timeseries FIRST_DATE "m";
     locals ←
       (if surrogates then
          '(timeseries, seasonality) ← get_seasonality timeseries false;
          surrogate_field ← copy_field timeseries;
          mean ← getitem_list seasonality 0;
          var ← getitem_list seasonality 1;
          timeseries ← return_seasonality timeseries mean var;
          Ok (timeseries, Some surrogate_field, Some seasonality)
        else Ok (timeseries, None, None));
     let '(timeseries, surrogate_field, seasonality) := locals in
     surrogate_field ← read_local "surrogate_field" surrogate_field;
     seasonality ← read_local "seasonality" seasonality;
     Ok (timeseries, surrogate_field, seasonality)).
Proof. intros Hopen Hvar. unfold prepare_dataset. by rewrite Hopen; cbn; rewrite Hvar. Qed.

End LoadFacts.

(** One call of the sequence: it returns [x], or its exception ends the
    function. *)
Ltac call c x :=
  destruct c as [x|];
  [cbn [mbind loaded_bind]
  |split; [by intros [? ?]|by intros [? ?]]].

(** X14: [prepare_dataset] binds [surrogate_field] and [seasonality] in
    the branch [if surrogates:] only and returns them in every case: a
    call with [surrogates=False] never returns, and whenever the call
    with [surrogates=True] returns, the same call with
    [surrogates=False] raises [UnboundLocalError] on [surrogate_field]. *)
Theorem prepare_dataset_without_surrogates_never_returns
    {Dataset DataArray Series Surrogate Moment : Type}
    (L : Libraries Dataset DataArray Series Surrogate Moment)
    (dataset_path : string) (nino_region : option string) :
  ¬ returns (prepare_dataset dataset_path nino_region false)
  ∧ (returns (prepare_dataset dataset_path nino_region true) →
     prepare_dataset dataset_path nino_region false
     = Err (UnboundLocalError "surrogate_field")).
Proof.
  unfold returns, prepare_dataset.
  call (open_dataset DATASET_PATH) dataset.
  call (dataset_getitem dataset DATASET_VARIABLE) variable.
  call (check (bool_decide (ndim variable = 3))) checked.
  call (match nino_region return loaded DataArray with
        | Some region =>
            box ← getitem_dict NINO_INDEX_BOUNDS region;
            sel_lat_lon variable box.1 box.2
        | None => Ok variable
        end) selected.
  call (sel_time_from selected FIRST_DATE) dropped.
  call (mean_lat_lon selected) averaged.
  call (check (bool_decide (ndim averaged = 1))) checked'.
  call (new_DataField (values averaged)) timeseries.
  call (create_time_array timeseries FIRST_DATE "m") timeseries'.
  split; [by intros [? ?]|done].
Qed.

(** The NINO3.4 box on the toy libraries, as [main] asks for it. *)
Lemma prepare_dataset_without_surrogates_never_returns_witness :
  returns (prepare_dataset (L := toy) "any.nc" (Some "NINO3.4") true)
  ∧ prepare_dataset (L := toy) "any.nc" (Some "NINO3.4") false
    = Err (UnboundLocalError "surrogate_field").
Proof.
  assert (Hrun : returns (prepare_dataset (L := toy) "any.nc"
                            (Some "NINO3.4") true)).
  { eexists. reflexivity. }
  split; [exact Hrun|].
  exact (proj2 (prepare_dataset_without_surrogates_never_returns toy
                  "any.nc" (Some "NINO3.4")) Hrun).
Defined.

(** X15: the checks of [prepare_dataset] come in the order of the
    source: once the variable is read, a variable that has not three
    dimensions ends the call with [AssertionError] whatever region is
    asked for, and with three dimensions a region that is no key of
    [NINO_INDEX_BOUNDS] ends it with [KeyError], before any selection or
    mean is taken. *)
Theorem prepare_dataset_checks_dimensions_then_region
    {Dataset DataArray Series Surrogate Moment : Type}
    (L : Libraries Dataset DataArray Series Surrogate Moment)
    (dataset_path : string) (surrogates : bool)
    (dataset : Dataset) (variable : DataArray) :
  open_dataset DATASET_PATH = Ok dataset →
  dataset_getitem dataset DATASET_VARIABLE = Ok variable →
  (ndim variable ≠ 3 →
   ∀ nino_region,
     prepare_dataset dataset_path nino_region surrogates
     = Err (Script AssertionError))
  ∧ (ndim variable = 3 →
     ∀ region, NINO_INDEX_BOUNDS !! region = None →
       prepare_dataset dataset_path (Some region) surrogates
       = Err (Script KeyError)).
Proof.
  intros Hopen Hvar. split.
  - intros Hdim nino_region.
    rewrite (prepare_dataset_checked L _ _ _ _ _ Hopen Hvar).
    by rewrite bool_decide_eq_false_2.
  - intros Hdim region Hregion.
    rewrite (prepare_dataset_checked L _ _ _ _ _ Hopen Hvar).
    rewrite bool_decide_eq_true_2 by done.
    unfold getitem_dict. by rewrite Hregion.
Qed.

(** A region the table does not know, on the toy libraries. *)
Lemma prepare_dataset_checks_dimensions_then_region_witness :
  prepare_dataset (L := toy) "any.nc" (Some "NINO5") true
  = Err (Script KeyError).
Proof.
  apply (proj2 (prepare_dataset_checks_dimensions_then_region toy "any.nc"
                  true () ["time"; "lat"; "lon"] eq_refl eq_refl));
    reflexivity.
Defined.

(** X16: [prepare_dataset] drops what the selection in time from
    [FIRST_DATE] returns, and it reads the module constant
    [DATASET_PATH], not its argument: whenever a call returns, the call
    under any other path and with any other selection in time that does
    not raise returns the very same series, surrogate field and
    seasonality; the series is not cut at [FIRST_DATE]. *)
Theorem prepare_dataset_drops_the_time_selection
    {Dataset DataArray Series Surrogate Moment : Type}
    (L : Libraries Dataset DataArray Series Surrogate Moment)
    (select : DataArray → string → loaded DataArray)
    (dataset_path dataset_path' : string) (nino_region : option string)
    (surrogates : bool) (out : Series * Surrogate * list Moment) :
  (∀ variable, returns (select variable FIRST_DATE)) →
  prepare_dataset (L := L) dataset_path nino_region surrogates = Ok out →
  prepare_dataset (L := with_sel_time L select) dataset_path' nino_region
    surrogates = Ok out.
Proof.
  intros Hselect. unfold prepare_dataset.
  cbn [with_sel_time open_dataset dataset_getitem ndim sel_lat_lon
       sel_time_from mean_lat_lon values new_DataField create_time_array
       get_seasonality copy_field return_seasonality].
  destruct (open_dataset DATASET_PATH) as [dataset|]; [|done]. cbn.
  destruct (dataset_getitem dataset DATASET_VARIABLE) as [variable|];
    [|done]. cbn.
  destruct (check (bool_decide (ndim variable = 3))); [|done]. cbn.
  destruct (match nino_region return loaded DataArray with
            | Some region =>
                box ← getitem_dict NINO_INDEX_BOUNDS region;
                sel_lat_lon variable box.1 box.2
            | None => Ok variable
            end) as [selected|]; [|done]. cbn.
  destruct (Hselect selected) as [cut ->].
  by destruct (sel_time_from selected FIRST_DATE).
Qed.

(** On the toy libraries, a selection in time that returns an array
    without any dimension. *)
Lemma prepare_dataset_drops_the_time_selection_witness :
  prepare_dataset (L := with_sel_time toy (λ _ _, Ok [])) "other.nc"
    (Some "NINO3.4") true
  = Ok (NdArray [2] [Fin 1; Fin 2], NdArray [2] [Fin 1; Fin 2],
        [0%Q; 1%Q; 0%Q]).
Proof.
  apply (prepare_dataset_drops_the_time_selection toy (λ _ _, Ok [])
           "any.nc" "other.nc" (Some "NINO3.4") true).
  - intros variable. by eexists.
  - reflexivity.
Defined.
